(** * BlueprintAI backend: the response normaliser and the provider cascade

    A shallow embedding of [backend/app/services/normalizer.py] and of the
    cascade of [backend/app/services/llm_service.py], with the properties
    the specification states about them.

    Python values are embedded as one inductive type [value] (what
    [json.loads] can produce); Python operations that can raise are
    embedded in a small exception monad [py], so that "never raises" is a
    theorem about the embedded function and not a by-product of typing. *)

From Stdlib Require Import String Ascii List ZArith Bool Lia DecimalString.
From Stdlib Require Import Floats.SpecFloat.
Import ListNotations.

Local Open Scope string_scope.
Local Open Scope list_scope.

Set Warnings "-register-all".

(** ** Python values *)

(** A Python [str] is a sequence of code points; this development keeps the
    code points below 256 (one [ascii] each). A [dict] keeps its entries in
    insertion order; a key is looked up from the left. *)
Inductive value : Type :=
| VNone
| VBool (b : bool)
| VInt (n : Z)
| VFloat (f : spec_float)
| VStr (s : string)
| VList (items : list value)
| VDict (entries : list (string * value)).

(** ** Exceptions and the monad of Python computations *)

Inductive exn : Type :=
| AttributeError (type_name attribute : string)
| TypeError (message : string)
| KeyError (key_repr : string)
| IndexError (message : string)
| JSONDecodeError (message : string).

Inductive py (A : Type) : Type :=
| Return (a : A)
| Raise (e : exn).

Arguments Return {A} a.
Arguments Raise {A} e.

Definition bind {A B : Type} (m : py A) (k : A -> py B) : py B :=
  match m with
  | Return a => k a
  | Raise e => Raise e
  end.

Notation "x <- m ;; k" := (bind m (fun x => k))
  (at level 61, m at next level, right associativity).
Notation "m >>= k" := (bind m k) (at level 50, left associativity).

(** ** Built-in operations *)

(** [type(v).__name__] *)
Definition type_name (v : value) : string :=
  match v with
  | VNone => "NoneType"
  | VBool _ => "bool"
  | VInt _ => "int"
  | VFloat _ => "float"
  | VStr _ => "str"
  | VList _ => "list"
  | VDict _ => "dict"
  end.

(** [bool(v)]: [None], [False], zero, the empty string, list and dict are
    false, everything else is true. *)
Definition truthy (v : value) : bool :=
  match v with
  | VNone => false
  | VBool b => b
  | VInt n => negb (Z.eqb n 0)
  | VFloat (S754_zero _) => false
  | VFloat _ => true
  | VStr s => negb (String.eqb s "")
  | VList l => match l with [] => false | _ => true end
  | VDict d => match d with [] => false | _ => true end
  end.

Definition isinstance_dict (v : value) : bool :=
  match v with VDict _ => true | _ => false end.

Definition isinstance_list (v : value) : bool :=
  match v with VList _ => true | _ => false end.

Definition isinstance_str (v : value) : bool :=
  match v with VStr _ => true | _ => false end.

(** [a or b]: [b] is evaluated only when [a] is false. *)
Definition py_or (a : value) (b : py value) : py value :=
  if truthy a then Return a else b.

(** Lookup in the entries of a dict. *)
Fixpoint lookup (key : string) (entries : list (string * value)) : option value :=
  match entries with
  | [] => None
  | (k, v) :: rest => if String.eqb k key then Some v else lookup key rest
  end.

(** [v.get(key, default)]: only a dict has the method. *)
Definition dict_get (v : value) (key : string) (default : value) : py value :=
  match v with
  | VDict d =>
      match lookup key d with
      | Some x => Return x
      | None => Return default
      end
  | _ => Raise (AttributeError (type_name v) "get")
  end.

(** [v[key]] for a string key; the [KeyError] carries [repr(key)], written
    here for a key without quote, backslash or control character. *)
Definition subscript (v : value) (key : string) : py value :=
  match v with
  | VDict d =>
      match lookup key d with
      | Some x => Return x
      | None => Raise (KeyError ("'" ++ key ++ "'"))
      end
  | VStr _ => Raise (TypeError "string indices must be integers")
  | VList _ => Raise (TypeError "list indices must be integers or slices, not str")
  | _ => Raise (TypeError ("'" ++ type_name v ++ "' object is not subscriptable"))
  end.

(** [str.isspace] on one code point below 256: TAB..CR, FS..US, SPACE,
    NEL and NBSP. *)
Definition isspace (c : ascii) : bool :=
  let n := nat_of_ascii c in
  ((9 <=? n) && (n <=? 13) || (28 <=? n) && (n <=? 32)
   || (n =? 133) || (n =? 160))%nat.

Fixpoint lstrip (s : string) : string :=
  match s with
  | EmptyString => EmptyString
  | String c r => if isspace c then lstrip r else s
  end.

Fixpoint rstrip (s : string) : string :=
  match s with
  | EmptyString => EmptyString
  | String c r =>
      match rstrip r with
      | EmptyString => if isspace c then EmptyString else String c EmptyString
      | r' => String c r'
      end
  end.

(** [s.strip()] *)
Definition strip (s : string) : string := rstrip (lstrip s).

(** [v.strip()]: only a str has the method. *)
Definition str_strip (v : value) : py value :=
  match v with
  | VStr s => Return (VStr (strip s))
  | _ => Raise (AttributeError (type_name v) "strip")
  end.

(** [v in [s1, ..., sn]] for a list of str constants: [==] between a str
    and a value of any other type is false. *)
Definition eq_str (v : value) (s : string) : bool :=
  match v with
  | VStr t => String.eqb t s
  | _ => false
  end.

Definition in_str_list (v : value) (l : list string) : bool :=
  existsb (eq_str v) l.

(** [iter(v)]: the elements of a list, the characters of a str, the keys of
    a dict; nothing else is iterable. *)
Fixpoint chars (s : string) : list value :=
  match s with
  | EmptyString => []
  | String c r => VStr (String c EmptyString) :: chars r
  end.

Definition py_iter (v : value) : py (list value) :=
  match v with
  | VList l => Return l
  | VStr s => Return (chars s)
  | VDict d => Return (map (fun kv => VStr (fst kv)) d)
  | _ => Raise (TypeError ("'" ++ type_name v ++ "' object is not iterable"))
  end.

(** [for i, x in enumerate(xs, start): acc = body(i, x, acc)] *)
Fixpoint for_enumerate {S : Type} (i : Z) (xs : list value)
    (body : Z -> value -> S -> py S) (acc : S) : py S :=
  match xs with
  | [] => Return acc
  | x :: rest => acc' <- body i x acc ;; for_enumerate (i + 1) rest body acc'
  end.

(** [for x in xs: acc = body(x, acc)] *)
Definition for_each {S : Type} (xs : list value)
    (body : value -> S -> py S) (acc : S) : py S :=
  for_enumerate 0 xs (fun _ => body) acc.

(** ** String methods used by llm_service.py *)

(** [s.lower()] on code points below 256. *)
Definition lower_char (c : ascii) : ascii :=
  let n := nat_of_ascii c in
  if ((65 <=? n) && (n <=? 90)
      || (192 <=? n) && (n <=? 222) && negb (n =? 215))%nat
  then ascii_of_nat (n + 32) else c.

Fixpoint lower (s : string) : string :=
  match s with
  | EmptyString => EmptyString
  | String c r => String (lower_char c) (lower r)
  end.

(** [needle in s] for two strs. *)
Fixpoint contains (needle s : string) : bool :=
  String.prefix needle s
  || match s with
     | EmptyString => false
     | String _ r => contains needle r
     end.

(** [s.split(sep)] for a non-empty [sep]: [skip] counts the characters of
    a separator just matched that are still to be passed over, [cur] is the
    piece being read. *)
Fixpoint split_from (sep : string) (skip : nat) (cur s : string) : list string :=
  match s with
  | EmptyString => [cur]
  | String c r =>
      match skip with
      | S k => split_from sep k cur r
      | O =>
          if String.prefix sep s
          then cur :: split_from sep (String.length sep - 1) EmptyString r
          else split_from sep 0 (cur ++ String c EmptyString) r
      end
  end.

Definition split (sep s : string) : list string := split_from sep 0 EmptyString s.

(** [s.find(c)] for a one-character [c]: the first index, or -1. *)
Fixpoint find_char (c : ascii) (s : string) : Z :=
  match s with
  | EmptyString => -1
  | String c' r =>
      if Ascii.eqb c' c then 0
      else match find_char c r with
           | Z.neg _ => -1
           | i => i + 1
           end
  end.

(** [s[i:]] for [0 <= i]. *)
Fixpoint slice_from (s : string) (i : nat) : string :=
  match i, s with
  | O, _ => s
  | S _, EmptyString => EmptyString
  | S k, String _ r => slice_from r k
  end.

(** The receiver of a str method: anything else has no such attribute. *)
Definition the_str (v : value) (method : string) : py string :=
  match v with
  | VStr s => Return s
  | _ => Raise (AttributeError (type_name v) method)
  end.

(** [needle in v] for a str [needle]. *)
Definition py_contains (needle : string) (v : value) : py bool :=
  match v with
  | VStr s => Return (contains needle s)
  | VList l => Return (existsb (fun x => eq_str x needle) l)
  | VDict d => Return (existsb (fun kv => String.eqb (fst kv) needle) d)
  | _ => Raise (TypeError ("argument of type '" ++ type_name v ++ "' is not iterable"))
  end.

(** [xs[i]] on a list. *)
Definition list_index {A : Type} (xs : list A) (i : nat) : py A :=
  match nth_error xs i with
  | Some x => Return x
  | None => Raise (IndexError "list index out of range")
  end.

(** [v[0]] *)
Definition index0 (v : value) : py value :=
  match v with
  | VList l => list_index l 0
  | VStr (String c _) => Return (VStr (String c EmptyString))
  | VStr EmptyString => Raise (IndexError "string index out of range")
  | VDict _ => Raise (KeyError "0")
  | _ => Raise (TypeError ("'" ++ type_name v ++ "' object is not subscriptable"))
  end.

(** [str(e)] *)
Definition exn_message (e : exn) : string :=
  match e with
  | AttributeError t a => "'" ++ t ++ "' object has no attribute '" ++ a ++ "'"
  | TypeError m => m
  | KeyError r => r
  | IndexError m => m
  | JSONDecodeError m => m
  end.

(** [f"{n}"] for an int. *)
Definition decimal (n : Z) : string := NilZero.string_of_int (Z.to_int n).

(** ** normalizer.py *)

Module Normalizer.

(** [_safe_string(value, default="Not provided by AI")] *)
Definition _safe_string (val : value) (default : string) : py value :=
  if truthy val && isinstance_str val then
    stripped <- str_strip val ;;
    if truthy stripped then str_strip val else Return (VStr default)
  else Return (VStr default).

Definition _safe_string_default : string := "Not provided by AI".

(** [_safe_list(value, default=None)] *)
Definition _safe_list (val : value) (default : option (list value)) : value :=
  let default := match default with None => [] | Some l => l end in
  if isinstance_list val then val else VList default.

(** The guard [if not isinstance(data, dict): data = {}]. *)
Definition dict_or_empty (data : value) : value :=
  if negb (isinstance_dict data) then VDict [] else data.

(** The guard [if not isinstance(xs, list): xs = []]. *)
Definition list_or_empty (xs : value) : value :=
  if negb (isinstance_list xs) then VList [] else xs.

(** [if not normalized: normalized = defaults] *)
Definition if_empty (normalized defaults : list value) : list value :=
  match normalized with
  | [] => defaults
  | _ => normalized
  end.

Definition _normalize_summary (data : value) : py value :=
  let data := dict_or_empty data in
  problem_statement <- dict_get data "problem_statement" VNone
    >>= (fun v => _safe_string v _safe_string_default) ;;
  target_users <- dict_get data "target_users" VNone ;;
  objectives <- dict_get data "objectives" VNone ;;
  scope <- dict_get data "scope" VNone
    >>= (fun v => _safe_string v "Defined by project requirements") ;;
  what_this_means <- dict_get data "what_this_means" VNone
    >>= (fun v => _safe_string v "This section explains your project's purpose") ;;
  why_this_matters <- dict_get data "why_this_matters" VNone
    >>= (fun v => _safe_string v "Understanding this helps you explain your project clearly") ;;
  Return (VDict [
    ("problem_statement", problem_statement);
    ("target_users", _safe_list target_users (Some [VStr "Users"]));
    ("objectives", _safe_list objectives (Some [VStr "Complete the project"]));
    ("scope", scope);
    ("what_this_means", what_this_means);
    ("why_this_matters", why_this_matters)]).

Definition default_features : list value :=
  [VDict [
    ("feature_name", VStr "Core Feature");
    ("what_it_does", VStr "Provides the main functionality");
    ("why_it_exists", VStr "To solve the core problem");
    ("how_it_helps", VStr "Delivers value to users");
    ("limitations", VStr "Specific limitations depend on implementation")]].

Definition _normalize_features (data : value) : py value :=
  let data := dict_or_empty data in
  features_list <- dict_get data "features" (VList []) ;;
  let features_list := list_or_empty features_list in
  items <- py_iter features_list ;;
  normalized_features <- for_each items (fun f normalized_features =>
    if isinstance_dict f then
      feature_name <- dict_get f "feature_name" VNone
        >>= (fun v => _safe_string v "Feature") ;;
      what_it_does <- dict_get f "what_it_does" VNone
        >>= (fun v => _safe_string v "Provides functionality to users") ;;
      why_it_exists <- dict_get f "why_it_exists" VNone
        >>= (fun v => _safe_string v "Addresses a user need") ;;
      how_it_helps <- dict_get f "how_it_helps" VNone
        >>= (fun v => _safe_string v "Improves user experience") ;;
      limitations <- dict_get f "limitations" VNone
        >>= (fun v => _safe_string v "None specified") ;;
      Return (normalized_features ++ [VDict [
        ("feature_name", feature_name);
        ("what_it_does", what_it_does);
        ("why_it_exists", why_it_exists);
        ("how_it_helps", how_it_helps);
        ("limitations", limitations)]])
    else Return normalized_features) [] ;;
  let normalized_features := if_empty normalized_features default_features in
  Return (VDict [("features", VList normalized_features)]).

Definition _normalize_feasibility (data : value) : py value :=
  let data := dict_or_empty data in
  level <- dict_get data "feasibility_level" (VStr "Medium") ;;
  let level :=
    if negb (in_str_list level ["High"; "Medium"; "Low"]) then VStr "Medium"
    else level in
  feasibility_explanation <- dict_get data "feasibility_explanation" VNone
    >>= (fun v => _safe_string v "This project is achievable for a college student") ;;
  strengths <- dict_get data "strengths" VNone ;;
  risks <- dict_get data "risks" VNone ;;
  why_this_matters <- dict_get data "why_this_matters" VNone
    >>= (fun v => _safe_string v "Knowing feasibility helps you plan realistically") ;;
  Return (VDict [
    ("feasibility_level", level);
    ("feasibility_explanation", feasibility_explanation);
    ("strengths", _safe_list strengths (Some [VStr "Good educational value"]));
    ("risks", _safe_list risks (Some [VStr "Time management is important"]));
    ("why_this_matters", why_this_matters)]).

Definition flow_step (step_number : value) (actor action explanation : value) : value :=
  VDict [
    ("step_number", step_number);
    ("actor", actor);
    ("action", action);
    ("explanation", explanation)].

Definition default_steps : list value :=
  [flow_step (VInt 1) (VStr "User") (VStr "Opens application") (VStr "Entry point");
   flow_step (VInt 2) (VStr "System") (VStr "Processes request") (VStr "Core processing");
   flow_step (VInt 3) (VStr "System") (VStr "Returns result") (VStr "Output to user")].

Definition _normalize_system_flow (data : value) : py value :=
  let data := dict_or_empty data in
  steps <- dict_get data "steps" (VList []) ;;
  let steps := list_or_empty steps in
  items <- py_iter steps ;;
  normalized_steps <- for_enumerate 0 items (fun i step normalized_steps =>
    if isinstance_dict step then
      step_number <- dict_get step "step_number" (VInt (i + 1)) ;;
      actor <- dict_get step "actor" VNone
        >>= (fun v => _safe_string v "User") ;;
      action <- dict_get step "action" VNone
        >>= (fun v => _safe_string v "Performs action") ;;
      explanation <- dict_get step "explanation" VNone
        >>= (fun v => _safe_string v "Part of the workflow") ;;
      Return (normalized_steps ++ [flow_step step_number actor action explanation])
    else Return normalized_steps) [] ;;
  let normalized_steps := if_empty normalized_steps default_steps in
  flow_title <- dict_get data "flow_title" VNone
    >>= (fun v => _safe_string v "System Flow") ;;
  summary <- dict_get data "summary" VNone
    >>= (fun v => _safe_string v "This flow shows how users interact with the system") ;;
  Return (VDict [
    ("flow_title", flow_title);
    ("steps", VList normalized_steps);
    ("summary", summary)]).

Definition primary_entry (category technology justification skill_level : value) : value :=
  VDict [
    ("category", category);
    ("technology", technology);
    ("justification", justification);
    ("skill_level", skill_level)].

Definition default_primary_stack : list value :=
  [primary_entry (VStr "Frontend") (VStr "HTML/CSS/JavaScript")
     (VStr "Universal web technologies") (VStr "Beginner-friendly");
   primary_entry (VStr "Backend") (VStr "Python or Node.js")
     (VStr "Common choices for web apps") (VStr "Beginner-friendly");
   primary_entry (VStr "Database") (VStr "MySQL or MongoDB")
     (VStr "Well-documented options") (VStr "Beginner-friendly")].

Definition _normalize_tech_stack (data : value) : py value :=
  let data := dict_or_empty data in
  primary <- dict_get data "primary_stack" (VList []) ;;
  let primary := list_or_empty primary in
  items <- py_iter primary ;;
  normalized_primary <- for_each items (fun item normalized_primary =>
    if isinstance_dict item then
      category <- dict_get item "category" VNone
        >>= (fun v => _safe_string v "General") ;;
      technology <- dict_get item "technology" VNone
        >>= (fun v => _safe_string v "Technology") ;;
      justification <- dict_get item "justification" VNone
        >>= (fun v => _safe_string v "Suitable for this project") ;;
      skill_level <- dict_get item "skill_level" VNone
        >>= (fun v => _safe_string v "Beginner-friendly") ;;
      Return (normalized_primary
                ++ [primary_entry category technology justification skill_level])
    else Return normalized_primary) [] ;;
  backup <- dict_get data "backup_stack" (VList []) ;;
  let backup := list_or_empty backup in
  items <- py_iter backup ;;
  normalized_backup <- for_each items (fun item normalized_backup =>
    if isinstance_dict item then
      category <- dict_get item "category" VNone
        >>= (fun v => _safe_string v "General") ;;
      technology <- dict_get item "technology" VNone
        >>= (fun v => _safe_string v "Alternative") ;;
      why_backup <- dict_get item "why_backup" VNone
        >>= (fun v => _safe_string v "Alternative option if needed") ;;
      Return (normalized_backup ++ [VDict [
        ("category", category);
        ("technology", technology);
        ("why_backup", why_backup)]])
    else Return normalized_backup) [] ;;
  let normalized_primary := if_empty normalized_primary default_primary_stack in
  Return (VDict [
    ("primary_stack", VList normalized_primary);
    ("backup_stack", VList normalized_backup)]).

Definition _normalize_comparison (data : value) : py value :=
  let data := dict_or_empty data in
  solutions <- dict_get data "existing_solutions" (VList []) ;;
  let solutions := list_or_empty solutions in
  items <- py_iter solutions ;;
  normalized_solutions <- for_each items (fun sol normalized_solutions =>
    if isinstance_dict sol then
      solution_name <- dict_get sol "solution_name" VNone
        >>= (fun v => _safe_string v "Existing Solution") ;;
      what_it_does <- dict_get sol "what_it_does" VNone
        >>= (fun v => _safe_string v "Provides similar functionality") ;;
      limitations <- dict_get sol "limitations" VNone
        >>= (fun v => _safe_string v "May not fit specific needs") ;;
      Return (normalized_solutions ++ [VDict [
        ("solution_name", solution_name);
        ("what_it_does", what_it_does);
        ("limitations", limitations)]])
    else Return normalized_solutions) [] ;;
  unique_aspects <- dict_get data "unique_aspects" VNone ;;
  still_valuable <- dict_get data "why_this_project_is_still_valuable" VNone ;;
  still_valuable <- py_or still_valuable (dict_get data "why_still_valuable" VNone) ;;
  summary_insight <- dict_get data "summary_insight" VNone
    >>= (fun v => _safe_string v
      "Even though similar systems exist, this project provides valuable learning and customization opportunities.") ;;
  Return (VDict [
    ("existing_solutions", VList normalized_solutions);
    ("unique_aspects",
      _safe_list unique_aspects (Some [VStr "Custom solution for specific needs"]));
    ("why_this_project_is_still_valuable",
      _safe_list still_valuable
        (Some [VStr "Learning experience"; VStr "Tailored to specific requirements"]));
    ("summary_insight", summary_insight)]).

Definition common_question (question suggested_answer why_asked : value) : value :=
  VDict [
    ("question", question);
    ("suggested_answer", suggested_answer);
    ("why_asked", why_asked)].

Definition hackathon_question (question suggested_response key_points : value) : value :=
  VDict [
    ("question", question);
    ("suggested_response", suggested_response);
    ("key_points", key_points)].

Definition default_common_questions : list value :=
  [common_question (VStr "Why did you choose this project?")
     (VStr "It solves a real problem I observed") (VStr "Tests motivation");
   common_question (VStr "What challenges did you face?")
     (VStr "Learning new technologies and time management")
     (VStr "Tests problem-solving")].

Definition default_hackathon_questions : list value :=
  [hackathon_question (VStr "What makes this unique?")
     (VStr "Tailored to specific user needs")
     (VList [VStr "User focus"; VStr "Practical value"])].

Definition _normalize_viva (data : value) : py value :=
  let data := dict_or_empty data in
  common_qs <- dict_get data "common_questions" (VList []) ;;
  let common_qs := list_or_empty common_qs in
  items <- py_iter common_qs ;;
  normalized_common <- for_each items (fun q normalized_common =>
    if isinstance_dict q then
      question <- dict_get q "question" VNone
        >>= (fun v => _safe_string v "Question") ;;
      suggested_answer <- dict_get q "suggested_answer" VNone
        >>= (fun v => _safe_string v "Provide a clear, concise answer") ;;
      why_asked <- dict_get q "why_asked" VNone
        >>= (fun v => _safe_string v "To assess your understanding") ;;
      Return (normalized_common ++ [common_question question suggested_answer why_asked])
    else Return normalized_common) [] ;;
  hackathon_qs <- dict_get data "hackathon_questions" (VList []) ;;
  let hackathon_qs := list_or_empty hackathon_qs in
  items <- py_iter hackathon_qs ;;
  normalized_hackathon <- for_each items (fun q normalized_hackathon =>
    if isinstance_dict q then
      question <- dict_get q "question" VNone
        >>= (fun v => _safe_string v "Question") ;;
      suggested_response <- dict_get q "suggested_response" VNone
        >>= (fun v => _safe_string v "Provide a confident response") ;;
      key_points <- dict_get q "key_points" VNone ;;
      Return (normalized_hackathon ++ [hackathon_question question suggested_response
        (_safe_list key_points (Some [VStr "Focus on value delivered"]))])
    else Return normalized_hackathon) [] ;;
  let normalized_common := if_empty normalized_common default_common_questions in
  let normalized_hackathon :=
    if_empty normalized_hackathon default_hackathon_questions in
  project_overview_explanation <- dict_get data "project_overview_explanation" VNone
    >>= (fun v => _safe_string v
      "This project solves a real problem using modern technology") ;;
  problem_statement_explanation <- dict_get data "problem_statement_explanation" VNone
    >>= (fun v => _safe_string v
      "The problem affects users in their daily workflow") ;;
  architecture_explanation <- dict_get data "architecture_explanation" VNone
    >>= (fun v => _safe_string v
      "The system uses a standard three-tier architecture") ;;
  unique_feature_explanation <- dict_get data "unique_feature_explanation" VNone
    >>= (fun v => _safe_string v
      "What makes this project special is its focus on the user experience") ;;
  Return (VDict [
    ("project_overview_explanation", project_overview_explanation);
    ("problem_statement_explanation", problem_statement_explanation);
    ("architecture_explanation", architecture_explanation);
    ("unique_feature_explanation", unique_feature_explanation);
    ("common_questions", VList normalized_common);
    ("hackathon_questions", VList normalized_hackathon)]).

Definition _normalize_pitch (data : value) : py value :=
  let data := dict_or_empty data in
  thirty_second_pitch <- dict_get data "thirty_second_pitch" VNone
    >>= (fun v => _safe_string v
      "This project solves a real problem by providing an efficient digital solution. It saves time, reduces errors, and improves the user experience.") ;;
  one_minute_pitch <- dict_get data "one_minute_pitch" VNone
    >>= (fun v => _safe_string v
      "Every day, users face challenges with manual processes. This project automates those processes, providing a faster, more reliable solution. Built with modern technologies, it's designed to be user-friendly and scalable. The system is ideal for educational or organizational settings where efficiency matters.") ;;
  key_points <- dict_get data "key_points" VNone ;;
  Return (VDict [
    ("thirty_second_pitch", thirty_second_pitch);
    ("one_minute_pitch", one_minute_pitch);
    ("key_points", _safe_list key_points
      (Some [VStr "Solves real problem"; VStr "Saves time"; VStr "User-friendly"]))]).

(** The line feed of the triple-quoted Mermaid defaults. *)
Definition LF : string := String (ascii_of_nat 10) EmptyString.

Definition lines (ls : list string) : string := String.concat LF ls.

Definition default_user_flow : string :=
  lines [
    "flowchart TD";
    "    A[User Opens App] --> B{Login Required?}";
    "    B -->|Yes| C[Login Page]";
    "    B -->|No| D[Dashboard]";
    "    C --> E[Enter Credentials]";
    "    E --> F{Valid?}";
    "    F -->|No| C";
    "    F -->|Yes| D";
    "    D --> G[Use Features]";
    "    G --> H[Complete Task]"].

Definition default_tech_stack : string :=
  lines [
    "flowchart LR";
    "    subgraph Frontend";
    "        A[Web Interface]";
    "    end";
    "    subgraph Backend";
    "        B[API Server]";
    "    end";
    "    subgraph Database";
    "        C[(Data Storage)]";
    "    end";
    "    A -->|HTTP| B";
    "    B -->|Queries| C"].

Definition _normalize_diagrams (data : value) : py value :=
  let data := dict_or_empty data in
  user_flow_mermaid <- dict_get data "user_flow_mermaid" VNone
    >>= (fun v => _safe_string v default_user_flow) ;;
  tech_stack_mermaid <- dict_get data "tech_stack_mermaid" VNone
    >>= (fun v => _safe_string v default_tech_stack) ;;
  Return (VDict [
    ("user_flow_mermaid", user_flow_mermaid);
    ("tech_stack_mermaid", tech_stack_mermaid)]).

Definition get_fallback_blueprint : py value :=
  summary <- _normalize_summary (VDict []) ;;
  features <- _normalize_features (VDict []) ;;
  feasibility <- _normalize_feasibility (VDict []) ;;
  system_flow <- _normalize_system_flow (VDict []) ;;
  tech_stack <- _normalize_tech_stack (VDict []) ;;
  comparison <- _normalize_comparison (VDict []) ;;
  viva <- _normalize_viva (VDict []) ;;
  pitch <- _normalize_pitch (VDict []) ;;
  diagrams <- _normalize_diagrams (VDict []) ;;
  Return (VDict [
    ("summary", summary);
    ("features", features);
    ("feasibility", feasibility);
    ("system_flow", system_flow);
    ("tech_stack", tech_stack);
    ("comparison", comparison);
    ("viva", viva);
    ("pitch", pitch);
    ("diagrams", diagrams)]).

Definition normalize_blueprint (raw : value) : py value :=
  if negb (truthy raw) || negb (isinstance_dict raw) then get_fallback_blueprint
  else
    summary <- dict_get raw "summary" (VDict []) >>= _normalize_summary ;;
    features <- dict_get raw "features" (VDict []) >>= _normalize_features ;;
    feasibility <- dict_get raw "feasibility" (VDict []) >>= _normalize_feasibility ;;
    system_flow <- dict_get raw "system_flow" (VDict []) >>= _normalize_system_flow ;;
    tech_stack <- dict_get raw "tech_stack" (VDict []) >>= _normalize_tech_stack ;;
    comparison <- dict_get raw "comparison" (VDict []) >>= _normalize_comparison ;;
    viva <- dict_get raw "viva" (VDict []) >>= _normalize_viva ;;
    pitch <- dict_get raw "pitch" (VDict []) >>= _normalize_pitch ;;
    diagrams <- dict_get raw "diagrams" (VDict []) >>= _normalize_diagrams ;;
    Return (VDict [
      ("summary", summary);
      ("features", features);
      ("feasibility", feasibility);
      ("system_flow", system_flow);
      ("tech_stack", tech_stack);
      ("comparison", comparison);
      ("viva", viva);
      ("pitch", pitch);
      ("diagrams", diagrams)]).

(** [normalized[k1][k2]] *)
Definition subscript2 (v : value) (k1 k2 : string) : py value :=
  subscript v k1 >>= (fun s => subscript s k2).

Definition map_to_frontend_format (normalized : value) : py value :=
  e_problem_statement <- subscript2 normalized "summary" "problem_statement" ;;
  e_target_users <- subscript2 normalized "summary" "target_users" ;;
  e_objectives <- subscript2 normalized "summary" "objectives" ;;
  e_scope <- subscript2 normalized "summary" "scope" ;;
  e_what_this_means <- subscript2 normalized "summary" "what_this_means" ;;
  e_why_this_matters <- subscript2 normalized "summary" "why_this_matters" ;;
  evaluation <- subscript normalized "feasibility" ;;
  featuresDetailed <- subscript normalized "features" ;;
  systemFlow <- subscript normalized "system_flow" ;;
  techStack <- subscript2 normalized "tech_stack" "primary_stack" ;;
  x_primary_stack <- subscript2 normalized "tech_stack" "primary_stack" ;;
  x_alternatives <- subscript2 normalized "tech_stack" "backup_stack" ;;
  comparison <- subscript normalized "comparison" ;;
  v_project_overview <- subscript2 normalized "viva" "project_overview_explanation" ;;
  v_problem_statement <- subscript2 normalized "viva" "problem_statement_explanation" ;;
  v_architecture <- subscript2 normalized "viva" "architecture_explanation" ;;
  v_unique_feature <- subscript2 normalized "viva" "unique_feature_explanation" ;;
  v_common_questions <- subscript2 normalized "viva" "common_questions" ;;
  h_viva_questions <- subscript2 normalized "viva" "common_questions" ;;
  h_hackathon_questions <- subscript2 normalized "viva" "hackathon_questions" ;;
  pitch <- subscript normalized "pitch" ;;
  userFlowMermaid <- subscript2 normalized "diagrams" "user_flow_mermaid" ;;
  techStackMermaid <- subscript2 normalized "diagrams" "tech_stack_mermaid" ;;
  Return (VDict [
    ("expandedIdea", VDict [
      ("problem_statement", e_problem_statement);
      ("target_users", e_target_users);
      ("objectives", e_objectives);
      ("scope", e_scope);
      ("what_this_means", e_what_this_means);
      ("why_this_matters", e_why_this_matters)]);
    ("evaluation", evaluation);
    ("featuresDetailed", featuresDetailed);
    ("systemFlow", systemFlow);
    ("techStack", techStack);
    ("techStackExtended", VDict [
      ("primary_stack", x_primary_stack);
      ("alternatives", x_alternatives)]);
    ("comparison", comparison);
    ("vivaGuide", VDict [
      ("project_overview_explanation", v_project_overview);
      ("problem_statement_explanation", v_problem_statement);
      ("architecture_explanation", v_architecture);
      ("unique_feature_explanation", v_unique_feature);
      ("common_questions", v_common_questions)]);
    ("hackathonViva", VDict [
      ("viva_questions", h_viva_questions);
      ("hackathon_questions", h_hackathon_questions)]);
    ("pitch", pitch);
    ("userFlowMermaid", userFlowMermaid);
    ("techStackMermaid", techStackMermaid)]).

End Normalizer.

(** ** The normaliser in closed form

    What each section normaliser returns, written as a pure function of the
    entries of its argument. The lemmas [_normalize_*_eq] below show that
    the code returns exactly these values. *)

Module Closed.
Import Normalizer.

Definition entries_of (data : value) : list (string * value) :=
  match data with VDict d => d | _ => [] end.

Definition items_of (xs : value) : list value :=
  match xs with VList l => l | _ => [] end.

Definition get (d : list (string * value)) (key : string) (default : value) : value :=
  match lookup key d with Some x => x | None => default end.

Definition safe_string (val : value) (default : string) : string :=
  match val with
  | VStr s => if String.eqb (strip s) "" then default else strip s
  | _ => default
  end.

Definition str_field (d : list (string * value)) (key default : string) : value :=
  VStr (safe_string (get d key VNone) default).

Definition list_field (d : list (string * value)) (key : string)
    (default : list value) : value :=
  _safe_list (get d key VNone) (Some default).

(** The dict elements of [items], each rebuilt by [f] from its position
    (counted over all of [items], from [i]) and its entries. *)
Fixpoint records (f : Z -> list (string * value) -> value) (i : Z)
    (items : list value) : list value :=
  match items with
  | [] => []
  | VDict d :: rest => f i d :: records f (i + 1) rest
  | _ :: rest => records f (i + 1) rest
  end.

Definition record_list (f : Z -> list (string * value) -> value)
    (d : list (string * value)) (key : string) : list value :=
  records f 0 (items_of (get d key (VList []))).

Definition summary_of (d : list (string * value)) : value :=
  VDict [
    ("problem_statement", str_field d "problem_statement" "Not provided by AI");
    ("target_users", list_field d "target_users" [VStr "Users"]);
    ("objectives", list_field d "objectives" [VStr "Complete the project"]);
    ("scope", str_field d "scope" "Defined by project requirements");
    ("what_this_means",
      str_field d "what_this_means" "This section explains your project's purpose");
    ("why_this_matters",
      str_field d "why_this_matters"
        "Understanding this helps you explain your project clearly")].

Definition feature_of (_ : Z) (f : list (string * value)) : value :=
  VDict [
    ("feature_name", str_field f "feature_name" "Feature");
    ("what_it_does", str_field f "what_it_does" "Provides functionality to users");
    ("why_it_exists", str_field f "why_it_exists" "Addresses a user need");
    ("how_it_helps", str_field f "how_it_helps" "Improves user experience");
    ("limitations", str_field f "limitations" "None specified")].

Definition features_of (d : list (string * value)) : value :=
  VDict [
    ("features",
      VList (if_empty (record_list feature_of d "features") default_features))].

Definition level_of (d : list (string * value)) : value :=
  let level := get d "feasibility_level" (VStr "Medium") in
  if in_str_list level ["High"; "Medium"; "Low"] then level else VStr "Medium".

Definition feasibility_of (d : list (string * value)) : value :=
  VDict [
    ("feasibility_level", level_of d);
    ("feasibility_explanation",
      str_field d "feasibility_explanation"
        "This project is achievable for a college student");
    ("strengths", list_field d "strengths" [VStr "Good educational value"]);
    ("risks", list_field d "risks" [VStr "Time management is important"]);
    ("why_this_matters",
      str_field d "why_this_matters"
        "Knowing feasibility helps you plan realistically")].

Definition step_of (i : Z) (step : list (string * value)) : value :=
  flow_step (get step "step_number" (VInt (i + 1)))
    (str_field step "actor" "User")
    (str_field step "action" "Performs action")
    (str_field step "explanation" "Part of the workflow").

Definition system_flow_of (d : list (string * value)) : value :=
  VDict [
    ("flow_title", str_field d "flow_title" "System Flow");
    ("steps", VList (if_empty (record_list step_of d "steps") default_steps));
    ("summary",
      str_field d "summary" "This flow shows how users interact with the system")].

Definition primary_of (_ : Z) (item : list (string * value)) : value :=
  primary_entry (str_field item "category" "General")
    (str_field item "technology" "Technology")
    (str_field item "justification" "Suitable for this project")
    (str_field item "skill_level" "Beginner-friendly").

Definition backup_of (_ : Z) (item : list (string * value)) : value :=
  VDict [
    ("category", str_field item "category" "General");
    ("technology", str_field item "technology" "Alternative");
    ("why_backup", str_field item "why_backup" "Alternative option if needed")].

Definition tech_stack_of (d : list (string * value)) : value :=
  VDict [
    ("primary_stack",
      VList (if_empty (record_list primary_of d "primary_stack") default_primary_stack));
    ("backup_stack", VList (record_list backup_of d "backup_stack"))].

Definition solution_of (_ : Z) (sol : list (string * value)) : value :=
  VDict [
    ("solution_name", str_field sol "solution_name" "Existing Solution");
    ("what_it_does", str_field sol "what_it_does" "Provides similar functionality");
    ("limitations", str_field sol "limitations" "May not fit specific needs")].

Definition still_valuable_of (d : list (string * value)) : value :=
  let primary := get d "why_this_project_is_still_valuable" VNone in
  _safe_list
    (if truthy primary then primary else get d "why_still_valuable" VNone)
    (Some [VStr "Learning experience"; VStr "Tailored to specific requirements"]).

Definition comparison_of (d : list (string * value)) : value :=
  VDict [
    ("existing_solutions", VList (record_list solution_of d "existing_solutions"));
    ("unique_aspects",
      list_field d "unique_aspects" [VStr "Custom solution for specific needs"]);
    ("why_this_project_is_still_valuable", still_valuable_of d);
    ("summary_insight",
      str_field d "summary_insight"
        "Even though similar systems exist, this project provides valuable learning and customization opportunities.")].

Definition common_of (_ : Z) (q : list (string * value)) : value :=
  common_question (str_field q "question" "Question")
    (str_field q "suggested_answer" "Provide a clear, concise answer")
    (str_field q "why_asked" "To assess your understanding").

Definition hackathon_of (_ : Z) (q : list (string * value)) : value :=
  hackathon_question (str_field q "question" "Question")
    (str_field q "suggested_response" "Provide a confident response")
    (list_field q "key_points" [VStr "Focus on value delivered"]).

Definition viva_of (d : list (string * value)) : value :=
  VDict [
    ("project_overview_explanation",
      str_field d "project_overview_explanation"
        "This project solves a real problem using modern technology");
    ("problem_statement_explanation",
      str_field d "problem_statement_explanation"
        "The problem affects users in their daily workflow");
    ("architecture_explanation",
      str_field d "architecture_explanation"
        "The system uses a standard three-tier architecture");
    ("unique_feature_explanation",
      str_field d "unique_feature_explanation"
        "What makes this project special is its focus on the user experience");
    ("common_questions",
      VList (if_empty (record_list common_of d "common_questions")
               default_common_questions));
    ("hackathon_questions",
      VList (if_empty (record_list hackathon_of d "hackathon_questions")
               default_hackathon_questions))].

Definition pitch_of (d : list (string * value)) : value :=
  VDict [
    ("thirty_second_pitch",
      str_field d "thirty_second_pitch"
        "This project solves a real problem by providing an efficient digital solution. It saves time, reduces errors, and improves the user experience.");
    ("one_minute_pitch",
      str_field d "one_minute_pitch"
        "Every day, users face challenges with manual processes. This project automates those processes, providing a faster, more reliable solution. Built with modern technologies, it's designed to be user-friendly and scalable. The system is ideal for educational or organizational settings where efficiency matters.");
    ("key_points",
      list_field d "key_points"
        [VStr "Solves real problem"; VStr "Saves time"; VStr "User-friendly"])].

Definition diagrams_of (d : list (string * value)) : value :=
  VDict [
    ("user_flow_mermaid", str_field d "user_flow_mermaid" default_user_flow);
    ("tech_stack_mermaid", str_field d "tech_stack_mermaid" default_tech_stack)].

(** The blueprint built from the sections of [raw]; a section that is
    absent or not a dict contributes no entries. *)
Definition blueprint_of (raw : list (string * value)) : value :=
  let section name := entries_of (get raw name (VDict [])) in
  VDict [
    ("summary", summary_of (section "summary"));
    ("features", features_of (section "features"));
    ("feasibility", feasibility_of (section "feasibility"));
    ("system_flow", system_flow_of (section "system_flow"));
    ("tech_stack", tech_stack_of (section "tech_stack"));
    ("comparison", comparison_of (section "comparison"));
    ("viva", viva_of (section "viva"));
    ("pitch", pitch_of (section "pitch"));
    ("diagrams", diagrams_of (section "diagrams"))].

(** [f] rebuilds its own output: whatever the position, normalising an
    element it produced gives the element back. *)
Definition rebuilds (f : Z -> list (string * value) -> value) : Prop :=
  forall i j d, exists e, f i d = VDict e /\ f j e = VDict e.

End Closed.

(** ** llm_service.py *)

Module LlmService.

(** The process environment read at import time
    ([os.getenv(name, "")]). *)
Record environment : Type := {
  GEMINI_API_KEY : string;
  GROQ_API_KEY : string;
  OPENROUTER_API_KEY : string }.

Definition GEMINI_API_URL : string :=
  "https://generativelanguage.googleapis.com/v1beta/models/gemini-2.5-flash:generateContent".
Definition GROQ_API_URL : string := "https://api.groq.com/openai/v1/chat/completions".
Definition OPENROUTER_API_URL : string := "https://openrouter.ai/api/v1/chat/completions".

Definition PROVIDER_ORDER : list string := ["gemini"; "groq"; "openrouter"].

(** [key and key.strip() and key != "YOUR_API_KEY_HERE"], as a truth value. *)
Definition _has_valid_key (key : string) : bool :=
  truthy (VStr key) && truthy (VStr (strip key))
  && negb (String.eqb key "YOUR_API_KEY_HERE").

Definition IS_DEMO_MODE (env : environment) : bool :=
  negb (existsb (fun b : bool => b)
          [_has_valid_key (GEMINI_API_KEY env);
           _has_valid_key (GROQ_API_KEY env);
           _has_valid_key (OPENROUTER_API_KEY env)]).

(** *** The HTTP client *)

Record request : Type := {
  url : string;
  headers : list (string * string);
  json : value;
  timeout : Z }.

(** What [client.post] does: a response with its status code and what
    [response.json()] gives (the parsed body, or the exception it raises),
    [httpx.TimeoutException], or any other exception raised before the
    status is looked at, with its [str(e)]. The [print] lines of the source
    only report; they are left out. *)
Inductive http_outcome : Type :=
| Responded (status_code : Z) (body : py value)
| TimeoutException
| OtherException (message : string).

(** Computations that talk to the network: they extend the log of the
    requests sent so far. *)
Definition io (A : Type) : Type := list request -> A * list request.

Definition io_ret {A : Type} (a : A) : io A := fun log => (a, log).

Definition io_bind {A B : Type} (m : io A) (k : A -> io B) : io B :=
  fun log => let (a, log') := m log in k a log'.

Notation "x <<- m ;; k" := (io_bind m (fun x => k))
  (at level 61, m at next level, right associativity).

(** *** Results

    The dicts the service returns, one field per key; [None] stands for an
    absent key as well as for the value [None] ([VNone] for [content]). *)
Record result : Type := {
  success : bool;
  content : value;
  provider_used : option string;
  error : option string;
  error_details : option (list string);
  is_demo : bool;
  warning : option string }.

(** [{"success": True, "content": content}] *)
Definition succeeded (content : value) : result :=
  {| success := true; content := content; provider_used := None; error := None;
     error_details := None; is_demo := false; warning := None |}.

(** [{"success": False, "error": message}] *)
Definition failed (message : string) : result :=
  {| success := false; content := VNone; provider_used := None;
     error := Some message; error_details := None; is_demo := false;
     warning := None |}.

(** [result["provider_used"] = provider] *)
Definition set_provider_used (r : result) (provider : string) : result :=
  {| success := success r; content := content r; provider_used := Some provider;
     error := error r; error_details := error_details r; is_demo := is_demo r;
     warning := warning r |}.

(** [try: ... except Exception as e: return {"success": False, "error": str(e)}] *)
Definition except_exception (body : py result) : result :=
  match body with
  | Return r => r
  | Raise e => failed (exn_message e)
  end.

Definition float_0_95 : value := VFloat (S754_finite false 8556839292003942 (-53)).
Definition float_0_7 : value := VFloat (S754_finite false 6305039478318694 (-53)).

Section Service.

Variable env : environment.
Variable http_post : request -> http_outcome.
Variable json_loads : string -> py value.
Variable json_dumps : value -> string.

(** The text of the system message sent to Groq and OpenRouter, a constant
    of the source (it holds a character above code point 255). *)
Variable system_prompt : string.

(** [await client.post(...)] *)
Definition post (req : request) : io http_outcome :=
  fun log => (http_post req, log ++ [req]).

Record LLMService : Type := {
  providers : list string;
  is_demo_mode : bool }.

Definition _build_provider_list : list string :=
  let available := [] in
  let available :=
    if _has_valid_key (GEMINI_API_KEY env) then available ++ ["gemini"]
    else available in
  let available :=
    if _has_valid_key (GROQ_API_KEY env) then available ++ ["groq"]
    else available in
  let available :=
    if _has_valid_key (OPENROUTER_API_KEY env) then available ++ ["openrouter"]
    else available in
  available.

(** [LLMService.__init__] *)
Definition LLMService_init : LLMService :=
  {| providers := _build_provider_list; is_demo_mode := IS_DEMO_MODE env |}.

(** *** The three providers *)

Definition gemini_request (prompt : string) (temperature : value) (max_tokens : Z)
  : request :=
  {| url := GEMINI_API_URL ++ "?key=" ++ GEMINI_API_KEY env;
     headers := [("Content-Type", "application/json; charset=utf-8")];
     json := VDict [
       ("contents", VList [VDict [("parts", VList [VDict [("text", VStr prompt)]])]]);
       ("generationConfig", VDict [
         ("temperature", temperature);
         ("maxOutputTokens", VInt max_tokens);
         ("topP", float_0_95);
         ("topK", VInt 40)])];
     timeout := 90 |}.

Definition gemini_result (outcome : http_outcome) : result :=
  match outcome with
  | Responded status body =>
      except_exception (
        if status =? 200 then
          data <- body ;;
          content <- dict_get data "candidates" (VList [VDict []]) >>= index0
            >>= (fun c => dict_get c "content" (VDict []))
            >>= (fun c => dict_get c "parts" (VList [VDict []])) >>= index0
            >>= (fun p => dict_get p "text" (VStr "")) ;;
          if truthy content then Return (succeeded content)
          else Return (failed "Empty response from Gemini")
        else if status =? 429 then Return (failed "Rate limited (429)")
        else if (status =? 401) || (status =? 403) then
          Return (failed ("Authentication failed (" ++ decimal status ++ ")"))
        else Return (failed ("HTTP " ++ decimal status)))%Z
  | TimeoutException => failed "Timeout"
  | OtherException message => failed message
  end.

Definition _call_gemini (prompt : string) (temperature : value) (max_tokens : Z)
  : io result :=
  outcome <<- post (gemini_request prompt temperature max_tokens) ;;
  io_ret (gemini_result outcome).

Definition chat_payload (model prompt : string) (temperature : value)
    (max_tokens : Z) : value :=
  VDict [
    ("model", VStr model);
    ("messages", VList [
      VDict [("role", VStr "system"); ("content", VStr system_prompt)];
      VDict [("role", VStr "user"); ("content", VStr prompt)]]);
    ("temperature", temperature);
    ("max_tokens", VInt (Z.min max_tokens 8000))].

Definition groq_request (prompt : string) (temperature : value) (max_tokens : Z)
  : request :=
  {| url := GROQ_API_URL;
     headers := [("Content-Type", "application/json");
                 ("Authorization", ("Bearer " ++ GROQ_API_KEY env)%string)];
     json := chat_payload "llama-3.1-8b-instant" prompt temperature max_tokens;
     timeout := 90 |}.

(** [data.get("choices", [{}])[0].get("message", {}).get("content", "")] *)
Definition chat_content (data : value) : py value :=
  dict_get data "choices" (VList [VDict []]) >>= index0
    >>= (fun c => dict_get c "message" (VDict []))
    >>= (fun m => dict_get m "content" (VStr "")).

Definition groq_result (outcome : http_outcome) : result :=
  match outcome with
  | Responded status body =>
      except_exception (
        if status =? 200 then
          data <- body ;;
          content <- chat_content data ;;
          if truthy content then Return (succeeded content)
          else Return (failed "Empty response from Groq")
        else if status =? 429 then Return (failed "Rate limited (429)")
        else if (status =? 401) || (status =? 403) then
          Return (failed ("Authentication failed (" ++ decimal status ++ ")"))
        else Return (failed ("HTTP " ++ decimal status)))%Z
  | TimeoutException => failed "Timeout"
  | OtherException message => failed message
  end.

Definition _call_groq (prompt : string) (temperature : value) (max_tokens : Z)
  : io result :=
  outcome <<- post (groq_request prompt temperature max_tokens) ;;
  io_ret (groq_result outcome).

Definition openrouter_request (prompt : string) (temperature : value)
    (max_tokens : Z) : request :=
  {| url := OPENROUTER_API_URL;
     headers := [("Content-Type", "application/json");
                 ("Authorization", ("Bearer " ++ OPENROUTER_API_KEY env)%string);
                 ("HTTP-Referer", "https://blueprintai.app");
                 ("X-Title", "BlueprintAI")];
     json := chat_payload "deepseek/deepseek-chat-v3-0324:free" prompt temperature
               max_tokens;
     timeout := 120 |}.

Definition openrouter_result (outcome : http_outcome) : result :=
  match outcome with
  | Responded status body =>
      except_exception (
        if status =? 200 then
          data <- body ;;
          content <- chat_content data ;;
          if truthy content then Return (succeeded content)
          else Return (failed "Empty response from DeepSeek")
        else if status =? 429 then Return (failed "DeepSeek quota exceeded (429)")
        else if status =? 402 then Return (failed "Payment required (402)")
        else if (status =? 401) || (status =? 403) then
          Return (failed ("Authentication failed (" ++ decimal status ++ ")"))
        else Return (failed ("HTTP " ++ decimal status)))%Z
  | TimeoutException => failed "Timeout"
  | OtherException message => failed message
  end.

Definition _call_openrouter (prompt : string) (temperature : value)
    (max_tokens : Z) : io result :=
  outcome <<- post (openrouter_request prompt temperature max_tokens) ;;
  io_ret (openrouter_result outcome).

(** *** Demo mode *)

Definition _get_demo_blueprint : value :=
  VDict [
    ("summary", VDict [
        ("problem_statement",
          VStr "Students and teachers struggle with manual attendance tracking, leading to errors and wasted time.");
        ("target_users",
          VList [VStr "Students"; VStr "Teachers"; VStr "Administrators"]);
        ("objectives", VList [
            VStr "Automate attendance marking";
            VStr "Reduce manual errors";
            VStr "Generate reports automatically";
            VStr "Track attendance history"]);
        ("scope",
          VStr "Web-based attendance system for a single educational institution");
        ("what_this_means",
          VStr "This project replaces paper-based attendance with a digital solution");
        ("why_this_matters",
          VStr "Understanding scope helps you stay focused and explain your project clearly")]);
    ("features", VDict [
        ("features", VList [
            VDict [
              ("feature_name", VStr "User Authentication");
              ("what_it_does", VStr "Allows different users to log in securely");
              ("why_it_exists",
                VStr "To protect student data and ensure only authorized access");
              ("how_it_helps",
                VStr "Teachers can only see their classes, students can only see their records");
              ("limitations",
                VStr "Requires password reset mechanism for forgotten passwords")];
            VDict [
              ("feature_name", VStr "Attendance Marking");
              ("what_it_does", VStr "Teachers can mark present/absent for each student");
              ("why_it_exists",
                VStr "Core functionality that replaces manual roll call");
              ("how_it_helps", VStr "Saves 5-10 minutes per class");
              ("limitations", VStr "Requires internet connectivity")]])]);
    ("feasibility", VDict [
        ("feasibility_level", VStr "High");
        ("feasibility_explanation",
          VStr "Uses standard web technologies taught in most colleges");
        ("strengths", VList [
            VStr "Clear requirements";
            VStr "Well-documented technologies";
            VStr "Real-world application"]);
        ("risks", VList [
            VStr "Security implementation";
            VStr "Database design";
            VStr "Time management"]);
        ("why_this_matters", VStr "Knowing feasibility helps you plan realistically")]);
    ("system_flow", VDict [
        ("flow_title", VStr "Attendance Marking Flow");
        ("steps", VList [
            VDict [
              ("step_number", VInt 1);
              ("actor", VStr "User");
              ("action", VStr "Opens application");
              ("explanation", VStr "Entry point")];
            VDict [
              ("step_number", VInt 2);
              ("actor", VStr "System");
              ("action", VStr "Shows login page");
              ("explanation", VStr "Security first")];
            VDict [
              ("step_number", VInt 3);
              ("actor", VStr "Teacher");
              ("action", VStr "Enters credentials");
              ("explanation", VStr "Authentication")];
            VDict [
              ("step_number", VInt 4);
              ("actor", VStr "System");
              ("action", VStr "Validates and shows dashboard");
              ("explanation", VStr "Role-based access")];
            VDict [
              ("step_number", VInt 5);
              ("actor", VStr "Teacher");
              ("action", VStr "Selects class");
              ("explanation", VStr "Choose which class to mark")];
            VDict [
              ("step_number", VInt 6);
              ("actor", VStr "System");
              ("action", VStr "Shows student list");
              ("explanation", VStr "Display markable students")];
            VDict [
              ("step_number", VInt 7);
              ("actor", VStr "Teacher");
              ("action", VStr "Marks attendance");
              ("explanation", VStr "Core action")];
            VDict [
              ("step_number", VInt 8);
              ("actor", VStr "System");
              ("action", VStr "Saves and confirms");
              ("explanation", VStr "Persistence and feedback")]]);
        ("summary", VStr "Simple 8-step flow from login to confirmation")]);
    ("tech_stack", VDict [
        ("primary_stack", VList [
            VDict [
              ("category", VStr "Frontend");
              ("technology", VStr "React");
              ("justification", VStr "Component-based, well-documented");
              ("skill_level", VStr "Intermediate")];
            VDict [
              ("category", VStr "Backend");
              ("technology", VStr "Node.js + Express");
              ("justification", VStr "JavaScript throughout the stack");
              ("skill_level", VStr "Beginner-friendly")];
            VDict [
              ("category", VStr "Database");
              ("technology", VStr "MongoDB");
              ("justification", VStr "Flexible schema, easy to learn");
              ("skill_level", VStr "Beginner-friendly")]]);
        ("backup_stack", VList [
            VDict [
              ("category", VStr "Frontend");
              ("technology", VStr "Vue.js");
              ("why_backup", VStr "Simpler learning curve if React is too complex")];
            VDict [
              ("category", VStr "Backend");
              ("technology", VStr "Python Flask");
              ("why_backup", VStr "If JavaScript backend is challenging")]])]);
    ("comparison", VDict [
        ("existing_solutions", VList [
            VDict [
              ("solution_name", VStr "Google Forms");
              ("what_it_does", VStr "Basic data collection");
              ("limitations", VStr "No role-based access, no reports")];
            VDict [
              ("solution_name", VStr "Enterprise ERP systems");
              ("what_it_does", VStr "Full institution management");
              ("limitations", VStr "Too complex and expensive for single use case")]]);
        ("unique_aspects", VList [
            VStr "Focused on college use case";
            VStr "Student-friendly interface";
            VStr "Built-in report generation"]);
        ("why_this_project_is_still_valuable", VList [
            VStr "Learning experience";
            VStr "Customizable for specific needs";
            VStr "No licensing costs"]);
        ("summary_insight",
          VStr "While attendance systems exist, this project provides hands-on learning while creating something tailored to your institution's specific needs.")]);
    ("viva", VDict [
        ("project_overview_explanation",
          VStr "This is a web-based attendance system that helps teachers mark attendance digitally and generate reports automatically.");
        ("problem_statement_explanation",
          VStr "Manual attendance wastes 5-10 minutes per class and is prone to errors. Our system automates this completely.");
        ("architecture_explanation",
          VStr "We use a three-tier architecture: React frontend talks to Node.js backend, which stores data in MongoDB.");
        ("unique_feature_explanation",
          VStr "Automatic report generation sets us apart from simple digital forms.");
        ("common_questions", VList [
            VDict [
              ("question", VStr "Why did you choose this tech stack?");
              ("suggested_answer",
                VStr "React for reusable components, Node.js for JavaScript consistency, MongoDB for flexible data storage.");
              ("why_asked", VStr "Tests if you made informed choices")];
            VDict [
              ("question", VStr "What are the limitations?");
              ("suggested_answer",
                VStr "Requires internet, no offline mode, single institution only.");
              ("why_asked", VStr "Tests honesty and self-awareness")]]);
        ("hackathon_questions", VList [
            VDict [
              ("question", VStr "What makes this unique?");
              ("suggested_response",
                VStr "Built specifically for college context with student-friendly design");
              ("key_points", VList [
                  VStr "Focus on UX";
                  VStr "Report generation";
                  VStr "Role-based access"])]])]);
    ("pitch", VDict [
        ("thirty_second_pitch",
          VStr "Teachers spend 5-10 minutes every class on attendance. Our digital system does it in 30 seconds with zero errors and automatic reports.");
        ("one_minute_pitch",
          VStr "Imagine never losing an attendance register again. Our system lets teachers mark attendance with a few clicks, generates reports instantly, and gives students transparency into their records. Built with modern web technologies, it's designed specifically for college environments.");
        ("key_points", VList [
            VStr "Saves time";
            VStr "Eliminates errors";
            VStr "Automatic reports";
            VStr "Role-based access"])]);
    ("diagrams", VDict [
        ("user_flow_mermaid", VStr (Normalizer.lines [
            "flowchart TD";
            "    A[User Opens App] --> B{Logged In?}";
            "    B -->|No| C[Login Page]";
            "    B -->|Yes| D[Dashboard]";
            "    C --> E[Enter Credentials]";
            "    E --> F{Valid?}";
            "    F -->|No| C";
            "    F -->|Yes| D";
            "    D --> G[Select Class]";
            "    G --> H[Mark Attendance]";
            "    H --> I[Save & Confirm]"]));
        ("tech_stack_mermaid", VStr (Normalizer.lines [
            "flowchart LR";
            "    subgraph Frontend";
            "        A[React App]";
            "    end";
            "    subgraph Backend";
            "        B[Node.js API]";
            "    end";
            "    subgraph Database";
            "        C[(MongoDB)]";
            "    end";
            "    A -->|HTTP| B";
            "    B -->|Queries| C"]))])].

(** The dict of the "problem statement" branch of [_get_demo_response]. *)
Definition demo_expanded_idea : value :=
  VDict [
    ("problem_statement",
      VStr "Students often spend valuable time manually tracking attendance, which is error-prone and time-consuming. A digital attendance system would automate this process, saving time and improving accuracy.");
    ("target_users", VList [VStr "Students"; VStr "Teachers"; VStr "Administrators"]);
    ("objectives", VList [
        VStr "Automate the attendance tracking process";
        VStr "Reduce manual errors in attendance records";
        VStr "Provide easy access to attendance history";
        VStr "Generate attendance reports automatically"]);
    ("scope",
      VStr "This project covers a web-based attendance system for a single institution. Mobile app development and biometric integration are outside the current scope.");
    ("what_this_means",
      VStr "Your project will help educational institutions move from paper-based attendance to a digital system that saves time and reduces errors.");
    ("why_this_matters",
      VStr "Understanding your problem statement clearly is essential for explaining your project confidently in any review.")].

Definition demo_generic_message : string :=
  "This is a demo response. Please configure at least one API key in the .env file for full AI functionality. The system supports: GEMINI_API_KEY, GROQ_API_KEY, or OPENROUTER_API_KEY (all free!).".

Definition demo (content : string) : result :=
  {| success := true; content := VStr content; provider_used := None;
     error := None; error_details := None; is_demo := true; warning := None |}.

Definition _get_demo_response (prompt : string) : result :=
  let prompt_lower := lower prompt in
  if contains "master" prompt_lower || contains "blueprint" prompt_lower
     || contains "full" prompt_lower then
    demo (json_dumps _get_demo_blueprint)
  else if contains "problem statement" prompt_lower
          || contains "expand" prompt_lower then
    demo (json_dumps demo_expanded_idea)
  else demo demo_generic_message.

(** *** The cascade *)

Definition all_failed (errors : list string) : result :=
  {| success := false; content := VNone; provider_used := None;
     error := Some "AI services are temporarily busy. Please try again later.";
     error_details := Some errors; is_demo := false; warning := None |}.

(** The dispatch on the provider name inside the loop; [None] is the
    [continue] of a name that is none of the three. *)
Definition call_provider (provider prompt : string) (temperature : value)
    (max_tokens : Z) : option (io result) :=
  if String.eqb provider "gemini" then
    Some (_call_gemini prompt temperature max_tokens)
  else if String.eqb provider "groq" then
    Some (_call_groq prompt temperature max_tokens)
  else if String.eqb provider "openrouter" then
    Some (_call_openrouter prompt temperature max_tokens)
  else None.

(** [for provider in self.providers: ...], then the aggregate failure. The
    three provider methods catch every exception themselves and always set
    ["success"], so the [except] arm of the loop body is never taken. *)
Fixpoint try_providers (remaining : list string) (prompt : string)
    (temperature : value) (max_tokens : Z) (errors : list string) : io result :=
  match remaining with
  | [] => io_ret (all_failed errors)
  | provider :: rest =>
      match call_provider provider prompt temperature max_tokens with
      | None => try_providers rest prompt temperature max_tokens errors
      | Some call =>
          result <<- call ;;
          if success result then io_ret (set_provider_used result provider)
          else
            let error_msg :=
              match error result with
              | Some message => message
              | None => "Unknown error"
              end in
            try_providers rest prompt temperature max_tokens
              (errors ++ [(provider ++ ": " ++ error_msg)%string])
      end
  end.

Definition generate_with_fallback (self : LLMService) (prompt : string)
    (temperature : value) (max_tokens : Z) : io result :=
  if is_demo_mode self then
    let demo_response := _get_demo_response prompt in
    io_ret (set_provider_used demo_response "demo")
  else try_providers (providers self) prompt temperature max_tokens [].

Definition json_instruction : string :=
  Normalizer.LF ++ Normalizer.LF
  ++ "IMPORTANT: Respond ONLY with valid JSON. No markdown code blocks, no explanation, just the raw JSON object.".

(** The body of the [try]: markdown fences off, then from the first
    brace on, then [json.loads]. *)
Definition parse_content (content : value) : py value :=
  fenced_json <- py_contains "```json" content ;;
  content <-
    (if fenced_json then
       after <- (the_str content "split" >>= (fun s => list_index (split "```json" s) 1)) ;;
       inside <- list_index (split "```" after) 0 ;;
       Return (VStr inside)
     else
       fenced <- py_contains "```" content ;;
       if fenced then
         parts <- (the_str content "split" >>= (fun s => Return (split "```" s))) ;;
         if (2 <=? length parts)%nat then
           second <- list_index parts 1 ;; Return (VStr second)
         else Return content
       else Return content) ;;
  content <- the_str content "strip" >>= (fun s => Return (strip s)) ;;
  let content :=
    if negb (String.prefix "{" content) then
      let start_idx := find_char "{"%char content in
      if negb (start_idx =? -1)%Z then slice_from content (Z.to_nat start_idx)
      else content
    else content in
  json_loads content.

Definition generate_json_with_fallback (self : LLMService) (prompt : string)
    (temperature : value) (max_tokens : Z) : io (py result) :=
  let json_prompt := (prompt ++ json_instruction)%string in
  result <<- generate_with_fallback self json_prompt temperature max_tokens ;;
  io_ret (
    if negb (success result) then Return result
    else
      match parse_content (content result) with
      | Return parsed =>
          Return {| success := true; content := parsed;
                    provider_used := provider_used result; error := None;
                    error_details := None; is_demo := false; warning := None |}
      | Raise (JSONDecodeError message) =>
          Return {| success := true; content := content result;
                    provider_used := provider_used result; error := None;
                    error_details := None; is_demo := false;
                    warning := Some ("Response was not valid JSON, returning raw text. Parse error: " ++ message)%string |}
      | Raise e => Raise e
      end).

(** [generate] and [generate_json], the old names. *)
Definition generate (self : LLMService) (prompt : string) (temperature : value)
    (max_tokens : Z) : io result :=
  generate_with_fallback self prompt temperature max_tokens.

Definition generate_json (self : LLMService) (prompt : string)
    (temperature : value) (max_tokens : Z) : io (py result) :=
  generate_json_with_fallback self prompt temperature max_tokens.

(** *** The cascade in closed form *)

(** The credential a provider name stands for. *)
Definition credential (provider : string) : string :=
  if String.eqb provider "gemini" then GEMINI_API_KEY env
  else if String.eqb provider "groq" then GROQ_API_KEY env
  else if String.eqb provider "openrouter" then OPENROUTER_API_KEY env
  else "".

Definition configured (provider : string) : bool :=
  _has_valid_key (credential provider).

(** One attempt at a provider: the request it sends and the result it
    makes of the answer. *)
Definition attempt (provider prompt : string) (temperature : value)
    (max_tokens : Z) : option (request * result) :=
  if String.eqb provider "gemini" then
    let req := gemini_request prompt temperature max_tokens in
    Some (req, gemini_result (http_post req))
  else if String.eqb provider "groq" then
    let req := groq_request prompt temperature max_tokens in
    Some (req, groq_result (http_post req))
  else if String.eqb provider "openrouter" then
    let req := openrouter_request prompt temperature max_tokens in
    Some (req, openrouter_result (http_post req))
  else None.

Definition fails (provider prompt : string) (temperature : value)
    (max_tokens : Z) : Prop :=
  exists req r,
    attempt provider prompt temperature max_tokens = Some (req, r)
    /\ success r = false.

(** The requests that attempting [attempted], in that order, sends. *)
Definition requests (attempted : list string) (prompt : string)
    (temperature : value) (max_tokens : Z) : list request :=
  flat_map (fun provider =>
              match attempt provider prompt temperature max_tokens with
              | Some (req, _) => [req]
              | None => []
              end) attempted.

(** The entry of [error_details] for a provider that failed. *)
Definition failure_reason (prompt : string) (temperature : value)
    (max_tokens : Z) (provider : string) : string :=
  provider ++ ": "
  ++ match attempt provider prompt temperature max_tokens with
     | Some (_, {| error := Some message |}) => message
     | _ => "Unknown error"
     end.

(** What [parse_content] hands to [json.loads] when the content is a str. *)
Definition without_fences (content : string) : string :=
  if contains "```json" content then
    nth 0 (split "```" (nth 1 (split "```json" content) "")) ""
  else if contains "```" content then
    let parts := split "```" content in
    if (2 <=? length parts)%nat then nth 1 parts "" else content
  else content.

Definition from_first_brace (content : string) : string :=
  if String.prefix "{" content then content
  else
    let start_idx := find_char "{"%char content in
    if (start_idx =? -1)%Z then content
    else slice_from content (Z.to_nat start_idx).

Definition json_text (content : string) : string :=
  from_first_brace (strip (without_fences content)).

End Service.

End LlmService.

(** ** The schema of a normalised blueprint *)

Module Schema.
Import Normalizer Closed.

(** [v[k1][k2]...] without raising: [None] when a key is absent or a
    non-dict is reached. *)
Fixpoint path (v : value) (keys : list string) : option value :=
  match keys with
  | [] => Some v
  | k :: rest =>
      match v with
      | VDict d =>
          match lookup k d with
          | Some x => path x rest
          | None => None
          end
      | _ => None
      end
  end.

Inductive schema : Type :=
| SStr                                      (* a non-empty str *)
| SList                                     (* a list, elements unconstrained *)
| SLevel                                    (* "High", "Medium" or "Low" *)
| SAny                                      (* present, any value *)
| SListOf (element : schema)                (* a list of conforming elements *)
| SRecord (fields : list (string * schema)) (* a dict with exactly these keys *).

Definition nonempty_str (v : value) : bool :=
  match v with
  | VStr s => negb (String.eqb s "")
  | _ => false
  end.

Definition levels : list string := ["High"; "Medium"; "Low"].

Fixpoint conforms (sch : schema) (v : value) : bool :=
  match sch with
  | SStr => nonempty_str v
  | SList => isinstance_list v
  | SLevel => in_str_list v levels
  | SAny => true
  | SListOf element =>
      match v with
      | VList l => forallb (conforms element) l
      | _ => false
      end
  | SRecord fields =>
      match v with
      | VDict d =>
          (fix entries (fields : list (string * schema)) (d : list (string * value)) :=
             match fields, d with
             | [], [] => true
             | (k, sch') :: fields', (k', x) :: d' =>
                 String.eqb k k' && conforms sch' x && entries fields' d'
             | _, _ => false
             end) fields d
      | _ => false
      end
  end.

Definition summary_schema : schema :=
  SRecord [("problem_statement", SStr); ("target_users", SList);
           ("objectives", SList); ("scope", SStr); ("what_this_means", SStr);
           ("why_this_matters", SStr)].

Definition feature_schema : schema :=
  SRecord [("feature_name", SStr); ("what_it_does", SStr);
           ("why_it_exists", SStr); ("how_it_helps", SStr);
           ("limitations", SStr)].

Definition features_schema : schema :=
  SRecord [("features", SListOf feature_schema)].

Definition feasibility_schema : schema :=
  SRecord [("feasibility_level", SLevel); ("feasibility_explanation", SStr);
           ("strengths", SList); ("risks", SList); ("why_this_matters", SStr)].

Definition step_schema : schema :=
  SRecord [("step_number", SAny); ("actor", SStr); ("action", SStr);
           ("explanation", SStr)].

Definition system_flow_schema : schema :=
  SRecord [("flow_title", SStr); ("steps", SListOf step_schema);
           ("summary", SStr)].

Definition primary_schema : schema :=
  SRecord [("category", SStr); ("technology", SStr); ("justification", SStr);
           ("skill_level", SStr)].

Definition backup_schema : schema :=
  SRecord [("category", SStr); ("technology", SStr); ("why_backup", SStr)].

Definition tech_stack_schema : schema :=
  SRecord [("primary_stack", SListOf primary_schema);
           ("backup_stack", SListOf backup_schema)].

Definition solution_schema : schema :=
  SRecord [("solution_name", SStr); ("what_it_does", SStr);
           ("limitations", SStr)].

Definition comparison_schema : schema :=
  SRecord [("existing_solutions", SListOf solution_schema);
           ("unique_aspects", SList);
           ("why_this_project_is_still_valuable", SList);
           ("summary_insight", SStr)].

Definition common_schema : schema :=
  SRecord [("question", SStr); ("suggested_answer", SStr); ("why_asked", SStr)].

Definition hackathon_schema : schema :=
  SRecord [("question", SStr); ("suggested_response", SStr);
           ("key_points", SList)].

Definition viva_schema : schema :=
  SRecord [("project_overview_explanation", SStr);
           ("problem_statement_explanation", SStr);
           ("architecture_explanation", SStr);
           ("unique_feature_explanation", SStr);
           ("common_questions", SListOf common_schema);
           ("hackathon_questions", SListOf hackathon_schema)].

Definition pitch_schema : schema :=
  SRecord [("thirty_second_pitch", SStr); ("one_minute_pitch", SStr);
           ("key_points", SList)].

Definition diagrams_schema : schema :=
  SRecord [("user_flow_mermaid", SStr); ("tech_stack_mermaid", SStr)].

Definition blueprint_schema : schema :=
  SRecord [("summary", summary_schema); ("features", features_schema);
           ("feasibility", feasibility_schema);
           ("system_flow", system_flow_schema);
           ("tech_stack", tech_stack_schema);
           ("comparison", comparison_schema); ("viva", viva_schema);
           ("pitch", pitch_schema); ("diagrams", diagrams_schema)].

(** The raw list under [raw[section][field]], as the normaliser reads it:
    empty when the section is not a dict or the field is not a list. *)
Definition raw_list (raw : value) (section field : string) : list value :=
  items_of (get (entries_of (get (entries_of raw) section (VDict []))) field
              (VList [])).

(** The elements that survive the [isinstance(x, dict)] filter. *)
Definition valid_elements (items : list value) : list value :=
  filter isinstance_dict items.

End Schema.

(** ** Sample inputs *)

Module Samples.

(** [isinstance(v, (int, float))]; a [bool] is an [int]. *)
Definition numeric (v : value) : bool :=
  match v with
  | VInt _ | VFloat _ | VBool _ => true
  | _ => false
  end.

Definition raw_alias_empty : value :=
  VDict [("comparison", VDict [("why_still_valuable", VList [])])].

Definition raw_nonsense_level : value :=
  VDict [("feasibility", VDict [("feasibility_level", VStr "Nonsense")])].

Definition raw_summary_not_a_dict : value :=
  VDict [("summary", VStr "not a dict")].

Definition raw_steps : value :=
  VDict [("system_flow", VDict [("steps", VList [
    VStr "stray";
    VDict [("actor", VStr " Teacher ")];
    VDict [("step_number", VInt 7); ("action", VStr "Marks attendance")]])])].

Definition raw_step_abc : value :=
  VDict [("system_flow", VDict [("steps", VList [
    VDict [("step_number", VStr "abc")]])])].

(** A small JSON reader (objects, arrays, strings without escapes,
    integers, [true], [false], [null]), standing for the library's
    [json.loads] in the examples; the theorems hold for any [json_loads]. *)
Definition is_digit (c : ascii) : bool :=
  ((48 <=? nat_of_ascii c) && (nat_of_ascii c <=? 57))%nat.

Definition json_space (c : ascii) : bool :=
  let n := nat_of_ascii c in ((n =? 32) || (n =? 9) || (n =? 10) || (n =? 13))%nat.

Fixpoint skip_spaces (s : string) : string :=
  match s with
  | String c r => if json_space c then skip_spaces r else s
  | EmptyString => EmptyString
  end.

Fixpoint read_digits (acc : Z) (s : string) : Z * string :=
  match s with
  | String c r =>
      if is_digit c then read_digits (acc * 10 + Z.of_nat (nat_of_ascii c - 48)) r
      else (acc, s)
  | EmptyString => (acc, EmptyString)
  end.

Definition dquote_char : ascii := ascii_of_nat 34.
Definition dquote : string := String dquote_char EmptyString.

Fixpoint read_string (s : string) : option (string * string) :=
  match s with
  | EmptyString => None
  | String c r =>
      if Ascii.eqb c dquote_char then Some (EmptyString, r)
      else match read_string r with
           | Some (t, rest) => Some (String c t, rest)
           | None => None
           end
  end.

Fixpoint read_value (fuel : nat) (s : string) : option (value * string) :=
  match fuel with
  | O => None
  | S fuel =>
      match skip_spaces s with
      | EmptyString => None
      | String c r as s' =>
          if Ascii.eqb c "{" then
            match skip_spaces r with
            | String "}" r' => Some (VDict [], r')
            | _ => read_members fuel r []
            end
          else if Ascii.eqb c "[" then
            match skip_spaces r with
            | String "]" r' => Some (VList [], r')
            | _ => read_elements fuel r []
            end
          else if Ascii.eqb c dquote_char then
            match read_string r with
            | Some (t, rest) => Some (VStr t, rest)
            | None => None
            end
          else if Ascii.eqb c "-" then
            match r with
            | String d _ =>
                if is_digit d then
                  let (n, rest) := read_digits 0 r in Some (VInt (- n), rest)
                else None
            | EmptyString => None
            end
          else if is_digit c then
            let (n, rest) := read_digits 0 s' in Some (VInt n, rest)
          else if String.prefix "true" s' then Some (VBool true, slice_from s' 4)
          else if String.prefix "false" s' then Some (VBool false, slice_from s' 5)
          else if String.prefix "null" s' then Some (VNone, slice_from s' 4)
          else None
      end
  end
with read_elements (fuel : nat) (s : string) (acc : list value)
  : option (value * string) :=
  match fuel with
  | O => None
  | S fuel =>
      match read_value fuel s with
      | Some (v, rest) =>
          match skip_spaces rest with
          | String "," r => read_elements fuel r (acc ++ [v])
          | String "]" r => Some (VList (acc ++ [v]), r)
          | _ => None
          end
      | None => None
      end
  end
with read_members (fuel : nat) (s : string) (acc : list (string * value))
  : option (value * string) :=
  match fuel with
  | O => None
  | S fuel =>
      match skip_spaces s with
      | String c r =>
          if Ascii.eqb c dquote_char then
            match read_string r with
            | Some (key, rest) =>
                match skip_spaces rest with
                | String ":" r' =>
                    match read_value fuel r' with
                    | Some (v, rest') =>
                        match skip_spaces rest' with
                        | String "," r'' => read_members fuel r'' (acc ++ [(key, v)])
                        | String "}" r'' => Some (VDict (acc ++ [(key, v)]), r'')
                        | _ => None
                        end
                    | None => None
                    end
                | _ => None
                end
            | None => None
            end
          else None
      | EmptyString => None
      end
  end.

Definition sample_json_loads (s : string) : py value :=
  match read_value (2 * String.length s + 2) s with
  | Some (v, rest) =>
      match skip_spaces rest with
      | EmptyString => Return v
      | _ => Raise (JSONDecodeError "Extra data")
      end
  | None => Raise (JSONDecodeError "Expecting value")
  end.

Definition sample_json_dumps (_ : value) : string := "{}".

Definition sample_system_prompt : string := "You are a helpful AI project mentor.".

(** The raw text of the specification's example: a fenced object. *)
Definition object_text : string := "{" ++ dquote ++ "a" ++ dquote ++ ":1}".

Definition fenced_text : string :=
  "```json" ++ Normalizer.LF ++ object_text ++ Normalizer.LF ++ "```".

Definition three_keys : LlmService.environment :=
  {| LlmService.GEMINI_API_KEY := "gemini-key";
     LlmService.GROQ_API_KEY := "groq-key";
     LlmService.OPENROUTER_API_KEY := "openrouter-key" |}.

Definition no_keys : LlmService.environment :=
  {| LlmService.GEMINI_API_KEY := "";
     LlmService.GROQ_API_KEY := "   ";
     LlmService.OPENROUTER_API_KEY := "YOUR_API_KEY_HERE" |}.

Definition chat_body (text : string) : value :=
  VDict [("choices", VList [VDict [("message", VDict [("content", VStr text)])]])].

(** Gemini is rate limited, Groq rejects the credential, OpenRouter
    answers with the fenced object. *)
Definition third_answers (req : LlmService.request) : LlmService.http_outcome :=
  if String.prefix LlmService.GEMINI_API_URL (LlmService.url req) then
    LlmService.Responded 429 (Return VNone)
  else if String.eqb (LlmService.url req) LlmService.GROQ_API_URL then
    LlmService.Responded 401 (Return VNone)
  else LlmService.Responded 200 (Return (chat_body fenced_text)).

(** Gemini answers prose that is not JSON. *)
Definition first_answers_prose (req : LlmService.request) : LlmService.http_outcome :=
  LlmService.Responded 200 (Return (VDict [("candidates", VList [VDict [
    ("content", VDict [("parts", VList [VDict [
      ("text", VStr "Sorry, I cannot help with that.")]])])]])])).

(** Rate limit, time-out and payment required: nobody answers. *)
Definition nobody_answers (req : LlmService.request) : LlmService.http_outcome :=
  if String.prefix LlmService.GEMINI_API_URL (LlmService.url req) then
    LlmService.Responded 429 (Return VNone)
  else if String.eqb (LlmService.url req) LlmService.GROQ_API_URL then
    LlmService.TimeoutException
  else LlmService.Responded 402 (Return VNone).

End Samples.

(** ** The schema with a condition on its string fields *)

Module Trimmed.
Import Schema.

(** [s] is not empty and has no white space at either end. *)
Definition trimmed (s : string) : bool :=
  String.eqb (strip s) s && negb (String.eqb s "").

(** As [conforms], with [str_ok] required of every string field. *)
Fixpoint conforms_with (str_ok : string -> bool) (sch : schema) (v : value) : bool :=
  match sch with
  | SStr => match v with VStr s => str_ok s | _ => false end
  | SList => isinstance_list v
  | SLevel => in_str_list v levels
  | SAny => true
  | SListOf element =>
      match v with
      | VList l => forallb (conforms_with str_ok element) l
      | _ => false
      end
  | SRecord fields =>
      match v with
      | VDict d =>
          (fix entries (fields : list (string * schema)) (d : list (string * value)) :=
             match fields, d with
             | [], [] => true
             | (k, sch') :: fields', (k', x) :: d' =>
                 String.eqb k k' && conforms_with str_ok sch' x && entries fields' d'
             | _, _ => false
             end) fields d
      | _ => false
      end
  end.

(** The seven lists of records, by section and field. *)
Definition record_lists : list (string * string) :=
  [("features", "features"); ("system_flow", "steps");
   ("tech_stack", "primary_stack"); ("tech_stack", "backup_stack");
   ("comparison", "existing_solutions"); ("viva", "common_questions");
   ("viva", "hackathon_questions")].

End Trimmed.

(** ** Reading the frontend dict *)

Module FrontendShape.
Import Closed Schema.

(** The keys of the dict found at [keys], in order. *)
Definition keys_at (v : value) (keys : list string) : option (list string) :=
  option_map (fun x => map fst (entries_of x)) (path v keys).

(** What [bp] holds at [src] is present, and [fe] holds it at [dst]. *)
Definition mapped (fe : value) (dst : list string) (bp : value) (src : list string)
  : Prop :=
  exists x, path bp src = Some x /\ path fe dst = Some x.

End FrontendShape.

(** ** llm_service.py: the status methods *)

Module LlmStatus.
Import LlmService.

(** The dict [get_status] returns, one field per key. *)
Record status : Type := {
  configured : bool;
  demo_mode : bool;
  providers_available : list string;
  provider_count : Z;
  cascade_order : list string;
  message : string }.

Definition is_available (self : LLMService) : bool :=
  negb (is_demo_mode self).

Definition get_status (self : LLMService) : status :=
  {| configured := negb (is_demo_mode self);
     demo_mode := is_demo_mode self;
     providers_available := providers self;
     provider_count := Z.of_nat (length (providers self));
     cascade_order :=
       ["Gemini 2.5 Flash"; "Groq LLaMA 3.1 70B"; "OpenRouter DeepSeek V3:free"];
     message :=
       if negb (is_demo_mode self) then
         ("Cascade active with " ++ decimal (Z.of_nat (length (providers self)))
          ++ " provider(s)")%string
       else "Running in demo mode - configure API keys for full features" |}.

End LlmStatus.

(** ** More shapes and samples for the cascade *)

Module CascadeShapes.
Import LlmService.

(** Gemini answers with a list where the text should be. *)
Definition first_answers_list (req : request) : http_outcome :=
  Responded 200 (Return (VDict [("candidates", VList [VDict [
    ("content", VDict [("parts", VList [VDict [
      ("text", VList [VStr "not"; VStr "a text"])]])])]])])).

(** Where a value sits in a parsed body: under a key of a dict, or first
    in a list. *)
Inductive selector : Type :=
| Key (k : string)
| First.

Fixpoint select (v : value) (sel : list selector) : option value :=
  match sel with
  | [] => Some v
  | Key k :: rest =>
      match v with
      | VDict d =>
          match lookup k d with
          | Some x => select x rest
          | None => None
          end
      | _ => None
      end
  | First :: rest =>
      match v with
      | VList (x :: _) => select x rest
      | _ => None
      end
  end.

(** [candidates[0].content.parts[0].text] *)
Definition gemini_text : list selector :=
  [Key "candidates"; First; Key "content"; Key "parts"; First; Key "text"].

(** [choices[0].message.content] *)
Definition chat_text : list selector :=
  [Key "choices"; First; Key "message"; Key "content"].

(** What the result of a provider call is allowed to be, the content being
    read at [text_at] in the body. *)
Definition classified (to_result : http_outcome -> result)
    (text_at : list selector) (outcome : http_outcome) : Prop :=
  (success (to_result outcome) = true ->
   exists body content,
     outcome = Responded 200 (Return body)
     /\ select body text_at = Some content
     /\ truthy content = true
     /\ to_result outcome = succeeded content)
  /\ (forall body content,
        outcome = Responded 200 (Return body) ->
        select body text_at = Some content ->
        truthy content = true ->
        to_result outcome = succeeded content)
  /\ (success (to_result outcome) = false ->
      exists message, to_result outcome = failed message).

(** [u] is a contiguous part of [s]. *)
Definition part_of (u s : string) : Prop :=
  exists before after, s = (before ++ u ++ after)%string.

End CascadeShapes.

(** ** planner_service.py: the single-call blueprint generation *)

Module PlannerService.
Import LlmService.

(** The dicts [generate_full_blueprint] returns, one field per key
    ([VNone] and [None] for an absent key). *)
Record blueprint_result : Type := {
  success : bool;
  blueprint : value;
  normalized : value;
  provider_used : option string;
  error : option string }.

Section Planner.

Variable env : environment.
Variable http_post : request -> http_outcome.
Variable json_loads : string -> py value.
Variable json_dumps : value -> string.
Variable system_prompt : string.

(** [MASTER_BLUEPRINT_PROMPT.format(mode=mode, summary_text=summary_text)]:
    the prompt template of the source, a long text constant, filled in. *)
Variable MASTER_BLUEPRINT_PROMPT : string -> string -> string.

(** [PlannerService.__init__]: [self.llm] is the service singleton. *)
Record PlannerService : Type := { llm : LLMService }.

Definition failure (message : string) (provider : option string) : blueprint_result :=
  {| success := false; blueprint := VNone; normalized := VNone;
     provider_used := provider; error := Some message |}.

(** From [normalized = self.normalize_blueprint(raw_blueprint)] on. *)
Definition normalize_and_map (raw_blueprint : value) (provider : option string)
  : py blueprint_result :=
  normalized <- Normalizer.normalize_blueprint raw_blueprint ;;
  frontend_format <- Normalizer.map_to_frontend_format normalized ;;
  Return {| success := true; blueprint := frontend_format;
            normalized := normalized; provider_used := provider;
            error := None |}.

Definition generate_full_blueprint (self : PlannerService)
    (summary_text mode : string) : io (py blueprint_result) :=
  let prompt := MASTER_BLUEPRINT_PROMPT mode summary_text in
  outcome <<- generate_json_with_fallback env http_post json_loads json_dumps
                system_prompt (llm self) prompt float_0_7 8192 ;;
  io_ret (
    result <- outcome ;;
    if negb (LlmService.success result) then
      Return (failure
                match LlmService.error result with
                | Some message => message
                | None => "Failed to generate blueprint"
                end
                (LlmService.provider_used result))
    else
      let raw_blueprint := content result in
      match raw_blueprint with
      | VStr text =>
          match json_loads text with
          | Return parsed =>
              normalize_and_map parsed (LlmService.provider_used result)
          | Raise (JSONDecodeError _) =>
              Return (failure "AI response was not valid JSON"
                        (LlmService.provider_used result))
          | Raise e => Raise e
          end
      | _ => normalize_and_map raw_blueprint (LlmService.provider_used result)
      end).

End Planner.

End PlannerService.

(** ** Samples for the planner *)

Module PlannerSamples.
Import LlmService.

Definition sample_master_prompt (mode summary_text : string) : string :=
  ("MODE: " ++ mode ++ " IDEA: " ++ summary_text)%string.

Definition sample_planner (env : environment) : PlannerService.PlannerService :=
  {| PlannerService.llm := LLMService_init env |}.

(** Gemini answers with a JSON array. *)
Definition first_answers_array (req : request) : http_outcome :=
  Responded 200 (Return (VDict [("candidates", VList [VDict [
    ("content", VDict [("parts", VList [VDict [
      ("text", VStr "[1, 2, 3]")]])])]])])).

End PlannerSamples.

(** ** validation_service.py *)

(** [s[:n]] *)
Fixpoint slice_to (s : string) (n : nat) : string :=
  match n, s with
  | O, _ => EmptyString
  | S _, EmptyString => EmptyString
  | S k, String c r => String c (slice_to r k)
  end.

Module ValidationService.

Definition MIN_IDEA_LENGTH : nat := 10.
Definition MAX_IDEA_LENGTH : nat := 2000.

(** [s.split()]: the maximal runs of characters that are not white space;
    [cur] is the run being read. *)
Fixpoint split_whitespace_from (cur s : string) : list string :=
  match s with
  | EmptyString =>
      match cur with
      | EmptyString => []
      | _ => [cur]
      end
  | String c r =>
      if isspace c then
        match cur with
        | EmptyString => split_whitespace_from EmptyString r
        | _ => cur :: split_whitespace_from EmptyString r
        end
      else split_whitespace_from (cur ++ String c EmptyString) r
  end.

Definition split_whitespace (s : string) : list string :=
  split_whitespace_from EmptyString s.

Definition sanitize_input (text : string) : string :=
  let cleaned := String.concat " " (split_whitespace text) in
  let cleaned :=
    if (MAX_IDEA_LENGTH <? String.length cleaned)%nat
    then slice_to cleaned MAX_IDEA_LENGTH else cleaned in
  strip cleaned.

Definition code_indicators : list string :=
  ["()"; ";"; "=>"; "function"; "def "; "class "; "{"; "}"].

(** [validate_feature_list]: the pair (valid, error message). *)
Fixpoint validate_feature_list (features : list string) : bool * option string :=
  match features with
  | [] => (true, None)
  | feature :: rest =>
      if (500 <? String.length feature)%nat then
        (false,
         Some ("Feature description too long: '" ++ slice_to feature 50 ++ "...'")%string)
      else if existsb (fun ind => contains ind feature) code_indicators then
        (false,
         Some ("Feature '" ++ slice_to feature 50
               ++ "...' looks like code. Please describe features in plain English.")%string)
      else validate_feature_list rest
  end.

(** A word: not empty and free of white space. *)
Fixpoint no_space (s : string) : bool :=
  match s with
  | EmptyString => true
  | String c r => negb (isspace c) && no_space r
  end.

Definition word (s : string) : bool :=
  no_space s && negb (String.eqb s "").

(** What a feature must be to pass. *)
Definition plain_feature (feature : string) : bool :=
  (String.length feature <=? 500)%nat
  && negb (existsb (fun ind => contains ind feature) code_indicators).

End ValidationService.

(** ** mermaid_generator.py *)

Module MermaidGenerator.

(** What [_clean_mermaid_code] can raise: the built-in exceptions of
    indexing, and the [ValueError] of [str.index]. *)
Inductive raised : Type :=
| Builtin (e : exn)
| ValueError (message : string).

Inductive outcome (A : Type) : Type :=
| Done (a : A)
| Failed (e : raised).

Arguments Done {A} a.
Arguments Failed {A} e.

Definition and_then {A B : Type} (m : outcome A) (k : A -> outcome B) : outcome B :=
  match m with
  | Done a => k a
  | Failed e => Failed e
  end.

Definition builtin {A : Type} (m : py A) : outcome A :=
  match m with
  | Return a => Done a
  | Raise e => Failed (Builtin e)
  end.

(** The first position at which [sub] occurs in [s]. *)
Fixpoint first_index (sub s : string) : option nat :=
  if String.prefix sub s then Some 0%nat
  else match s with
       | EmptyString => None
       | String _ r => option_map S (first_index sub r)
       end.

(** [s.index(sub)] *)
Definition str_index (sub s : string) : outcome nat :=
  match first_index sub s with
  | Some i => Done i
  | None => Failed (ValueError "substring not found")
  end.

Definition valid_starts : list string :=
  ["flowchart"; "graph"; "sequenceDiagram"; "classDiagram"].

(** [content.split(fence)[1].split("```")[0]] *)
Definition between_fences (fence content : string) : outcome string :=
  and_then (builtin (list_index (split fence content) 1)) (fun after =>
  builtin (list_index (split "```" after) 0)).

(** The loop over [valid_starts]: it cuts at the first entry that occurs
    and stops. *)
Fixpoint cut_at_start (starts : list string) (content : string) : outcome string :=
  match starts with
  | [] => Done content
  | start :: rest =>
      if contains start content then
        and_then (str_index start content) (fun idx =>
        Done (slice_from content idx))
      else cut_at_start rest content
  end.

Definition _clean_mermaid_code (content : string) : outcome string :=
  and_then
    (if contains "```mermaid" content then between_fences "```mermaid" content
     else if contains "```" content then between_fences "```" content
     else Done content) (fun content =>
  let content := strip content in
  if negb (existsb (fun start => String.prefix start content) valid_starts)
  then cut_at_start valid_starts content
  else Done content).

End MermaidGenerator.

(** * Properties *)

Import Normalizer Closed LlmService Schema Samples.

(** ** Strings *)

Lemma rstrip_idempotent (s : string) : rstrip (rstrip s) = rstrip s.
Proof.
  induction s as [|c r IH]; simpl; [reflexivity|].
  destruct (rstrip r) as [|c' r'] eqn:E.
  - destruct (isspace c) eqn:Ec; simpl; [reflexivity|].
    rewrite Ec. reflexivity.
  - change (rstrip (String c (String c' r'))) with
      (match rstrip (String c' r') with
       | EmptyString => if isspace c then EmptyString else String c EmptyString
       | r0 => String c r0
       end).
    rewrite IH. reflexivity.
Qed.

Lemma lstrip_head (s : string) :
  lstrip s = EmptyString \/ exists c r, lstrip s = String c r /\ isspace c = false.
Proof.
  induction s as [|c r IH]; simpl; [now left|].
  destruct (isspace c) eqn:Ec; [exact IH|].
  right. exists c, r. split; [reflexivity | exact Ec].
Qed.

Lemma lstrip_rstrip_head (c : ascii) (r : string) :
  isspace c = false -> lstrip (rstrip (String c r)) = rstrip (String c r).
Proof.
  intros Ec. simpl.
  destruct (rstrip r); rewrite ?Ec; simpl; rewrite Ec; reflexivity.
Qed.

Lemma strip_idempotent (s : string) : strip (strip s) = strip s.
Proof.
  unfold strip.
  destruct (lstrip_head s) as [E | (c & r & E & Ec)]; rewrite E.
  - reflexivity.
  - rewrite (lstrip_rstrip_head c r Ec). apply rstrip_idempotent.
Qed.

(** ** The code returns the closed forms *)

Lemma _safe_string_eq (val : value) (default : string) :
  _safe_string val default = Return (VStr (safe_string val default)).
Proof.
  unfold _safe_string, safe_string.
  destruct val as [| | | | s | |]; cbn [truthy isinstance_str andb];
    rewrite ?andb_false_r; try reflexivity.
  destruct s as [|c r]; [reflexivity|].
  cbn [String.eqb negb str_strip bind truthy].
  destruct (String.eqb (strip (String c r)) ""); reflexivity.
Qed.

Lemma dict_get_entries (data : value) (key : string) (default : value) :
  dict_get (dict_or_empty data) key default
  = Return (get (entries_of data) key default).
Proof.
  unfold get. destruct data; cbn; try reflexivity.
  destruct (lookup key entries); reflexivity.
Qed.

Lemma dict_get_dict (d : list (string * value)) (key : string) (default : value) :
  dict_get (VDict d) key default = Return (get d key default).
Proof. unfold get. cbn. destruct (lookup key d); reflexivity. Qed.

Lemma get_safe_string (d : list (string * value)) (key default : string) :
  dict_get (VDict d) key VNone >>= (fun v => _safe_string v default)
  = Return (str_field d key default).
Proof. rewrite dict_get_dict. cbn [bind]. apply _safe_string_eq. Qed.

Lemma get_safe_string_entries (data : value) (key default : string) :
  dict_get (dict_or_empty data) key VNone >>= (fun v => _safe_string v default)
  = Return (str_field (entries_of data) key default).
Proof. rewrite dict_get_entries. cbn [bind]. apply _safe_string_eq. Qed.

Lemma py_iter_list_or_empty (xs : value) :
  py_iter (list_or_empty xs) = Return (items_of xs).
Proof. destruct xs; reflexivity. Qed.

(** A loop whose body appends the rebuilt element when it is a dict, and
    nothing otherwise, computes [records]. *)
Lemma for_enumerate_records (f : Z -> list (string * value) -> value)
    (body : Z -> value -> list value -> py (list value)) :
  (forall i d acc, body i (VDict d) acc = Return (acc ++ [f i d])) ->
  (forall i x acc, isinstance_dict x = false -> body i x acc = Return acc) ->
  forall items i acc,
    for_enumerate i items body acc = Return (acc ++ records f i items).
Proof.
  intros Hdict Hother items.
  induction items as [|x rest IH]; intros i acc; cbn [for_enumerate records].
  - now rewrite app_nil_r.
  - destruct x; try (rewrite Hother by reflexivity; cbn [bind]; apply IH).
    rewrite Hdict. cbn [bind]. rewrite IH, <- app_assoc. reflexivity.
Qed.

Ltac step_fields :=
  repeat (first
    [ rewrite get_safe_string_entries
    | rewrite get_safe_string
    | rewrite dict_get_entries
    | rewrite dict_get_dict
    | rewrite py_iter_list_or_empty ];
    cbn [bind]).

Ltac loop_records f :=
  unfold for_each;
  rewrite (for_enumerate_records f);
  [ cbn [bind app]
  | intros ? ? ?; cbn [isinstance_dict]; step_fields; reflexivity
  | intros ? x ? Hx; rewrite Hx; reflexivity ].

Lemma _normalize_summary_eq (data : value) :
  _normalize_summary data = Return (summary_of (entries_of data)).
Proof. unfold _normalize_summary. step_fields. reflexivity. Qed.

Lemma _normalize_features_eq (data : value) :
  _normalize_features data = Return (features_of (entries_of data)).
Proof.
  unfold _normalize_features. step_fields.
  loop_records feature_of. reflexivity.
Qed.

Lemma _normalize_feasibility_eq (data : value) :
  _normalize_feasibility data = Return (feasibility_of (entries_of data)).
Proof.
  unfold _normalize_feasibility. step_fields.
  unfold feasibility_of, level_of.
  destruct (in_str_list _ _); reflexivity.
Qed.

Lemma _normalize_system_flow_eq (data : value) :
  _normalize_system_flow data = Return (system_flow_of (entries_of data)).
Proof.
  unfold _normalize_system_flow. step_fields.
  loop_records step_of. step_fields. reflexivity.
Qed.

Lemma _normalize_tech_stack_eq (data : value) :
  _normalize_tech_stack data = Return (tech_stack_of (entries_of data)).
Proof.
  unfold _normalize_tech_stack. step_fields.
  loop_records primary_of. step_fields.
  loop_records backup_of. reflexivity.
Qed.

Lemma _normalize_comparison_eq (data : value) :
  _normalize_comparison data = Return (comparison_of (entries_of data)).
Proof.
  unfold _normalize_comparison. step_fields.
  loop_records solution_of. step_fields.
  unfold comparison_of, still_valuable_of, py_or.
  destruct (truthy _); step_fields; reflexivity.
Qed.

Lemma _normalize_viva_eq (data : value) :
  _normalize_viva data = Return (viva_of (entries_of data)).
Proof.
  unfold _normalize_viva. step_fields.
  loop_records common_of. step_fields.
  loop_records hackathon_of. step_fields. reflexivity.
Qed.

Lemma _normalize_pitch_eq (data : value) :
  _normalize_pitch data = Return (pitch_of (entries_of data)).
Proof. unfold _normalize_pitch. step_fields. reflexivity. Qed.

Lemma _normalize_diagrams_eq (data : value) :
  _normalize_diagrams data = Return (diagrams_of (entries_of data)).
Proof. unfold _normalize_diagrams. step_fields. reflexivity. Qed.

Lemma get_fallback_blueprint_eq : get_fallback_blueprint = Return (blueprint_of []).
Proof.
  unfold get_fallback_blueprint.
  rewrite _normalize_summary_eq, _normalize_features_eq, _normalize_feasibility_eq,
    _normalize_system_flow_eq, _normalize_tech_stack_eq, _normalize_comparison_eq,
    _normalize_viva_eq, _normalize_pitch_eq, _normalize_diagrams_eq.
  reflexivity.
Qed.

Lemma normalize_blueprint_eq (raw : value) :
  normalize_blueprint raw = Return (blueprint_of (entries_of raw)).
Proof.
  unfold normalize_blueprint.
  destruct raw as [| | | | | |d]; cbn [truthy isinstance_dict negb orb entries_of];
    rewrite ?orb_true_r; try apply get_fallback_blueprint_eq.
  destruct d as [|kv d]; [apply get_fallback_blueprint_eq|].
  cbn [negb orb].
  repeat (rewrite dict_get_dict; cbn [bind]).
  rewrite _normalize_summary_eq, _normalize_features_eq, _normalize_feasibility_eq,
    _normalize_system_flow_eq, _normalize_tech_stack_eq, _normalize_comparison_eq,
    _normalize_viva_eq, _normalize_pitch_eq, _normalize_diagrams_eq.
  reflexivity.
Qed.

(** ** Normalising a normalised value *)

Lemma safe_string_fixed (val : value) (default : string) :
  strip default = default -> default <> "" ->
  strip (safe_string val default) = safe_string val default
  /\ safe_string val default <> "".
Proof.
  intros Hs Hne. unfold safe_string.
  destruct val; try (split; assumption).
  destruct (String.eqb_spec (strip s) ""); [split; assumption|].
  split; [apply strip_idempotent | assumption].
Qed.

Lemma safe_string_keep (p default : string) :
  strip p = p -> p <> "" -> safe_string (VStr p) default = p.
Proof.
  intros Hs Hne. unfold safe_string. rewrite Hs.
  destruct (String.eqb_spec p ""); [contradiction | reflexivity].
Qed.

(** Reading back a field that [str_field] wrote (with a default that is a
    non-empty stripped string) returns it unchanged. *)
Lemma str_field_again (e d : list (string * value)) (key default k0 default0 : string) :
  lookup key e = Some (str_field d k0 default0) ->
  strip default0 = default0 -> default0 <> "" ->
  str_field e key default = str_field d k0 default0.
Proof.
  intros E Hs Hne. unfold str_field at 1, get. rewrite E. unfold str_field.
  destruct (safe_string_fixed (get d k0 VNone) default0 Hs Hne) as [H1 H2].
  now rewrite safe_string_keep.
Qed.

Lemma str_field_const (e : list (string * value)) (key default p : string) :
  lookup key e = Some (VStr p) -> strip p = p -> p <> "" ->
  str_field e key default = VStr p.
Proof.
  intros E Hs Hne. unfold str_field, get. rewrite E.
  now rewrite safe_string_keep.
Qed.

Lemma _safe_list_is_list (val : value) (default : option (list value)) :
  exists l, _safe_list val default = VList l.
Proof. destruct val; cbn; eauto. Qed.

Lemma list_field_again (e d : list (string * value)) (key k0 : string)
    (default default0 : list value) :
  lookup key e = Some (list_field d k0 default0) ->
  list_field e key default = list_field d k0 default0.
Proof.
  intros E. unfold list_field at 1, get. rewrite E. unfold list_field.
  destruct (_safe_list_is_list (match lookup k0 d with Some x => x | None => VNone end)
              (Some default0)) as [l El].
  unfold get. rewrite El. reflexivity.
Qed.

Lemma list_field_const (e : list (string * value)) (key : string)
    (default l : list value) :
  lookup key e = Some (VList l) -> list_field e key default = VList l.
Proof. intros E. unfold list_field, get. rewrite E. reflexivity. Qed.

Lemma record_list_lookup (f : Z -> list (string * value) -> value)
    (e : list (string * value)) (key : string) (l : list value) :
  lookup key e = Some (VList l) -> record_list f e key = records f 0 l.
Proof. intros E. unfold record_list, get. rewrite E. reflexivity. Qed.

Ltac lookups :=
  cbn [get lookup entries_of items_of String.eqb Ascii.eqb Bool.eqb andb].

Ltac stripped := first [reflexivity | discriminate].

Ltac fields_again :=
  repeat match goal with
  | |- context [str_field (?x :: ?e) ?k ?dflt] =>
      first [ erewrite (str_field_again (x :: e) _ k dflt) by stripped
            | erewrite (str_field_const (x :: e) k dflt) by stripped ]
  | |- context [list_field (?x :: ?e) ?k ?dflt] =>
      first [ erewrite (list_field_again (x :: e) _ k _ dflt) by reflexivity
            | erewrite (list_field_const (x :: e) k dflt) by reflexivity ]
  | |- context [record_list ?f (?x :: ?e) ?k] =>
      erewrite (record_list_lookup f (x :: e) k) by reflexivity
  end.

Lemma records_again (f : Z -> list (string * value) -> value) :
  rebuilds f ->
  forall items i j, records f j (records f i items) = records f i items.
Proof.
  intros Hf items. induction items as [|x rest IH]; intros i j; [reflexivity|].
  destruct x; cbn [records]; try apply IH.
  destruct (Hf i j entries) as (e & E1 & E2).
  rewrite E1. cbn [records]. rewrite E2, IH. reflexivity.
Qed.

Lemma records_if_empty_again (f : Z -> list (string * value) -> value)
    (defaults items : list value) :
  rebuilds f -> records f 0 defaults = defaults ->
  records f 0 (if_empty (records f 0 items) defaults)
  = if_empty (records f 0 items) defaults.
Proof.
  intros Hf Hd. destruct (records f 0 items) eqn:E; cbn [if_empty].
  - exact Hd.
  - rewrite <- E. now apply records_again.
Qed.

Lemma if_empty_again (l defaults : list value) :
  if_empty (if_empty l defaults) defaults = if_empty l defaults.
Proof. destruct l; [destruct defaults|]; reflexivity. Qed.

Ltac rebuild :=
  intros i j d; eexists; split; [reflexivity|];
  match goal with |- ?f _ _ = _ => unfold f end;
  unfold flow_step, primary_entry, common_question, hackathon_question;
  fields_again; reflexivity.

Lemma rebuilds_feature : rebuilds feature_of.
Proof. rebuild. Qed.

Lemma rebuilds_step : rebuilds step_of.
Proof. rebuild. Qed.

Lemma rebuilds_primary : rebuilds primary_of.
Proof. rebuild. Qed.

Lemma rebuilds_backup : rebuilds backup_of.
Proof. rebuild. Qed.

Lemma rebuilds_solution : rebuilds solution_of.
Proof. rebuild. Qed.

Lemma rebuilds_common : rebuilds common_of.
Proof. rebuild. Qed.

Lemma rebuilds_hackathon : rebuilds hackathon_of.
Proof. rebuild. Qed.

Lemma summary_again d : summary_of (entries_of (summary_of d)) = summary_of d.
Proof.
  unfold summary_of at 1 2. cbn [entries_of]. fields_again. reflexivity.
Qed.


Ltac section_again f :=
  unfold f; cbn [entries_of]; fields_again; unfold record_list;
  rewrite ?records_if_empty_again, ?records_again
    by first [ exact rebuilds_feature | exact rebuilds_step | exact rebuilds_primary
             | exact rebuilds_backup | exact rebuilds_solution
             | exact rebuilds_common | exact rebuilds_hackathon | reflexivity ];
  rewrite ?if_empty_again; try reflexivity.

Lemma features_again d : features_of (entries_of (features_of d)) = features_of d.
Proof. section_again features_of. Qed.

Lemma level_again (e d : list (string * value)) :
  lookup "feasibility_level" e = Some (level_of d) -> level_of e = level_of d.
Proof.
  intros E. unfold level_of at 1, get. rewrite E.
  unfold level_of.
  destruct (in_str_list (get d "feasibility_level" (VStr "Medium")) _) eqn:Hin;
    [now rewrite Hin | reflexivity].
Qed.

Lemma feasibility_again d :
  feasibility_of (entries_of (feasibility_of d)) = feasibility_of d.
Proof.
  unfold feasibility_of. cbn [entries_of]. fields_again.
  erewrite level_again by reflexivity. reflexivity.
Qed.

Lemma system_flow_again d :
  system_flow_of (entries_of (system_flow_of d)) = system_flow_of d.
Proof. section_again system_flow_of. Qed.

Lemma tech_stack_again d :
  tech_stack_of (entries_of (tech_stack_of d)) = tech_stack_of d.
Proof. section_again tech_stack_of. Qed.

Lemma viva_again d : viva_of (entries_of (viva_of d)) = viva_of d.
Proof. section_again viva_of. Qed.

Lemma pitch_again d : pitch_of (entries_of (pitch_of d)) = pitch_of d.
Proof. section_again pitch_of. Qed.

Lemma diagrams_again d : diagrams_of (entries_of (diagrams_of d)) = diagrams_of d.
Proof. section_again diagrams_of. Qed.

Lemma still_valuable_is_list d : exists l, still_valuable_of d = VList l.
Proof. unfold still_valuable_of. apply _safe_list_is_list. Qed.

(** The alias [why_still_valuable] is read only when the primary key holds
    a false value, and the output never has the alias: an empty list is
    replaced on the next pass. *)
Lemma still_valuable_again (e d : list (string * value)) :
  lookup "why_this_project_is_still_valuable" e = Some (still_valuable_of d) ->
  lookup "why_still_valuable" e = None ->
  still_valuable_of e
  = match still_valuable_of d with
    | VList [] => VList [VStr "Learning experience"; VStr "Tailored to specific requirements"]
    | w => w
    end.
Proof.
  intros E1 E2. unfold still_valuable_of at 1, get. rewrite E1, E2.
  destruct (still_valuable_is_list d) as [l El]. rewrite El.
  destruct l; reflexivity.
Qed.

Lemma comparison_again d :
  still_valuable_of d <> VList [] ->
  comparison_of (entries_of (comparison_of d)) = comparison_of d.
Proof.
  intros Hne. unfold comparison_of. cbn [entries_of]. fields_again.
  unfold record_list. rewrite records_again by exact rebuilds_solution.
  erewrite still_valuable_again by reflexivity.
  destruct (still_valuable_is_list d) as [l El]. rewrite El in *.
  destruct l; [contradiction | reflexivity].
Qed.

Lemma blueprint_again (raw : list (string * value)) :
  still_valuable_of (entries_of (get raw "comparison" (VDict []))) <> VList [] ->
  blueprint_of (entries_of (blueprint_of raw)) = blueprint_of raw.
Proof.
  intros Hne. unfold blueprint_of. cbn [entries_of].
  lookups.
  rewrite summary_again, features_again, feasibility_again, system_flow_again,
    tech_stack_again, comparison_again, viva_again, pitch_again, diagrams_again
    by exact Hne.
  reflexivity.
Qed.
(** ** Every output conforms to the schema *)

Lemma nonempty_str_field (d : list (string * value)) (key default : string) :
  default <> "" -> nonempty_str (str_field d key default) = true.
Proof.
  intros Hne. unfold str_field, nonempty_str, safe_string.
  assert (Hd : negb (String.eqb default "") = true)
    by (destruct (String.eqb_spec default ""); [contradiction | reflexivity]).
  destruct (get d key VNone); try exact Hd.
  destruct (String.eqb (strip s) "") eqn:E; [exact Hd | now rewrite E].
Qed.

Lemma list_field_is_list (d : list (string * value)) (key : string)
    (default : list value) :
  isinstance_list (list_field d key default) = true.
Proof.
  unfold list_field.
  destruct (_safe_list_is_list (get d key VNone) (Some default)) as [l E].
  now rewrite E.
Qed.

Lemma level_of_in_levels (d : list (string * value)) :
  in_str_list (level_of d) levels = true.
Proof.
  unfold level_of, levels.
  destruct (in_str_list (get d "feasibility_level" (VStr "Medium")) _) eqn:E;
    [exact E | reflexivity].
Qed.

Lemma still_valuable_is_list' (d : list (string * value)) :
  isinstance_list (still_valuable_of d) = true.
Proof. destruct (still_valuable_is_list d) as [l E]. now rewrite E. Qed.

Lemma forallb_records (P : value -> bool) (f : Z -> list (string * value) -> value) :
  (forall i d, P (f i d) = true) ->
  forall items i, forallb P (records f i items) = true.
Proof.
  intros Hf items. induction items as [|x rest IH]; intros i; [reflexivity|].
  destruct x; cbn [records forallb]; rewrite ?Hf; apply IH.
Qed.

Lemma forallb_if_empty (P : value -> bool) (l defaults : list value) :
  forallb P l = true -> forallb P defaults = true ->
  forallb P (if_empty l defaults) = true.
Proof. destruct l; auto. Qed.

Ltac conform :=
  cbn [conforms String.eqb Ascii.eqb Bool.eqb andb];
  rewrite ?nonempty_str_field, ?list_field_is_list, ?level_of_in_levels,
    ?still_valuable_is_list' by discriminate;
  try reflexivity.

Ltac conform_element f sch :=
  intros i d; unfold f, sch, flow_step, primary_entry, common_question,
    hackathon_question; conform.

Lemma conforms_feature i d : conforms feature_schema (feature_of i d) = true.
Proof. revert i d. conform_element feature_of feature_schema. Qed.

Lemma conforms_step i d : conforms step_schema (step_of i d) = true.
Proof. revert i d. conform_element step_of step_schema. Qed.

Lemma conforms_primary i d : conforms primary_schema (primary_of i d) = true.
Proof. revert i d. conform_element primary_of primary_schema. Qed.

Lemma conforms_backup i d : conforms backup_schema (backup_of i d) = true.
Proof. revert i d. conform_element backup_of backup_schema. Qed.

Lemma conforms_solution i d : conforms solution_schema (solution_of i d) = true.
Proof. revert i d. conform_element solution_of solution_schema. Qed.

Lemma conforms_common i d : conforms common_schema (common_of i d) = true.
Proof. revert i d. conform_element common_of common_schema. Qed.

Lemma conforms_hackathon i d : conforms hackathon_schema (hackathon_of i d) = true.
Proof. revert i d. conform_element hackathon_of hackathon_schema. Qed.

Lemma conforms_record_list (sch : schema) (f : Z -> list (string * value) -> value)
    (d : list (string * value)) (key : string) :
  (forall i e, conforms sch (f i e) = true) ->
  forallb (conforms sch) (record_list f d key) = true.
Proof. intros Hf. apply forallb_records, Hf. Qed.

Lemma conforms_record_list_or (sch : schema) (f : Z -> list (string * value) -> value)
    (d : list (string * value)) (key : string) (defaults : list value) :
  (forall i e, conforms sch (f i e) = true) ->
  forallb (conforms sch) defaults = true ->
  forallb (conforms sch) (if_empty (record_list f d key) defaults) = true.
Proof. intros Hf Hd. apply forallb_if_empty; [now apply conforms_record_list | exact Hd]. Qed.

Ltac conform_section f sch :=
  unfold f, sch; conform;
  rewrite ?conforms_record_list_or, ?conforms_record_list
    by first [ exact conforms_feature | exact conforms_step | exact conforms_primary
             | exact conforms_backup | exact conforms_solution
             | exact conforms_common | exact conforms_hackathon | reflexivity ];
  try reflexivity.

Lemma conforms_summary d : conforms summary_schema (summary_of d) = true.
Proof. conform_section summary_of summary_schema. Qed.

Lemma conforms_features d : conforms features_schema (features_of d) = true.
Proof. conform_section features_of features_schema. Qed.

Lemma conforms_feasibility d : conforms feasibility_schema (feasibility_of d) = true.
Proof. conform_section feasibility_of feasibility_schema. Qed.

Lemma conforms_system_flow d : conforms system_flow_schema (system_flow_of d) = true.
Proof. conform_section system_flow_of system_flow_schema. Qed.

Lemma conforms_tech_stack d : conforms tech_stack_schema (tech_stack_of d) = true.
Proof. conform_section tech_stack_of tech_stack_schema. Qed.

Lemma conforms_comparison d : conforms comparison_schema (comparison_of d) = true.
Proof. conform_section comparison_of comparison_schema. Qed.

Lemma conforms_viva d : conforms viva_schema (viva_of d) = true.
Proof. conform_section viva_of viva_schema. Qed.

Lemma conforms_pitch d : conforms pitch_schema (pitch_of d) = true.
Proof. conform_section pitch_of pitch_schema. Qed.

Lemma conforms_diagrams d : conforms diagrams_schema (diagrams_of d) = true.
Proof. conform_section diagrams_of diagrams_schema. Qed.

Lemma conforms_blueprint raw : conforms blueprint_schema (blueprint_of raw) = true.
Proof.
  unfold blueprint_of, blueprint_schema.
  cbn [conforms String.eqb Ascii.eqb Bool.eqb andb].
  rewrite conforms_summary, conforms_features, conforms_feasibility,
    conforms_system_flow, conforms_tech_stack, conforms_comparison, conforms_viva,
    conforms_pitch, conforms_diagrams.
  reflexivity.
Qed.

(** ** Paths into a blueprint *)

Lemma path_blueprint_level (raw : list (string * value)) :
  path (blueprint_of raw) ["feasibility"; "feasibility_level"]
  = Some (level_of (entries_of (get raw "feasibility" (VDict [])))).
Proof. reflexivity. Qed.

Lemma level_of_path (raw : value) :
  let level := level_of (entries_of (get (entries_of raw) "feasibility" (VDict []))) in
  match path raw ["feasibility"; "feasibility_level"] with
  | Some given =>
      if in_str_list given levels then level = given else level = VStr "Medium"
  | None => level = VStr "Medium"
  end.
Proof.
  intros level. subst level.
  destruct raw as [| | | | | |d]; try reflexivity.
  cbn [path entries_of].
  replace (get d "feasibility" (VDict []))
    with (match lookup "feasibility" d with Some x => x | None => VDict [] end)
    by reflexivity.
  destruct (lookup "feasibility" d) as [x|]; [|reflexivity].
  destruct x as [| | | | | |e]; try reflexivity.
  cbn [path entries_of]. unfold level_of, get.
  destruct (lookup "feasibility_level" e) as [given|]; [|reflexivity].
  unfold levels. destruct (in_str_list given _); reflexivity.
Qed.

(** C1. [normalize_blueprint] never raises: for every input whatsoever it
    returns a dict with exactly the nine sections, each with exactly its
    fields, every string field a non-empty str, every list field a list,
    and [feasibility_level] one of High, Medium and Low; a level outside
    that set, or a missing one, becomes Medium. *)
Theorem normalize_blueprint_total (raw : value) :
  exists bp level,
    normalize_blueprint raw = Return bp
    /\ conforms blueprint_schema bp = true
    /\ path bp ["feasibility"; "feasibility_level"] = Some level
    /\ in_str_list level levels = true
    /\ match path raw ["feasibility"; "feasibility_level"] with
       | Some given =>
           if in_str_list given levels then level = given
           else level = VStr "Medium"
       | None => level = VStr "Medium"
       end.
Proof.
  exists (blueprint_of (entries_of raw)).
  exists (level_of (entries_of (get (entries_of raw) "feasibility" (VDict [])))).
  split; [apply normalize_blueprint_eq|].
  split; [apply conforms_blueprint|].
  split; [apply path_blueprint_level|].
  split; [apply level_of_in_levels | apply level_of_path].
Qed.

(** The four inputs the specification names. *)
Example normalize_blueprint_named_inputs :
  Forall (fun raw =>
            exists bp,
              normalize_blueprint raw = Return bp
              /\ conforms blueprint_schema bp = true
              /\ path bp ["feasibility"; "feasibility_level"] = Some (VStr "Medium"))
    [VNone; VDict []; raw_summary_not_a_dict; raw_nonsense_level].
Proof.
  repeat constructor; eexists; (split; [vm_compute; reflexivity|]); split; reflexivity.
Qed.

Lemma path_blueprint_still_valuable (raw : list (string * value)) :
  path (blueprint_of raw) ["comparison"; "why_this_project_is_still_valuable"]
  = Some (still_valuable_of (entries_of (get raw "comparison" (VDict [])))).
Proof. reflexivity. Qed.

(** Idempotence holds whenever the first pass did not produce an empty
    [why_this_project_is_still_valuable]. *)
Lemma normalize_blueprint_idempotent_when (x bp : value) :
  normalize_blueprint x = Return bp ->
  path bp ["comparison"; "why_this_project_is_still_valuable"] <> Some (VList []) ->
  normalize_blueprint bp = Return bp.
Proof.
  rewrite normalize_blueprint_eq. intros [= <-] Hne.
  rewrite path_blueprint_still_valuable in Hne.
  rewrite normalize_blueprint_eq, blueprint_again; [reflexivity|].
  intros E. apply Hne. now rewrite E.
Qed.

(** After the second pass nothing changes any more. *)
Lemma normalize_blueprint_stable_after_two (x once twice : value) :
  normalize_blueprint x = Return once ->
  normalize_blueprint once = Return twice ->
  normalize_blueprint twice = Return twice.
Proof.
  rewrite normalize_blueprint_eq. intros [= <-].
  intros H. apply (normalize_blueprint_idempotent_when _ _ H).
  rewrite normalize_blueprint_eq in H. injection H as <-.
  rewrite path_blueprint_still_valuable. cbn [entries_of blueprint_of].
  lookups.
  erewrite still_valuable_again by reflexivity.
  destruct (still_valuable_is_list
              (entries_of (get (entries_of x) "comparison" (VDict [])))) as [l El].
  unfold get in El |- *. rewrite El. destruct l; discriminate.
Qed.

(** C6. At the input [{"comparison": {"why_still_valuable": []}}] a second
    normalisation changes the result: the first pass keeps the empty list
    found under the alias key, the second pass finds an empty list under
    the primary key, falls to the (now absent) alias and substitutes the
    two-entry default. *)
Theorem normalize_blueprint_twice_differs :
  exists once twice,
    normalize_blueprint raw_alias_empty = Return once
    /\ normalize_blueprint once = Return twice
    /\ path once ["comparison"; "why_this_project_is_still_valuable"]
       = Some (VList [])
    /\ path twice ["comparison"; "why_this_project_is_still_valuable"]
       = Some (VList [VStr "Learning experience";
                      VStr "Tailored to specific requirements"])
    /\ twice <> once.
Proof.
  eexists. eexists.
  split; [vm_compute; reflexivity|].
  split; [vm_compute; reflexivity|].
  split; [reflexivity|]. split; [reflexivity|]. discriminate.
Qed.

(** ** System-flow steps *)

Lemma records_nth (f : Z -> list (string * value) -> value) (items : list value) :
  forall (i : nat) (j : Z) (d : list (string * value)),
    nth_error items i = Some (VDict d) ->
    nth_error (records f j items) (length (valid_elements (firstn i items)))
    = Some (f (j + Z.of_nat i)%Z d).
Proof.
  induction items as [|x rest IH]; intros i j d H; [destruct i; discriminate|].
  destruct i as [|i].
  - injection H as ->. cbn. now rewrite Z.add_0_r.
  - cbn [nth_error] in H. specialize (IH i (j + 1)%Z d H).
    replace (j + Z.of_nat (S i))%Z with (j + 1 + Z.of_nat i)%Z by lia.
    destruct x; exact IH.
Qed.

Lemma if_empty_nth (l defaults : list value) (n : nat) (x : value) :
  nth_error l n = Some x -> nth_error (if_empty l defaults) n = Some x.
Proof. destruct l; [destruct n; discriminate | trivial]. Qed.

Lemma path_blueprint_steps (raw : list (string * value)) :
  path (blueprint_of raw) ["system_flow"; "steps"]
  = Some (VList (if_empty (records step_of 0 (items_of
       (get (entries_of (get raw "system_flow" (VDict []))) "steps" (VList []))))
       default_steps)).
Proof. reflexivity. Qed.

(** C7 (as the code does it). A step element whose [step_number] key is
    missing gets its 1-based position in the raw [steps] list, non-dict
    elements counted; a step whose [step_number] key is present keeps the
    value it has, whatever its type. *)
Theorem step_number_kept_or_position (raw : value) (i : nat)
    (step : list (string * value)) :
  nth_error (raw_list raw "system_flow" "steps") i = Some (VDict step) ->
  exists bp steps normalized,
    normalize_blueprint raw = Return bp
    /\ path bp ["system_flow"; "steps"] = Some (VList steps)
    /\ nth_error steps
         (length (valid_elements (firstn i (raw_list raw "system_flow" "steps"))))
       = Some normalized
    /\ path normalized ["step_number"]
       = Some (match lookup "step_number" step with
               | Some given => given
               | None => VInt (Z.of_nat i + 1)
               end).
Proof.
  intros H. eexists. eexists. exists (step_of (Z.of_nat i) step).
  split; [apply normalize_blueprint_eq|].
  split; [apply path_blueprint_steps|].
  split.
  - apply if_empty_nth. apply (records_nth step_of _ i 0%Z step H).
  - cbn. unfold get. destruct (lookup "step_number" step); reflexivity.
Qed.

Lemma step_number_kept_or_position_witness :
  exists bp steps second third,
    normalize_blueprint raw_steps = Return bp
    /\ path bp ["system_flow"; "steps"] = Some (VList steps)
    /\ nth_error steps 0 = Some second
    /\ path second ["step_number"] = Some (VInt 2)
    /\ nth_error steps 1 = Some third
    /\ path third ["step_number"] = Some (VInt 7).
Proof.
  destruct (step_number_kept_or_position raw_steps 1 [("actor", VStr " Teacher ")]
              eq_refl) as (bp & steps & second & Hbp & Hsteps & Hnth & Hnum).
  destruct (step_number_kept_or_position raw_steps 2
              [("step_number", VInt 7); ("action", VStr "Marks attendance")]
              eq_refl) as (bp' & steps' & third & Hbp' & Hsteps' & Hnth' & Hnum').
  rewrite Hbp in Hbp'. injection Hbp' as <-.
  rewrite Hsteps in Hsteps'. injection Hsteps' as <-.
  exists bp, steps, second, third. repeat split; assumption.
Defined.

(** C7 (as stated). A present but non-numeric [step_number] is not
    replaced by the position. *)
Lemma step_number_non_numeric_kept :
  exists bp first,
    normalize_blueprint raw_step_abc = Return bp
    /\ path bp ["system_flow"; "steps"] = Some (VList [first])
    /\ path first ["step_number"] = Some (VStr "abc")
    /\ numeric (VStr "abc") = false
    /\ path first ["step_number"] <> Some (VInt 1).
Proof.
  eexists. eexists.
  split; [vm_compute; reflexivity|].
  split; [reflexivity|]. split; [reflexivity|]. split; [reflexivity|]. discriminate.
Qed.

(** ** Lists of records *)

Lemma records_no_valid (f : Z -> list (string * value) -> value) (items : list value) :
  forall i, valid_elements items = [] -> records f i items = [].
Proof.
  induction items as [|x rest IH]; intros i H; [reflexivity|].
  destruct x; cbn in H |- *; try discriminate; now apply IH.
Qed.

Lemma record_list_no_valid (f : Z -> list (string * value) -> value)
    (raw : value) (section field : string) :
  valid_elements (raw_list raw section field) = [] ->
  record_list f (entries_of (get (entries_of raw) section (VDict []))) field = [].
Proof. apply records_no_valid. Qed.

(** C8 (as the code does it). When no dict element remains, [features],
    the system-flow [steps], the [primary_stack] and both viva question
    lists are replaced by their fixed defaults (one, three, three, two and
    one element); [existing_solutions] and [backup_stack] have no defaults
    and are then the empty list. *)
Theorem empty_record_lists (raw : value) :
  exists bp,
    normalize_blueprint raw = Return bp
    /\ (valid_elements (raw_list raw "features" "features") = [] ->
        path bp ["features"; "features"] = Some (VList default_features))
    /\ (valid_elements (raw_list raw "system_flow" "steps") = [] ->
        path bp ["system_flow"; "steps"] = Some (VList default_steps))
    /\ (valid_elements (raw_list raw "tech_stack" "primary_stack") = [] ->
        path bp ["tech_stack"; "primary_stack"] = Some (VList default_primary_stack))
    /\ (valid_elements (raw_list raw "viva" "common_questions") = [] ->
        path bp ["viva"; "common_questions"] = Some (VList default_common_questions))
    /\ (valid_elements (raw_list raw "viva" "hackathon_questions") = [] ->
        path bp ["viva"; "hackathon_questions"]
        = Some (VList default_hackathon_questions))
    /\ (valid_elements (raw_list raw "comparison" "existing_solutions") = [] ->
        path bp ["comparison"; "existing_solutions"] = Some (VList []))
    /\ (valid_elements (raw_list raw "tech_stack" "backup_stack") = [] ->
        path bp ["tech_stack"; "backup_stack"] = Some (VList []))
    /\ map (@length value)
         [default_features; default_steps; default_primary_stack;
          default_common_questions; default_hackathon_questions]
       = [1; 3; 3; 2; 1]%nat.
Proof.
  exists (blueprint_of (entries_of raw)).
  split; [apply normalize_blueprint_eq|].
  repeat split; try reflexivity; intros H;
    match goal with
    | |- path _ [?s; ?k] = _ =>
        cbn [path blueprint_of lookup String.eqb Ascii.eqb Bool.eqb andb];
        unfold features_of, system_flow_of, tech_stack_of, viva_of, comparison_of;
        cbn [path lookup String.eqb Ascii.eqb Bool.eqb andb];
        rewrite (record_list_no_valid _ raw s k H); reflexivity
    end.
Qed.

Lemma empty_record_lists_witness :
  exists bp,
    normalize_blueprint (VDict []) = Return bp
    /\ path bp ["features"; "features"] = Some (VList default_features)
    /\ path bp ["system_flow"; "steps"] = Some (VList default_steps)
    /\ path bp ["tech_stack"; "primary_stack"] = Some (VList default_primary_stack)
    /\ path bp ["viva"; "common_questions"] = Some (VList default_common_questions)
    /\ path bp ["viva"; "hackathon_questions"]
       = Some (VList default_hackathon_questions)
    /\ path bp ["comparison"; "existing_solutions"] = Some (VList [])
    /\ path bp ["tech_stack"; "backup_stack"] = Some (VList []).
Proof.
  destruct (empty_record_lists (VDict []))
    as (bp & H & H1 & H2 & H3 & H4 & H5 & H6 & H7 & _).
  exists bp. split; [exact H|].
  repeat split; [apply H1 | apply H2 | apply H3 | apply H4 | apply H5 | apply H6
                 | apply H7]; reflexivity.
Defined.

(** C8 (as stated). The comparison section of [normalize_blueprint({})] has
    an empty [existing_solutions] list. *)
Lemma empty_blueprint_has_no_existing_solutions :
  exists bp,
    normalize_blueprint (VDict []) = Return bp
    /\ path bp ["comparison"; "existing_solutions"] = Some (VList []).
Proof. eexists. split; [vm_compute; reflexivity | reflexivity]. Qed.

(** ** The frontend format *)

(** C9. [map_to_frontend_format(normalize_blueprint({}))] does not raise;
    its [techStack] is the three-entry default stack and its
    [userFlowMermaid] is a non-empty str that starts with "flowchart". *)
Theorem frontend_format_of_empty_blueprint :
  exists fe stack flow,
    (normalize_blueprint (VDict []) >>= map_to_frontend_format) = Return fe
    /\ subscript fe "techStack" = Return (VList stack)
    /\ stack = default_primary_stack
    /\ (3 <= length stack)%nat
    /\ subscript fe "userFlowMermaid" = Return (VStr flow)
    /\ flow <> ""
    /\ String.prefix "flowchart" flow = true.
Proof.
  eexists. eexists. eexists.
  split; [vm_compute; reflexivity|].
  split; [reflexivity|]. split; [reflexivity|].
  split; [cbn; lia|]. split; [reflexivity|].
  split; [discriminate | reflexivity].
Qed.

(** ** Inputs that are not records *)

(** C10. An input that is not a dict ([None], a str, a list, a number)
    takes the guard and returns [get_fallback_blueprint()], which does not
    raise and is what [normalize_blueprint({})] returns. That blueprint is
    the fully defaulted one: it conforms to the schema, and every field
    holds the default of its site in the normaliser (the two lists without
    a default are empty). *)
Theorem non_record_input_gives_fallback (raw : value) :
  isinstance_dict raw = false ->
  exists bp,
    normalize_blueprint raw = Return bp
    /\ get_fallback_blueprint = Return bp
    /\ normalize_blueprint (VDict []) = Return bp
    /\ conforms blueprint_schema bp = true
    /\ bp = VDict [
         ("summary", VDict [
            ("problem_statement", VStr "Not provided by AI");
            ("target_users", VList [VStr "Users"]);
            ("objectives", VList [VStr "Complete the project"]);
            ("scope", VStr "Defined by project requirements");
            ("what_this_means", VStr "This section explains your project's purpose");
            ("why_this_matters",
             VStr "Understanding this helps you explain your project clearly")]);
         ("features", VDict [("features", VList default_features)]);
         ("feasibility", VDict [
            ("feasibility_level", VStr "Medium");
            ("feasibility_explanation",
             VStr "This project is achievable for a college student");
            ("strengths", VList [VStr "Good educational value"]);
            ("risks", VList [VStr "Time management is important"]);
            ("why_this_matters",
             VStr "Knowing feasibility helps you plan realistically")]);
         ("system_flow", VDict [
            ("flow_title", VStr "System Flow");
            ("steps", VList default_steps);
            ("summary", VStr "This flow shows how users interact with the system")]);
         ("tech_stack", VDict [
            ("primary_stack", VList default_primary_stack);
            ("backup_stack", VList [])]);
         ("comparison", VDict [
            ("existing_solutions", VList []);
            ("unique_aspects", VList [VStr "Custom solution for specific needs"]);
            ("why_this_project_is_still_valuable",
             VList [VStr "Learning experience";
                    VStr "Tailored to specific requirements"]);
            ("summary_insight",
             VStr "Even though similar systems exist, this project provides valuable learning and customization opportunities.")]);
         ("viva", VDict [
            ("project_overview_explanation",
             VStr "This project solves a real problem using modern technology");
            ("problem_statement_explanation",
             VStr "The problem affects users in their daily workflow");
            ("architecture_explanation",
             VStr "The system uses a standard three-tier architecture");
            ("unique_feature_explanation",
             VStr "What makes this project special is its focus on the user experience");
            ("common_questions", VList default_common_questions);
            ("hackathon_questions", VList default_hackathon_questions)]);
         ("pitch", VDict [
            ("thirty_second_pitch",
             VStr "This project solves a real problem by providing an efficient digital solution. It saves time, reduces errors, and improves the user experience.");
            ("one_minute_pitch",
             VStr "Every day, users face challenges with manual processes. This project automates those processes, providing a faster, more reliable solution. Built with modern technologies, it's designed to be user-friendly and scalable. The system is ideal for educational or organizational settings where efficiency matters.");
            ("key_points",
             VList [VStr "Solves real problem"; VStr "Saves time";
                    VStr "User-friendly"])]);
         ("diagrams", VDict [
            ("user_flow_mermaid", VStr default_user_flow);
            ("tech_stack_mermaid", VStr default_tech_stack)])].
Proof.
  intros H. exists (blueprint_of []).
  assert (Hguard : normalize_blueprint raw = get_fallback_blueprint).
  { unfold normalize_blueprint. rewrite H. cbn [negb]. now rewrite orb_true_r. }
  split; [rewrite Hguard; apply get_fallback_blueprint_eq|].
  split; [apply get_fallback_blueprint_eq|].
  split; [apply (normalize_blueprint_eq (VDict []))|].
  split; [apply conforms_blueprint|].
  vm_compute. reflexivity.
Qed.

Lemma non_record_input_gives_fallback_witness :
  normalize_blueprint VNone = normalize_blueprint (VDict [])
  /\ normalize_blueprint (VStr "an idea") = normalize_blueprint (VDict [])
  /\ normalize_blueprint (VList [VInt 1]) = normalize_blueprint (VDict [])
  /\ normalize_blueprint (VInt 42) = normalize_blueprint (VDict [])
  /\ normalize_blueprint (VFloat (S754_finite false 3 0)) = normalize_blueprint (VDict []).
Proof.
  pose proof (fun raw H =>
    match non_record_input_gives_fallback raw H with
    | ex_intro _ bp (conj H1 (conj _ (conj H3 _))) => eq_trans H1 (eq_sym H3)
    end) as fallback.
  split; [exact (fallback VNone eq_refl)|].
  split; [exact (fallback (VStr "an idea") eq_refl)|].
  split; [exact (fallback (VList [VInt 1]) eq_refl)|].
  split; [exact (fallback (VInt 42) eq_refl)|].
  exact (fallback (VFloat (S754_finite false 3 0)) eq_refl).
Defined.

(** ** The provider cascade *)

Lemma has_valid_key_spec (key : string) :
  _has_valid_key key = true <-> strip key <> "" /\ key <> "YOUR_API_KEY_HERE".
Proof.
  unfold _has_valid_key. cbn [truthy].
  destruct (String.eqb_spec key "YOUR_API_KEY_HERE") as [E|E];
    destruct (String.eqb_spec (strip key) "") as [S|S];
    destruct (String.eqb_spec key "") as [K|K]; cbn; try tauto;
    try (split; [discriminate | tauto]).
  subst key. exfalso. apply S. reflexivity.
Qed.

Lemma provider_order_nodup : NoDup PROVIDER_ORDER.
Proof.
  unfold PROVIDER_ORDER.
  repeat (constructor; [cbn; intuition discriminate|]).
  constructor.
Qed.

Lemma prefix_app (a b : string) : String.prefix a (a ++ b) = true.
Proof.
  induction a as [|c a IH]; [destruct b; reflexivity|].
  cbn. destruct (ascii_dec c c); [exact IH | contradiction].
Qed.

Lemma append_assoc (a b c : string) : (a ++ (b ++ c))%string = ((a ++ b) ++ c)%string.
Proof. induction a as [|x a IH]; [reflexivity | cbn; now rewrite IH]. Qed.

Lemma split_from_nonempty (sep : string) (s : string) :
  forall skip cur, exists piece pieces, split_from sep skip cur s = piece :: pieces.
Proof.
  induction s as [|c r IH]; intros skip cur; cbn [split_from]; [eauto|].
  destruct skip; [|apply IH].
  destruct (String.prefix sep (String c r)); [eauto | apply IH].
Qed.

(** Where the separator occurs, [split] gives at least two pieces. *)
Lemma split_from_contains (sep : string) (s : string) :
  sep <> "" -> contains sep s = true ->
  forall cur, exists first second pieces,
    split_from sep 0 cur s = first :: second :: pieces.
Proof.
  intros Hsep. induction s as [|c r IH]; intros H cur.
  - destruct sep; [contradiction | discriminate].
  - cbn [contains split_from] in H |- *.
    destruct (String.prefix sep (String c r)).
    + destruct (split_from_nonempty sep r (String.length sep - 1) "")
        as (second & pieces & E).
      rewrite E. eauto.
    + apply IH. exact H.
Qed.

Section CascadeFacts.

Variable env : environment.
Variable http_post : request -> http_outcome.
Variable json_loads : string -> py value.
Variable json_dumps : value -> string.
Variable system_prompt : string.

Variables (prompt : string) (temperature : value) (max_tokens : Z).

Lemma build_provider_list_filter :
  _build_provider_list env = filter (configured env) PROVIDER_ORDER.
Proof.
  unfold _build_provider_list, PROVIDER_ORDER, configured, credential.
  cbn [filter String.eqb Ascii.eqb Bool.eqb andb].
  destruct (_has_valid_key (GEMINI_API_KEY env)),
    (_has_valid_key (GROQ_API_KEY env)),
    (_has_valid_key (OPENROUTER_API_KEY env)); reflexivity.
Qed.

Lemma demo_mode_iff_no_provider :
  IS_DEMO_MODE env = true <-> _build_provider_list env = [].
Proof.
  unfold IS_DEMO_MODE, _build_provider_list.
  destruct (_has_valid_key (GEMINI_API_KEY env)),
    (_has_valid_key (GROQ_API_KEY env)),
    (_has_valid_key (OPENROUTER_API_KEY env)); cbn; split; congruence.
Qed.

Lemma call_provider_attempt (provider : string) :
  match attempt env http_post system_prompt provider prompt temperature max_tokens with
  | Some (req, r) =>
      exists call,
        call_provider env http_post system_prompt provider prompt temperature max_tokens
        = Some call
        /\ forall log, call log = (r, log ++ [req])
  | None =>
      call_provider env http_post system_prompt provider prompt temperature max_tokens
      = None
  end.
Proof.
  unfold attempt, call_provider.
  destruct (String.eqb provider "gemini"); [eexists; split; reflexivity|].
  destruct (String.eqb provider "groq"); [eexists; split; reflexivity|].
  destruct (String.eqb provider "openrouter"); [eexists; split; reflexivity|].
  reflexivity.
Qed.

Lemma try_providers_failed (provider : string) (rest errors : list string)
    (log : list request) :
  fails env http_post system_prompt provider prompt temperature max_tokens ->
  try_providers env http_post system_prompt (provider :: rest) prompt temperature
    max_tokens errors log
  = try_providers env http_post system_prompt rest prompt temperature max_tokens
      (errors ++ [failure_reason env http_post system_prompt prompt temperature
                    max_tokens provider])
      (log ++ requests env http_post system_prompt [provider] prompt temperature
                max_tokens).
Proof.
  intros (req & r & Ha & Hr).
  pose proof (call_provider_attempt provider) as Hc.
  unfold requests, failure_reason. cbn [flat_map]. rewrite Ha in Hc |- *.
  destruct Hc as (call & Hcall & Hlog).
  cbn [try_providers]. rewrite Hcall. unfold io_bind. rewrite Hlog, Hr.
  rewrite app_nil_r. destruct r as [s c p e d i w]. cbn [error].
  destruct e; reflexivity.
Qed.

Lemma try_providers_all_failed (earlier rest errors : list string)
    (log : list request) :
  Forall (fun p => fails env http_post system_prompt p prompt temperature max_tokens)
    earlier ->
  try_providers env http_post system_prompt (earlier ++ rest) prompt temperature
    max_tokens errors log
  = try_providers env http_post system_prompt rest prompt temperature max_tokens
      (errors ++ map (failure_reason env http_post system_prompt prompt temperature
                        max_tokens) earlier)
      (log ++ requests env http_post system_prompt earlier prompt temperature
                max_tokens).
Proof.
  intros H. revert errors log.
  induction H as [|p earlier Hp _ IH]; intros errors log.
  - cbn. now rewrite !app_nil_r.
  - cbn [app]. rewrite (try_providers_failed p _ errors log Hp), IH.
    cbn [map]. rewrite <- !app_assoc. unfold requests. cbn [flat_map app].
    rewrite app_nil_r. reflexivity.
Qed.

Lemma try_providers_succeeded (winner : string) (later errors : list string)
    (log : list request) (req : request) (r : result) :
  attempt env http_post system_prompt winner prompt temperature max_tokens
  = Some (req, r) ->
  success r = true ->
  try_providers env http_post system_prompt (winner :: later) prompt temperature
    max_tokens errors log
  = (set_provider_used r winner, log ++ [req]).
Proof.
  intros Ha Hr. pose proof (call_provider_attempt winner) as Hc.
  rewrite Ha in Hc. destruct Hc as (call & Hcall & Hlog).
  cbn [try_providers]. rewrite Hcall. unfold io_bind. rewrite Hlog, Hr.
  reflexivity.
Qed.

Lemma requests_length (attempted : list string) :
  Forall (fun p => fails env http_post system_prompt p prompt temperature max_tokens)
    attempted ->
  length (requests env http_post system_prompt attempted prompt temperature max_tokens)
  = length attempted.
Proof.
  induction 1 as [|p attempted (req & r & Ha & _) _ IH]; [reflexivity|].
  unfold requests in *. cbn [flat_map]. rewrite Ha. cbn. now rewrite IH.
Qed.

(** C2. The providers of a service are the configured ones in the order
    gemini, groq, openrouter. When the providers before [winner] all fail
    and [winner] succeeds, the cascade sends one request to each of them in
    that order, then one to [winner], and nothing to the providers after
    it; it returns [winner]'s result tagged with [winner]. *)
Theorem cascade_returns_first_success (log : list request)
    (earlier later : list string) (winner : string) (req : request) (r : result) :
  providers (LLMService_init env) = earlier ++ winner :: later ->
  Forall (fun p => fails env http_post system_prompt p prompt temperature max_tokens)
    earlier ->
  attempt env http_post system_prompt winner prompt temperature max_tokens
  = Some (req, r) ->
  success r = true ->
  providers (LLMService_init env) = filter (configured env) PROVIDER_ORDER
  /\ generate_with_fallback env http_post json_dumps system_prompt
       (LLMService_init env) prompt temperature max_tokens log
     = (set_provider_used r winner,
        log ++ requests env http_post system_prompt earlier prompt temperature
                 max_tokens ++ [req])
  /\ success (set_provider_used r winner) = true
  /\ provider_used (set_provider_used r winner) = Some winner
  /\ length (requests env http_post system_prompt earlier prompt temperature
               max_tokens) = length earlier
  /\ NoDup (earlier ++ [winner]).
Proof.
  intros Hp Hfail Ha Hr.
  split; [apply build_provider_list_filter|].
  split.
  - unfold generate_with_fallback.
    destruct (is_demo_mode (LLMService_init env)) eqn:Hdemo.
    + apply demo_mode_iff_no_provider in Hdemo. cbn [providers LLMService_init] in Hp.
      rewrite Hdemo in Hp. destruct earlier; discriminate.
    + rewrite Hp, (try_providers_all_failed earlier _ [] log Hfail).
      rewrite (try_providers_succeeded winner later _ _ req r Ha Hr).
      now rewrite <- app_assoc.
  - split; [exact Hr|]. split; [reflexivity|].
    split; [now apply requests_length|].
    assert (Hnd : NoDup (earlier ++ winner :: later)).
    { rewrite <- Hp. cbn [providers LLMService_init].
      rewrite build_provider_list_filter.
      apply NoDup_filter, provider_order_nodup. }
    apply NoDup_remove in Hnd. destruct Hnd as [Hnd Hin].
    apply NoDup_app_remove_r with (l' := later) in Hnd as Hearlier.
    apply NoDup_app; [exact Hearlier | repeat constructor; intros [] | ].
    intros x Hx [<-|[]]. apply Hin, in_or_app. now left.
Qed.

(** C4. When at least one provider is configured and every configured
    provider fails, the cascade has sent one request to each, in order, and
    returns the failure with the fixed sentence as [error] and, as
    [error_details], one entry per provider in the same order, each
    ["<provider>: <reason>"]. *)
Theorem all_providers_failed (log : list request) :
  providers (LLMService_init env) <> [] ->
  Forall (fun p => fails env http_post system_prompt p prompt temperature max_tokens)
    (providers (LLMService_init env)) ->
  exists r details,
    generate_with_fallback env http_post json_dumps system_prompt
      (LLMService_init env) prompt temperature max_tokens log
    = (r, log ++ requests env http_post system_prompt
                   (providers (LLMService_init env)) prompt temperature max_tokens)
    /\ success r = false
    /\ error r = Some "AI services are temporarily busy. Please try again later."
    /\ error_details r = Some details
    /\ details = map (failure_reason env http_post system_prompt prompt temperature
                        max_tokens) (providers (LLMService_init env))
    /\ length details = length (providers (LLMService_init env))
    /\ Forall2 (fun p d => String.prefix (p ++ ": ") d = true)
         (providers (LLMService_init env)) details
    /\ length (requests env http_post system_prompt (providers (LLMService_init env))
                 prompt temperature max_tokens)
       = length (providers (LLMService_init env)).
Proof.
  intros Hne Hfail.
  eexists. eexists. split.
  - unfold generate_with_fallback.
    destruct (is_demo_mode (LLMService_init env)) eqn:Hdemo.
    + apply demo_mode_iff_no_provider in Hdemo. contradiction.
    + rewrite <- (app_nil_r (providers (LLMService_init env))) at 1.
      rewrite (try_providers_all_failed _ [] [] log Hfail). reflexivity.
  - cbn [all_failed success error error_details app].
    repeat split; try reflexivity.
    + apply length_map.
    + clear. induction (providers (LLMService_init env)) as [|p ps IH];
        constructor; [|exact IH].
      unfold failure_reason. rewrite append_assoc. apply prefix_app.
    + now apply requests_length.
Qed.

(** C5. A key is valid exactly when it is non-empty once trimmed and is
    not the placeholder; a provider is in the list exactly when it is one of
    the three and its key is valid; and with no provider in the list the
    service answers from the demo responder: the log of requests is
    unchanged and the result is a success tagged ["demo"]. *)
Theorem demo_mode_without_credentials (log : list request) :
  (forall key, _has_valid_key key = true
               <-> strip key <> "" /\ key <> "YOUR_API_KEY_HERE")
  /\ (forall p, In p (providers (LLMService_init env))
                <-> In p PROVIDER_ORDER /\ _has_valid_key (credential env p) = true)
  /\ (providers (LLMService_init env) = [] ->
      exists r,
        generate_with_fallback env http_post json_dumps system_prompt
          (LLMService_init env) prompt temperature max_tokens log = (r, log)
        /\ success r = true
        /\ provider_used r = Some "demo"
        /\ is_demo r = true).
Proof.
  split; [apply has_valid_key_spec|]. split.
  - intros p. cbn [providers LLMService_init]. rewrite build_provider_list_filter.
    exact (filter_In (configured env) p PROVIDER_ORDER).
  - intros Hp. apply demo_mode_iff_no_provider in Hp.
    unfold generate_with_fallback. cbn [is_demo_mode LLMService_init]. rewrite Hp.
    eexists. split; [reflexivity|].
    unfold _get_demo_response.
    destruct (_ || _); [|destruct (_ || _)]; repeat split; reflexivity.
Qed.

(** *** The JSON variant *)

Lemma parse_content_str (text : string) :
  parse_content json_loads (VStr text) = json_loads (json_text text).
Proof.
  unfold parse_content, json_text, without_fences, from_first_brace.
  cbn [py_contains bind the_str].
  assert (Hbrace : forall c : string,
    json_loads
      (if negb (String.prefix "{" c)
       then if negb (find_char "{" c =? -1)%Z
            then slice_from c (Z.to_nat (find_char "{" c)) else c
       else c)
    = json_loads
        (if String.prefix "{" c then c
         else if (find_char "{" c =? -1)%Z then c
              else slice_from c (Z.to_nat (find_char "{" c)))).
  { intros c. destruct (String.prefix "{" c), (find_char "{" c =? -1)%Z; reflexivity. }
  destruct (contains "```json" text) eqn:E1.
  - destruct (split_from_contains "```json" text ltac:(discriminate) E1 "")
      as (first & second & pieces & Es).
    unfold split. rewrite Es. cbn [list_index nth_error bind nth].
    destruct (split_from_nonempty "```" second 0 "") as (piece & others & Ep).
    rewrite Ep. cbn [list_index nth_error bind nth the_str].
    apply Hbrace.
  - cbn [bind]. destruct (contains "```" text) eqn:E2.
    + destruct (split_from_contains "```" text ltac:(discriminate) E2 "")
        as (first & second & pieces & Es).
      unfold split. rewrite Es.
      cbn [length Nat.leb list_index nth_error bind nth the_str].
      apply Hbrace.
    + cbn [bind the_str]. apply Hbrace.
Qed.


End CascadeFacts.

(** *** The cascade on sample providers *)

Lemma cascade_returns_first_success_witness :
  (exists r log,
     generate_with_fallback three_keys third_answers sample_json_dumps
       sample_system_prompt (LLMService_init three_keys) "Plan my project"
       float_0_7 8192 [] = (r, log)
     /\ success r = true
     /\ provider_used r = Some "openrouter"
     /\ content r = VStr fenced_text
     /\ map url log
        = [(GEMINI_API_URL ++ "?key=gemini-key")%string; GROQ_API_URL;
           OPENROUTER_API_URL])
  /\ (exists r log,
        generate_with_fallback three_keys first_answers_prose sample_json_dumps
          sample_system_prompt (LLMService_init three_keys) "Plan my project"
          float_0_7 8192 [] = (r, log)
        /\ success r = true
        /\ provider_used r = Some "gemini"
        /\ map url log = [(GEMINI_API_URL ++ "?key=gemini-key")%string]).
Proof.
  split.
  - destruct (cascade_returns_first_success three_keys third_answers
                sample_json_dumps sample_system_prompt "Plan my project" float_0_7
                8192 [] ["gemini"; "groq"] [] "openrouter"
                (openrouter_request three_keys sample_system_prompt
                   "Plan my project" float_0_7 8192)
                (openrouter_result (third_answers
                   (openrouter_request three_keys sample_system_prompt
                      "Plan my project" float_0_7 8192))))
      as (_ & H & _).
    + reflexivity.
    + constructor; [do 2 eexists; split; reflexivity|].
      constructor; [do 2 eexists; split; reflexivity|]. constructor.
    + reflexivity.
    + reflexivity.
    + do 2 eexists. split; [exact H|]. repeat split.
  - destruct (cascade_returns_first_success three_keys first_answers_prose
                sample_json_dumps sample_system_prompt "Plan my project" float_0_7
                8192 [] [] ["groq"; "openrouter"] "gemini"
                (gemini_request three_keys "Plan my project" float_0_7 8192)
                (gemini_result (first_answers_prose
                   (gemini_request three_keys "Plan my project" float_0_7 8192))))
      as (_ & H & _).
    + reflexivity.
    + constructor.
    + reflexivity.
    + reflexivity.
    + do 2 eexists. split; [exact H|]. repeat split.
Defined.

Lemma all_providers_failed_witness :
  exists r log,
    generate_with_fallback three_keys nobody_answers sample_json_dumps
      sample_system_prompt (LLMService_init three_keys) "Plan my project"
      float_0_7 8192 [] = (r, log)
    /\ success r = false
    /\ error r = Some "AI services are temporarily busy. Please try again later."
    /\ error_details r
       = Some ["gemini: Rate limited (429)"; "groq: Timeout";
               "openrouter: Payment required (402)"]
    /\ map url log
       = [(GEMINI_API_URL ++ "?key=gemini-key")%string; GROQ_API_URL;
          OPENROUTER_API_URL].
Proof.
  destruct (all_providers_failed three_keys nobody_answers sample_json_dumps
              sample_system_prompt "Plan my project" float_0_7 8192 [])
    as (r & details & H & Hs & He & Hd & Hmap & _).
  - discriminate.
  - repeat (constructor; [do 2 eexists; split; reflexivity|]). constructor.
  - exists r. eexists. split; [exact H|].
    split; [exact Hs|]. split; [exact He|].
    split; [rewrite Hd, Hmap; reflexivity | reflexivity].
Defined.

Lemma demo_mode_without_credentials_witness :
  providers (LLMService_init no_keys) = []
  /\ exists r,
       generate_with_fallback no_keys third_answers sample_json_dumps
         sample_system_prompt (LLMService_init no_keys) "Generate the full blueprint"
         float_0_7 8192 [] = (r, [])
       /\ success r = true
       /\ provider_used r = Some "demo"
       /\ is_demo r = true.
Proof.
  split; [reflexivity|].
  destruct (demo_mode_without_credentials no_keys third_answers sample_json_dumps
              sample_system_prompt "Generate the full blueprint" float_0_7 8192 [])
    as (_ & _ & H).
  exact (H eq_refl).
Defined.



Import Trimmed FrontendShape.

(** ** More on the normaliser *)

Lemma records_length (f : Z -> list (string * value) -> value) (items : list value) :
  forall i, length (records f i items) = length (valid_elements items).
Proof.
  induction items as [|x rest IH]; intros i; [reflexivity|].
  destruct x; cbn [records valid_elements filter isinstance_dict length];
    try apply IH.
  f_equal. apply IH.
Qed.

Lemma if_empty_length (l defaults : list value) :
  l <> [] -> length (if_empty l defaults) = length l.
Proof. destruct l; [contradiction | reflexivity]. Qed.


Lemma frontend_format_closed (raw : value) :
  exists bp fe,
    normalize_blueprint raw = Return bp /\ map_to_frontend_format bp = Return fe.
Proof.
  eexists. eexists. split; [apply normalize_blueprint_eq | reflexivity].
Qed.

(** The output of the normaliser always has what [map_to_frontend_format]
    subscripts: the composition never raises. The frontend dict has its
    twelve keys, the four dicts it builds have exactly their keys, and every
    entry holds the section or field of the normalised blueprint it is
    mapped from, which is present. *)
Theorem frontend_format_of_normalized (raw : value) :
  exists bp fe,
    normalize_blueprint raw = Return bp
    /\ map_to_frontend_format bp = Return fe
    /\ keys_at fe []
       = Some ["expandedIdea"; "evaluation"; "featuresDetailed"; "systemFlow";
               "techStack"; "techStackExtended"; "comparison"; "vivaGuide";
               "hackathonViva"; "pitch"; "userFlowMermaid"; "techStackMermaid"]
    /\ keys_at fe ["expandedIdea"]
       = Some ["problem_statement"; "target_users"; "objectives"; "scope";
               "what_this_means"; "why_this_matters"]
    /\ keys_at fe ["techStackExtended"] = Some ["primary_stack"; "alternatives"]
    /\ keys_at fe ["vivaGuide"]
       = Some ["project_overview_explanation"; "problem_statement_explanation";
               "architecture_explanation"; "unique_feature_explanation";
               "common_questions"]
    /\ keys_at fe ["hackathonViva"] = Some ["viva_questions"; "hackathon_questions"]
    /\ mapped fe ["expandedIdea"; "problem_statement"] bp ["summary"; "problem_statement"]
    /\ mapped fe ["expandedIdea"; "target_users"] bp ["summary"; "target_users"]
    /\ mapped fe ["expandedIdea"; "objectives"] bp ["summary"; "objectives"]
    /\ mapped fe ["expandedIdea"; "scope"] bp ["summary"; "scope"]
    /\ mapped fe ["expandedIdea"; "what_this_means"] bp ["summary"; "what_this_means"]
    /\ mapped fe ["expandedIdea"; "why_this_matters"] bp ["summary"; "why_this_matters"]
    /\ mapped fe ["evaluation"] bp ["feasibility"]
    /\ mapped fe ["featuresDetailed"] bp ["features"]
    /\ mapped fe ["systemFlow"] bp ["system_flow"]
    /\ mapped fe ["techStack"] bp ["tech_stack"; "primary_stack"]
    /\ mapped fe ["techStackExtended"; "primary_stack"] bp ["tech_stack"; "primary_stack"]
    /\ mapped fe ["techStackExtended"; "alternatives"] bp ["tech_stack"; "backup_stack"]
    /\ mapped fe ["comparison"] bp ["comparison"]
    /\ mapped fe ["vivaGuide"; "project_overview_explanation"]
         bp ["viva"; "project_overview_explanation"]
    /\ mapped fe ["vivaGuide"; "problem_statement_explanation"]
         bp ["viva"; "problem_statement_explanation"]
    /\ mapped fe ["vivaGuide"; "architecture_explanation"]
         bp ["viva"; "architecture_explanation"]
    /\ mapped fe ["vivaGuide"; "unique_feature_explanation"]
         bp ["viva"; "unique_feature_explanation"]
    /\ mapped fe ["vivaGuide"; "common_questions"] bp ["viva"; "common_questions"]
    /\ mapped fe ["hackathonViva"; "viva_questions"] bp ["viva"; "common_questions"]
    /\ mapped fe ["hackathonViva"; "hackathon_questions"]
         bp ["viva"; "hackathon_questions"]
    /\ mapped fe ["pitch"] bp ["pitch"]
    /\ mapped fe ["userFlowMermaid"] bp ["diagrams"; "user_flow_mermaid"]
    /\ mapped fe ["techStackMermaid"] bp ["diagrams"; "tech_stack_mermaid"].
Proof.
  eexists. eexists.
  split; [apply normalize_blueprint_eq|].
  split; [reflexivity|].
  do 5 (split; [reflexivity|]).
  repeat (split; [eexists; split; reflexivity|]).
  eexists; split; reflexivity.
Qed.

(** Without normalisation the mapping raises: a dict that lacks a section
    gives [KeyError], anything that is not a dict gives [TypeError]. *)
Lemma subscript_path (v : value) (key : string) (x : value) :
  subscript v key = Return x <-> path v [key] = Some x.
Proof.
  destruct v; cbn; try (split; discriminate).
  destruct (lookup key entries); split; congruence.
Qed.

(** The frontend dict determines the normalised blueprint: two normalised
    blueprints with the same frontend format are equal, so the re-keying
    loses nothing. *)
Theorem frontend_format_lossless (raw1 raw2 bp1 bp2 fe : value) :
  normalize_blueprint raw1 = Return bp1 ->
  normalize_blueprint raw2 = Return bp2 ->
  map_to_frontend_format bp1 = Return fe ->
  map_to_frontend_format bp2 = Return fe ->
  bp1 = bp2.
Proof.
  rewrite !normalize_blueprint_eq. intros [= <-] [= <-] H1 H2.
  rewrite <- H2 in H1. clear H2.
  unfold blueprint_of in *.
  unfold summary_of, features_of, feasibility_of, system_flow_of, tech_stack_of,
    comparison_of, viva_of, pitch_of, diagrams_of in *.
  cbn [map_to_frontend_format subscript2 subscript bind lookup String.eqb Ascii.eqb
       Bool.eqb andb] in H1.
  injection H1 as H1. unfold str_field. cbv beta. congruence.
Qed.

Lemma frontend_format_lossless_witness :
  exists bp1 bp2 fe,
    normalize_blueprint VNone = Return bp1
    /\ normalize_blueprint (VDict [("summary", VInt 7)]) = Return bp2
    /\ map_to_frontend_format bp1 = Return fe
    /\ map_to_frontend_format bp2 = Return fe
    /\ bp1 = bp2.
Proof.
  eexists _, _, _.
  split; [vm_compute; reflexivity|].
  split; [vm_compute; reflexivity|].
  split; [vm_compute; reflexivity|].
  split; [vm_compute; reflexivity|].
  eapply (frontend_format_lossless VNone (VDict [("summary", VInt 7)]));
    vm_compute; reflexivity.
Defined.

(** Every list of records keeps its valid elements: when the raw list has
    at least one dict element, the normalised list has exactly as many
    elements as the raw list has dicts; nothing is dropped or invented. *)
Theorem record_lists_keep_valid_elements (raw : value) :
  exists bp,
    normalize_blueprint raw = Return bp
    /\ Forall (fun sf : string * string =>
                 exists l,
                   path bp [fst sf; snd sf] = Some (VList l)
                   /\ (valid_elements (raw_list raw (fst sf) (snd sf)) <> [] ->
                       length l
                       = length (valid_elements (raw_list raw (fst sf) (snd sf)))))
         record_lists.
Proof.
  exists (blueprint_of (entries_of raw)).
  split; [apply normalize_blueprint_eq|].
  unfold record_lists.
  repeat (constructor;
    [ eexists; split; [reflexivity|];
      cbn [fst snd]; unfold record_list, raw_list; intros Hne;
      rewrite ?if_empty_length; try apply records_length;
      rewrite <- length_zero_iff_nil, records_length, length_zero_iff_nil;
      exact Hne
    | ]).
  constructor.
Qed.

Lemma record_lists_keep_valid_elements_witness :
  exists bp steps,
    normalize_blueprint raw_steps = Return bp
    /\ path bp ["system_flow"; "steps"] = Some (VList steps)
    /\ length steps = 2%nat.
Proof.
  destruct (record_lists_keep_valid_elements raw_steps) as (bp & Hbp & Hall).
  apply Forall_inv_tail, Forall_inv in Hall.
  destruct Hall as (steps & Hpath & Hlen).
  exists bp, steps. split; [exact Hbp|]. split; [exact Hpath|].
  apply Hlen. discriminate.
Defined.

(** *** Trimmed string fields *)

Lemma trimmed_safe_string (val : value) (default : string) :
  strip default = default -> default <> "" ->
  trimmed (safe_string val default) = true.
Proof.
  intros Hs Hne. destruct (safe_string_fixed val default Hs Hne) as [H1 H2].
  unfold trimmed. rewrite H1, String.eqb_refl.
  destruct (String.eqb_spec (safe_string val default) ""); [contradiction | reflexivity].
Qed.

Ltac trim :=
  cbn [conforms_with str_field String.eqb Ascii.eqb Bool.eqb andb];
  rewrite ?trimmed_safe_string, ?list_field_is_list, ?level_of_in_levels,
    ?still_valuable_is_list' by stripped;
  try reflexivity.

Ltac trim_element f sch :=
  intros i d; unfold f, sch, flow_step, primary_entry, common_question,
    hackathon_question; trim.

Lemma trimmed_feature i d : conforms_with trimmed feature_schema (feature_of i d) = true.
Proof. revert i d. trim_element feature_of feature_schema. Qed.

Lemma trimmed_step i d : conforms_with trimmed step_schema (step_of i d) = true.
Proof. revert i d. trim_element step_of step_schema. Qed.

Lemma trimmed_primary i d : conforms_with trimmed primary_schema (primary_of i d) = true.
Proof. revert i d. trim_element primary_of primary_schema. Qed.

Lemma trimmed_backup i d : conforms_with trimmed backup_schema (backup_of i d) = true.
Proof. revert i d. trim_element backup_of backup_schema. Qed.

Lemma trimmed_solution i d :
  conforms_with trimmed solution_schema (solution_of i d) = true.
Proof. revert i d. trim_element solution_of solution_schema. Qed.

Lemma trimmed_common i d : conforms_with trimmed common_schema (common_of i d) = true.
Proof. revert i d. trim_element common_of common_schema. Qed.

Lemma trimmed_hackathon i d :
  conforms_with trimmed hackathon_schema (hackathon_of i d) = true.
Proof. revert i d. trim_element hackathon_of hackathon_schema. Qed.

Lemma trimmed_record_list (sch : schema) (f : Z -> list (string * value) -> value)
    (d : list (string * value)) (key : string) :
  (forall i e, conforms_with trimmed sch (f i e) = true) ->
  forallb (conforms_with trimmed sch) (record_list f d key) = true.
Proof. intros Hf. apply forallb_records, Hf. Qed.

Lemma trimmed_record_list_or (sch : schema) (f : Z -> list (string * value) -> value)
    (d : list (string * value)) (key : string) (defaults : list value) :
  (forall i e, conforms_with trimmed sch (f i e) = true) ->
  forallb (conforms_with trimmed sch) defaults = true ->
  forallb (conforms_with trimmed sch) (if_empty (record_list f d key) defaults) = true.
Proof.
  intros Hf Hd. apply forallb_if_empty; [now apply trimmed_record_list | exact Hd].
Qed.

Ltac trim_section f sch :=
  unfold f, sch; trim;
  rewrite ?trimmed_record_list_or, ?trimmed_record_list
    by first [ exact trimmed_feature | exact trimmed_step | exact trimmed_primary
             | exact trimmed_backup | exact trimmed_solution
             | exact trimmed_common | exact trimmed_hackathon | reflexivity ];
  try reflexivity.

(** Every string field of a normalised blueprint, down to the elements of
    its lists of records, is trimmed: not empty and without white space at
    either end, whatever the input was. *)
Theorem normalized_strings_are_trimmed (raw : value) :
  exists bp,
    normalize_blueprint raw = Return bp
    /\ conforms_with trimmed blueprint_schema bp = true.
Proof.
  exists (blueprint_of (entries_of raw)).
  split; [apply normalize_blueprint_eq|].
  unfold blueprint_of, blueprint_schema.
  cbn [conforms_with String.eqb Ascii.eqb Bool.eqb andb].
  assert (H1 : forall d, conforms_with trimmed summary_schema (summary_of d) = true)
    by (intros d; trim_section summary_of summary_schema).
  assert (H2 : forall d, conforms_with trimmed features_schema (features_of d) = true)
    by (intros d; trim_section features_of features_schema).
  assert (H3 : forall d,
             conforms_with trimmed feasibility_schema (feasibility_of d) = true)
    by (intros d; trim_section feasibility_of feasibility_schema).
  assert (H4 : forall d,
             conforms_with trimmed system_flow_schema (system_flow_of d) = true)
    by (intros d; trim_section system_flow_of system_flow_schema).
  assert (H5 : forall d,
             conforms_with trimmed tech_stack_schema (tech_stack_of d) = true)
    by (intros d; trim_section tech_stack_of tech_stack_schema).
  assert (H6 : forall d,
             conforms_with trimmed comparison_schema (comparison_of d) = true)
    by (intros d; trim_section comparison_of comparison_schema).
  assert (H7 : forall d, conforms_with trimmed viva_schema (viva_of d) = true)
    by (intros d; trim_section viva_of viva_schema).
  assert (H8 : forall d, conforms_with trimmed pitch_schema (pitch_of d) = true)
    by (intros d; trim_section pitch_of pitch_schema).
  assert (H9 : forall d, conforms_with trimmed diagrams_schema (diagrams_of d) = true)
    by (intros d; trim_section diagrams_of diagrams_schema).
  rewrite H1, H2, H3, H4, H5, H6, H7, H8, H9. reflexivity.
Qed.

(** *** Normalising again *)

(** A normalised blueprint is returned unchanged by a second pass whenever
    its [why_this_project_is_still_valuable] is not the empty list, and
    what a second pass returns is unchanged by every further pass. *)
Theorem renormalizing (x once : value) :
  normalize_blueprint x = Return once ->
  (path once ["comparison"; "why_this_project_is_still_valuable"] <> Some (VList []) ->
   normalize_blueprint once = Return once)
  /\ (forall twice,
        normalize_blueprint once = Return twice ->
        normalize_blueprint twice = Return twice).
Proof.
  intros H. split.
  - now apply normalize_blueprint_idempotent_when with (x := x).
  - intros twice. now apply normalize_blueprint_stable_after_two with (x := x).
Qed.

Lemma renormalizing_witness :
  exists once twice,
    normalize_blueprint raw_steps = Return once
    /\ normalize_blueprint once = Return once
    /\ normalize_blueprint raw_alias_empty >>= normalize_blueprint = Return twice
    /\ normalize_blueprint twice = Return twice.
Proof.
  destruct (normalize_blueprint raw_steps) as [once|e] eqn:E1; [|discriminate].
  destruct (normalize_blueprint raw_alias_empty) as [first|e] eqn:E2; [|discriminate].
  destruct (normalize_blueprint first) as [twice|e] eqn:E3;
    [|vm_compute in E2; injection E2 as <-; discriminate].
  exists once, twice.
  split; [reflexivity|]. split.
  - apply (proj1 (renormalizing raw_steps once E1)).
    vm_compute in E1. injection E1 as <-. discriminate.
  - split; [exact E3|].
    exact (proj2 (renormalizing raw_alias_empty first E2) twice E3).
Defined.

Import CascadeShapes.

(** ** More on the provider cascade *)

(** *** What a provider call can return *)

Lemma except_exception_failed (body : py result) :
  (forall r, body = Return r -> exists message, r = failed message) ->
  exists message, except_exception body = failed message.
Proof.
  intros H. destruct body as [r|e]; cbn; [now apply H | eauto].
Qed.

Ltac classify_statuses :=
  repeat match goal with
  | |- context [if (?a =? ?b)%Z then _ else _] => destruct (Z.eqb_spec a b)
  | |- context [if ?a || ?b then _ else _] => destruct (a || b)
  end.

(** Following a chain of [.get(key, default)] and [[0]] that returned. *)
Ltac chase H :=
  repeat (cbn [bind dict_get index0 list_index nth_error lookup] in H;
          match type of H with
          | Raise _ = Return _ => discriminate H
          | context [dict_get ?c _ _] => is_var c; destruct c
          | context [index0 ?c] => is_var c; destruct c
          | context [list_index ?l _] => is_var l; destruct l
          | context [nth_error ?l _] => is_var l; destruct l
          | context [index0 (VStr ?s)] => is_var s; destruct s
          | context [match lookup ?k ?d with _ => _ end] => destruct (lookup k d) eqn:?
          | context [match ?s with EmptyString => _ | String _ _ => _ end] =>
              is_var s; destruct s
          end).

Ltac found :=
  repeat (cbn [select];
          match goal with
          | E : lookup ?k ?d = _ |- context [lookup ?k ?d] => rewrite E
          end).

(** Following a selection that found its value. *)
Ltac selected H :=
  repeat (cbn [select] in H;
          match type of H with
          | None = Some _ => discriminate H
          | context [match ?v with
                     | VNone => _ | VBool _ => _ | VInt _ => _ | VFloat _ => _
                     | VStr _ => _ | VList _ => _ | VDict _ => _ end] =>
              is_var v; destruct v
          | context [match ?l with nil => _ | cons _ _ => _ end] => is_var l; destruct l
          | context [match lookup ?k ?d with _ => _ end] => destruct (lookup k d) eqn:?
          end).

Ltac read :=
  repeat (cbn [bind dict_get index0 list_index nth_error];
          match goal with
          | E : lookup ?k ?d = _ |- context [lookup ?k ?d] => rewrite E
          end).

(** A true content was not a default of the chain: every key was there. *)
Lemma gemini_content_select (data content : value) :
  (dict_get data "candidates" (VList [VDict []]) >>= index0
     >>= (fun c => dict_get c "content" (VDict []))
     >>= (fun c => dict_get c "parts" (VList [VDict []])) >>= index0
     >>= (fun p => dict_get p "text" (VStr ""))) = Return content ->
  truthy content = true ->
  select data gemini_text = Some content.
Proof.
  unfold gemini_text. intros H Ht.
  chase H; injection H as <-; try discriminate Ht; found; reflexivity.
Qed.

Lemma chat_content_select (data content : value) :
  chat_content data = Return content -> truthy content = true ->
  select data chat_text = Some content.
Proof.
  unfold chat_content, chat_text. intros H Ht.
  chase H; injection H as <-; try discriminate Ht; found; reflexivity.
Qed.

Lemma select_gemini_content (data content : value) :
  select data gemini_text = Some content ->
  (dict_get data "candidates" (VList [VDict []]) >>= index0
     >>= (fun c => dict_get c "content" (VDict []))
     >>= (fun c => dict_get c "parts" (VList [VDict []])) >>= index0
     >>= (fun p => dict_get p "text" (VStr ""))) = Return content.
Proof.
  unfold gemini_text. intros H.
  selected H. injection H as <-. read. reflexivity.
Qed.

Lemma select_chat_content (data content : value) :
  select data chat_text = Some content -> chat_content data = Return content.
Proof.
  unfold chat_content, chat_text. intros H.
  selected H. injection H as <-. read. reflexivity.
Qed.

Ltac classify to_result content_select select_content :=
  intros outcome; unfold classified;
  split; [|split];
  [ destruct outcome as [status body| |message]; cbn [to_result];
    [ | discriminate | discriminate ];
    classify_statuses; try discriminate;
    subst status; destruct body as [data|e]; cbn [bind except_exception];
    [ | discriminate ];
    match goal with
    | |- context [bind ?m _] => destruct m as [c|e'] eqn:Echain
    end; cbn [bind except_exception]; [ | discriminate ];
    match goal with
    | |- context [truthy ?c] => destruct (truthy c) eqn:Ht
    end; cbn [except_exception]; [ | discriminate ];
    intros _; do 2 eexists;
    split; [reflexivity|];
    split;
    [ match goal with
      | E : _ = Return ?x, T : truthy ?x = true |- _ =>
          exact (content_select _ _ E T)
      end |];
    split; [assumption | reflexivity]
  | intros ? ? -> ? ?; cbn [to_result];
    change (200 =? 200)%Z with true; cbv iota; cbn [bind];
    match goal with
    | S : select _ _ = Some ?x, T : truthy ?x = true |- _ =>
        rewrite (select_content _ _ S); cbn [bind]; rewrite T
    end; reflexivity
  | destruct outcome as [status body| |message]; cbn [to_result];
    [ | eauto | eauto ];
    classify_statuses;
    try (cbn [except_exception success failed]; eauto);
    subst status; destruct body as [data|e]; cbn [bind except_exception];
    [ | eauto ];
    match goal with
    | |- context [bind ?m _] => destruct m as [c|e']
    end; cbn [bind except_exception]; [ | eauto ];
    match goal with
    | |- context [truthy ?c] => destruct (truthy c) eqn:Ht
    end; cbn [except_exception]; [ discriminate | eauto ] ].

Lemma gemini_classified : forall outcome, classified gemini_result gemini_text outcome.
Proof. classify gemini_result gemini_content_select select_gemini_content. Qed.

Lemma groq_classified : forall outcome, classified groq_result chat_text outcome.
Proof. classify groq_result chat_content_select select_chat_content. Qed.

Lemma openrouter_classified :
  forall outcome, classified openrouter_result chat_text outcome.
Proof. classify openrouter_result chat_content_select select_chat_content. Qed.

(** A provider call reports success exactly when the status is 200 and the
    parsed body holds a true (non-empty) content at the place the provider
    puts its text ([candidates[0].content.parts[0].text] for Gemini,
    [choices[0].message.content] for the two others), and it then returns
    that very content; in every other case (other status, a body without
    that content, time-out, any exception) it returns a failure that
    carries a message. *)
Theorem provider_success_needs_200 (outcome : http_outcome) :
  Forall (fun provider : (http_outcome -> result) * list selector =>
            let (to_result, text_at) := provider in
            (success (to_result outcome) = true ->
             exists body content,
               outcome = Responded 200 (Return body)
               /\ select body text_at = Some content
               /\ truthy content = true
               /\ to_result outcome = succeeded content)
            /\ (forall body content,
                  outcome = Responded 200 (Return body) ->
                  select body text_at = Some content ->
                  truthy content = true ->
                  to_result outcome = succeeded content)
            /\ (success (to_result outcome) = false ->
                exists message, to_result outcome = failed message))
    [(gemini_result, gemini_text); (groq_result, chat_text);
     (openrouter_result, chat_text)].
Proof.
  constructor; [apply gemini_classified|].
  constructor; [apply groq_classified|].
  constructor; [apply openrouter_classified | constructor].
Qed.

(** *** Every run of the cascade *)

Section CascadeRuns.

Variable env : environment.
Variable http_post : request -> http_outcome.
Variable json_loads : string -> py value.
Variable json_dumps : value -> string.
Variable system_prompt : string.

Variables (prompt : string) (temperature : value) (max_tokens : Z).

Lemma attempt_known (provider : string) :
  In provider PROVIDER_ORDER ->
  exists req r,
    attempt env http_post system_prompt provider prompt temperature max_tokens
    = Some (req, r).
Proof.
  unfold PROVIDER_ORDER. cbn [In].
  intros [<-|[<-|[<-|[]]]]; do 2 eexists; reflexivity.
Qed.

(** Either every provider of the list fails, or there is a first one that
    succeeds. *)
Lemma first_success (ps : list string) :
  incl ps PROVIDER_ORDER ->
  Forall (fun p => fails env http_post system_prompt p prompt temperature max_tokens)
    ps
  \/ exists earlier winner later req r,
       ps = earlier ++ winner :: later
       /\ Forall (fun p => fails env http_post system_prompt p prompt temperature
                             max_tokens) earlier
       /\ attempt env http_post system_prompt winner prompt temperature max_tokens
          = Some (req, r)
       /\ success r = true.
Proof.
  induction ps as [|p ps IH]; intros Hin; [left; constructor|].
  destruct (attempt_known p (Hin p (or_introl eq_refl))) as (req & r & Ha).
  destruct (success r) eqn:Hs.
  - right. exists [], p, ps, req, r. repeat split; [constructor | exact Ha | exact Hs].
  - assert (Hp : fails env http_post system_prompt p prompt temperature max_tokens)
      by (exists req, r; split; assumption).
    destruct IH as [Hall|(earlier & winner & later & req' & r' & -> & Hf & Ha' & Hs')].
    + intros q Hq. apply Hin. now right.
    + left. now constructor.
    + right. exists (p :: earlier), winner, later, req', r'.
      repeat split; [now constructor | exact Ha' | exact Hs'].
Qed.

Lemma requests_length_known (ps : list string) :
  incl ps PROVIDER_ORDER ->
  length (requests env http_post system_prompt ps prompt temperature max_tokens)
  = length ps.
Proof.
  induction ps as [|p ps IH]; intros Hin; [reflexivity|].
  destruct (attempt_known p (Hin p (or_introl eq_refl))) as (req & r & Ha).
  unfold requests in *. cbn [flat_map]. rewrite Ha. cbn. f_equal. apply IH.
  intros q Hq. apply Hin. now right.
Qed.

Lemma providers_incl_order : incl (providers (LLMService_init env)) PROVIDER_ORDER.
Proof.
  cbn [providers LLMService_init]. rewrite build_provider_list_filter.
  apply incl_filter.
Qed.

Lemma providers_at_most_three : (length (providers (LLMService_init env)) <= 3)%nat.
Proof.
  cbn [providers LLMService_init]. rewrite build_provider_list_filter.
  apply (filter_length_le (configured env) PROVIDER_ORDER).
Qed.

(** Whatever the providers answer, [generate_with_fallback] returns, after
    one request to each provider of a prefix of its list, in order (so at
    most three requests), in one of three ways: the demo answer tagged
    [demo] when no provider is configured; the result of the first provider
    whose attempt succeeds, tagged with that provider, every provider
    before it having failed; or, once all of them have failed, the generic
    failure that lists one reason per provider. [provider_used] is set
    exactly when the result is a success. *)
Theorem every_run_of_the_cascade (log : list request) :
  exists r attempted rest,
    generate_with_fallback env http_post json_dumps system_prompt
      (LLMService_init env) prompt temperature max_tokens log
    = (r, log ++ requests env http_post system_prompt attempted prompt temperature
                   max_tokens)
    /\ providers (LLMService_init env) = attempted ++ rest
    /\ length (requests env http_post system_prompt attempted prompt temperature
                 max_tokens) = length attempted
    /\ (length attempted <= 3)%nat
    /\ (success r = true <-> provider_used r <> None)
    /\ ((providers (LLMService_init env) = [] /\ attempted = []
         /\ r = set_provider_used (_get_demo_response json_dumps prompt) "demo"
         /\ success r = true /\ is_demo r = true)
        \/ (exists earlier winner req r0,
              attempted = earlier ++ [winner]
              /\ Forall (fun p => fails env http_post system_prompt p prompt
                                    temperature max_tokens) earlier
              /\ attempt env http_post system_prompt winner prompt temperature
                   max_tokens = Some (req, r0)
              /\ success r0 = true
              /\ r = set_provider_used r0 winner)
        \/ (attempted <> [] /\ rest = []
            /\ Forall (fun p => fails env http_post system_prompt p prompt temperature
                                  max_tokens) attempted
            /\ r = all_failed (map (failure_reason env http_post system_prompt prompt
                                      temperature max_tokens) attempted))).
Proof.
  unfold generate_with_fallback.
  destruct (is_demo_mode (LLMService_init env)) eqn:Hdemo.
  - apply demo_mode_iff_no_provider in Hdemo. cbn [providers LLMService_init].
    rewrite Hdemo. eexists. exists [], [].
    split; [cbn; now rewrite app_nil_r|].
    assert (Hs : success (_get_demo_response json_dumps prompt) = true
                 /\ is_demo (_get_demo_response json_dumps prompt) = true).
    { unfold _get_demo_response.
      destruct (_ || _); [|destruct (_ || _)]; split; reflexivity. }
    destruct Hs as [Hs Hd].
    split; [reflexivity|]. split; [reflexivity|]. split; [cbn; lia|].
    split; [cbn; split; [discriminate | intros _; exact Hs]|].
    left. split; [reflexivity|]. split; [reflexivity|]. split; [reflexivity|].
    split; [exact Hs | exact Hd].
  - assert (Hne : providers (LLMService_init env) <> []).
    { intros E. apply demo_mode_iff_no_provider in E.
      cbn [is_demo_mode LLMService_init] in Hdemo. congruence. }
    pose proof providers_at_most_three as Hlen.
    pose proof providers_incl_order as Hincl.
    destruct (first_success (providers (LLMService_init env)) providers_incl_order)
      as [Hall|(earlier & winner & later & req & r & Hp & Hf & Ha & Hs)].
    + exists (all_failed (map (failure_reason env http_post system_prompt prompt
                                 temperature max_tokens)
                            (providers (LLMService_init env)))),
        (providers (LLMService_init env)), [].
      split.
      { rewrite <- (app_nil_r (providers (LLMService_init env))) at 1.
        rewrite (try_providers_all_failed env http_post system_prompt prompt
                   temperature max_tokens _ [] [] log Hall). reflexivity. }
      split; [now rewrite app_nil_r|].
      split; [now apply requests_length|]. split; [exact Hlen|].
      split; [cbn; split; [discriminate | congruence]|].
      right. right. repeat split; assumption.
    + exists (set_provider_used r winner), (earlier ++ [winner]), later.
      split.
      { rewrite Hp, (try_providers_all_failed env http_post system_prompt prompt
                       temperature max_tokens earlier _ [] log Hf).
        rewrite (try_providers_succeeded env http_post system_prompt prompt
                   temperature max_tokens winner later _ _ req r Ha Hs).
        unfold requests. rewrite flat_map_app. cbn [flat_map]. rewrite Ha.
        cbn [app]. now rewrite <- app_assoc. }
      split; [now rewrite Hp, <- app_assoc|].
      split.
      { apply requests_length_known. rewrite Hp in Hincl.
        intros q Hq. apply Hincl. apply in_app_or in Hq.
        apply in_or_app. destruct Hq as [Hq|[<-|[]]]; [now left | right; now left]. }
      split.
      { rewrite Hp in Hlen. rewrite !length_app in *. cbn [length] in *. lia. }
      split; [cbn; split; [discriminate | intros _; exact Hs]|].
      right. left. exists earlier, winner, req, r.
      split; [reflexivity|]. split; [exact Hf|]. split; [exact Ha|].
      split; [exact Hs | reflexivity].
Qed.

(** With content that is not a str the JSON variant raises: the fence test,
    [split] or [strip] fails before [json.loads] is reached, and only
    [JSONDecodeError] is caught. A failure of the cascade is passed through
    unchanged. In both cases no further request is sent. *)
Theorem json_variant_edges (self : LLMService) (log log' : list request) (r : result) :
  generate_with_fallback env http_post json_dumps system_prompt self
    (prompt ++ json_instruction) temperature max_tokens log = (r, log') ->
  exists outcome,
    generate_json_with_fallback env http_post json_loads json_dumps system_prompt
      self prompt temperature max_tokens log = (outcome, log')
    /\ (success r = false -> outcome = Return r)
    /\ (success r = true -> isinstance_str (content r) = false ->
        exists e, outcome = Raise e /\ forall message, e <> JSONDecodeError message).
Proof.
  intros Hgen. unfold generate_json_with_fallback, io_bind, io_ret. rewrite Hgen.
  eexists. split; [reflexivity|]. split; intros Hs; rewrite Hs; cbn [negb];
    [reflexivity|].
  intros Hstr. unfold parse_content.
  destruct (content r) as [| | | | | l | d]; try discriminate;
    cbn [py_contains bind the_str]; try (eexists; split; [reflexivity | discriminate]).
  - destruct (existsb _ l); cbn [bind the_str];
      [eexists; split; [reflexivity | discriminate]|].
    destruct (existsb _ l); cbn [bind the_str];
      eexists; split; try reflexivity; discriminate.
  - destruct (existsb _ d); cbn [bind the_str];
      [eexists; split; [reflexivity | discriminate]|].
    destruct (existsb _ d); cbn [bind the_str];
      eexists; split; try reflexivity; discriminate.
Qed.

End CascadeRuns.

Lemma json_variant_edges_witness :
  (exists e log,
     generate_json_with_fallback three_keys first_answers_list sample_json_loads
       sample_json_dumps sample_system_prompt (LLMService_init three_keys)
       "Plan my project" float_0_7 8192 [] = (Raise e, log)
     /\ e = AttributeError "list" "strip"
     /\ length log = 1%nat)
  /\ (exists r log,
        generate_json_with_fallback three_keys nobody_answers sample_json_loads
          sample_json_dumps sample_system_prompt (LLMService_init three_keys)
          "Plan my project" float_0_7 8192 [] = (Return r, log)
        /\ success r = false
        /\ error r = Some "AI services are temporarily busy. Please try again later."
        /\ length log = 3%nat).
Proof.
  split.
  - destruct (json_variant_edges three_keys first_answers_list sample_json_loads
                sample_json_dumps sample_system_prompt "Plan my project" float_0_7
                8192 (LLMService_init three_keys) [] _ _ eq_refl)
      as (outcome & H & _ & Hraise).
    destruct (Hraise eq_refl eq_refl) as (e & -> & _).
    exists e. eexists. split; [exact H|].
    split; [|reflexivity].
    vm_compute in H. now injection H as <-.
  - destruct (json_variant_edges three_keys nobody_answers sample_json_loads
                sample_json_dumps sample_system_prompt "Plan my project" float_0_7
                8192 (LLMService_init three_keys) [] _ _ eq_refl)
      as (outcome & H & Hfail & _).
    rewrite (Hfail eq_refl) in H.
    do 2 eexists. split; [exact H|]. repeat split.
Defined.

(** *** The status methods *)

(** The two ways the service knows whether it is configured agree:
    [get_status] reports [configured] exactly when at least one provider is
    available, [demo_mode] is its negation and [is_available] its equal; the
    available providers are at most three, without repetition, among
    gemini, groq and openrouter. *)
Theorem status_is_consistent (env : environment) :
  let st := LlmStatus.get_status (LLMService_init env) in
  (LlmStatus.configured st = true <-> (0 < LlmStatus.provider_count st)%Z)
  /\ (LlmStatus.provider_count st <= 3)%Z
  /\ LlmStatus.provider_count st
     = Z.of_nat (length (LlmStatus.providers_available st))
  /\ LlmStatus.demo_mode st = negb (LlmStatus.configured st)
  /\ LlmStatus.is_available (LLMService_init env) = LlmStatus.configured st
  /\ NoDup (LlmStatus.providers_available st)
  /\ incl (LlmStatus.providers_available st) PROVIDER_ORDER.
Proof.
  cbn [LlmStatus.get_status LlmStatus.configured LlmStatus.provider_count
       LlmStatus.providers_available LlmStatus.demo_mode LlmStatus.is_available].
  pose proof (providers_at_most_three env) as Hlen.
  split.
  - destruct (is_demo_mode (LLMService_init env)) eqn:Hdemo; cbn [negb].
    + apply demo_mode_iff_no_provider in Hdemo. cbn [providers LLMService_init].
      rewrite Hdemo. cbn. split; [discriminate | lia].
    + split; [intros _ | reflexivity].
      destruct (providers (LLMService_init env)) eqn:E; [|cbn; lia].
      apply demo_mode_iff_no_provider in E.
      cbn [is_demo_mode LLMService_init] in Hdemo. congruence.
  - split; [lia|]. split; [reflexivity|].
    split; [now rewrite negb_involutive|]. split; [reflexivity|].
    split; [|apply providers_incl_order].
    cbn [providers LLMService_init]. rewrite build_provider_list_filter.
    apply NoDup_filter, provider_order_nodup.
Qed.

(** *** What is handed to the JSON parser *)

Lemma part_of_refl (s : string) : part_of s s.
Proof. exists "", "". cbn. induction s; cbn; congruence. Qed.

Lemma append_nil_r (s : string) : (s ++ "")%string = s.
Proof. induction s; cbn; congruence. Qed.

Lemma part_of_trans (a b c : string) : part_of a b -> part_of b c -> part_of a c.
Proof.
  intros (x & y & ->) (x' & y' & ->).
  exists (x' ++ x)%string, (y ++ y')%string.
  now rewrite <- !append_assoc.
Qed.

Lemma part_of_empty (s : string) : part_of "" s.
Proof. exists "", s. reflexivity. Qed.

Lemma part_of_suffix (a s : string) : part_of s (a ++ s).
Proof. exists a, "". now rewrite append_nil_r. Qed.

Lemma part_of_prefix (s b : string) : part_of s (s ++ b).
Proof. exists "", b. reflexivity. Qed.

Lemma part_of_cons (c : ascii) (u s : string) : part_of u s -> part_of u (String c s).
Proof. intros (x & y & ->). exists (String c x), y. reflexivity. Qed.

Lemma lstrip_part (s : string) : part_of (lstrip s) s.
Proof.
  induction s as [|c r IH]; cbn; [apply part_of_refl|].
  destruct (isspace c); [now apply part_of_cons | apply part_of_refl].
Qed.

Lemma rstrip_prefix (s : string) : exists after, s = (rstrip s ++ after)%string.
Proof.
  induction s as [|c r (after & IH)]; cbn; [now exists ""|].
  destruct (rstrip r) eqn:E.
  - destruct (isspace c); [exists (String c r) | exists r]; reflexivity.
  - exists after. cbn. f_equal. exact IH.
Qed.

Lemma strip_part (s : string) : part_of (strip s) s.
Proof.
  unfold strip. apply part_of_trans with (lstrip s); [|apply lstrip_part].
  destruct (rstrip_prefix (lstrip s)) as (after & E).
  rewrite E at 2. apply part_of_prefix.
Qed.

Lemma slice_from_part (s : string) (i : nat) : part_of (slice_from s i) s.
Proof.
  revert s. induction i as [|i IH]; intros s; destruct s; cbn;
    try apply part_of_refl.
  apply part_of_cons, IH.
Qed.

Lemma split_from_parts (sep : string) (s : string) :
  forall skip cur piece,
    skip = 0%nat \/ cur = "" ->
    In piece (split_from sep skip cur s) -> part_of piece (cur ++ s).
Proof.
  induction s as [|c r IH]; intros skip cur piece Hk Hin; cbn [split_from] in Hin.
  - destruct Hin as [<-|[]]. apply part_of_prefix.
  - destruct skip as [|k].
    + destruct (String.prefix sep (String c r)).
      * destruct Hin as [<-|Hin]; [apply part_of_prefix|].
        apply part_of_trans with r; [|apply part_of_trans with (String c r);
          [apply part_of_cons, part_of_refl | apply part_of_suffix]].
        apply (IH (String.length sep - 1)%nat "" piece); [now right | exact Hin].
      * replace (cur ++ String c r)%string with ((cur ++ String c "") ++ r)%string
          by (now rewrite <- append_assoc).
        apply (IH 0%nat); [now left | exact Hin].
    + destruct Hk as [Hk|Hk]; [discriminate|]. subst cur. cbn.
      apply part_of_cons. apply (IH k "" piece); [now right | exact Hin].
Qed.

Lemma split_nth_part (sep s : string) (i : nat) : part_of (nth i (split sep s) "") s.
Proof.
  destruct (nth_in_or_default i (split sep s) "") as [Hin | ->];
    [|apply part_of_empty].
  apply (split_from_parts sep s 0 "" _ (or_introl eq_refl) Hin).
Qed.

Lemma without_fences_part (text : string) : part_of (without_fences text) text.
Proof.
  unfold without_fences.
  destruct (contains "```json" text).
  - eapply part_of_trans; [apply split_nth_part | apply split_nth_part].
  - destruct (contains "```" text); [|apply part_of_refl].
    destruct (2 <=? _)%nat; [apply split_nth_part | apply part_of_refl].
Qed.

Lemma find_char_range (c : ascii) (s : string) :
  (find_char c s = -1 \/ 0 <= find_char c s)%Z.
Proof.
  induction s as [|c' r IH]; cbn [find_char]; [now left|].
  destruct (Ascii.eqb c' c); [right; lia|].
  destruct (find_char c r); [right; lia | right; lia | now left].
Qed.

Lemma find_char_absent (c : ascii) (s : string) :
  find_char c s = (-1)%Z -> contains (String c "") s = false.
Proof.
  induction s as [|c' r IH]; cbn [find_char contains String.prefix]; [reflexivity|].
  destruct (Ascii.eqb_spec c' c) as [->|Hne]; [discriminate|].
  destruct (ascii_dec c c') as [E|_]; [congruence|].
  pose proof (find_char_range c r) as Hr.
  destruct (find_char c r) eqn:E; intros H; try lia. apply IH. lia.
Qed.

Lemma find_char_present (c : ascii) (s : string) :
  find_char c s <> (-1)%Z ->
  String.prefix (String c "") (slice_from s (Z.to_nat (find_char c s))) = true.
Proof.
  induction s as [|c' r IH]; cbn [find_char]; [congruence|].
  destruct (Ascii.eqb_spec c' c) as [->|Hne].
  - intros _. cbn. destruct (ascii_dec c c); [now destruct r | congruence].
  - destruct (find_char c r) as [|p|p] eqn:E; intros H; try contradiction.
    + cbn. apply IH. discriminate.
    + replace (Z.to_nat (Z.pos p + 1)) with (S (Z.to_nat (Z.pos p))) by lia.
      cbn [slice_from]. apply IH. discriminate.
Qed.

(** The text handed to [json.loads] is a contiguous part of the provider's
    text (nothing is added or rearranged), and it either starts with an
    opening brace or holds no opening brace at all. *)
Theorem json_text_shape (text : string) :
  part_of (json_text text) text
  /\ (String.prefix "{" (json_text text) = true
      \/ contains "{" (json_text text) = false).
Proof.
  unfold json_text, from_first_brace.
  set (c := strip (without_fences text)).
  assert (Hc : part_of c text)
    by (eapply part_of_trans; [apply strip_part | apply without_fences_part]).
  destruct (String.prefix "{" c) eqn:Hp; [now split; [|left]|].
  destruct (Z.eqb_spec (find_char "{" c) (-1)) as [E|E].
  - split; [exact Hc|]. right. now apply find_char_absent.
  - split; [eapply part_of_trans; [apply slice_from_part | exact Hc]|].
    left. now apply find_char_present.
Qed.

Import PlannerSamples.

(** ** The planner's single-call generation *)

Section PlannerFacts.

Variable env : environment.
Variable http_post : request -> http_outcome.
Variable json_loads : string -> py value.
Variable json_dumps : value -> string.
Variable system_prompt : string.
Variable MASTER_BLUEPRINT_PROMPT : string -> string -> string.

Lemma normalize_and_map_complete (raw : value) (provider : option string) :
  exists res,
    PlannerService.normalize_and_map raw provider = Return res
    /\ PlannerService.success res = true
    /\ PlannerService.provider_used res = provider
    /\ normalize_blueprint raw = Return (PlannerService.normalized res)
    /\ map_to_frontend_format (PlannerService.normalized res)
       = Return (PlannerService.blueprint res).
Proof.
  unfold PlannerService.normalize_and_map.
  destruct (frontend_format_closed raw) as (bp & fe & Hn & Hm).
  rewrite Hn. cbn [bind]. rewrite Hm. cbn [bind].
  eexists. repeat split; assumption.
Qed.

Lemma normalized_conforms (raw bp : value) :
  normalize_blueprint raw = Return bp -> conforms blueprint_schema bp = true.
Proof. rewrite normalize_blueprint_eq. intros [= <-]. apply conforms_blueprint. Qed.

(** Whenever [generate_full_blueprint] reports success, whatever the
    providers and the JSON parser did, [normalized] is a complete blueprint
    (it conforms to the schema) and [blueprint] is its frontend format;
    whenever it reports failure it carries an error message and no
    blueprint. *)
Theorem full_blueprint_is_complete (self : PlannerService.PlannerService)
    (summary_text mode : string) (log log' : list request)
    (res : PlannerService.blueprint_result) :
  PlannerService.generate_full_blueprint env http_post json_loads json_dumps
    system_prompt MASTER_BLUEPRINT_PROMPT self summary_text mode log
  = (Return res, log') ->
  (PlannerService.success res = true ->
   conforms blueprint_schema (PlannerService.normalized res) = true
   /\ map_to_frontend_format (PlannerService.normalized res)
      = Return (PlannerService.blueprint res)
   /\ PlannerService.error res = None)
  /\ (PlannerService.success res = false ->
      PlannerService.error res <> None
      /\ PlannerService.blueprint res = VNone).
Proof.
  unfold PlannerService.generate_full_blueprint, io_bind, io_ret.
  destruct (generate_json_with_fallback _ _ _ _ _ _ _ _ _ log) as [outcome log''].
  intros [= H <-]. destruct outcome as [result|e]; cbn [bind] in H; [|discriminate].
  assert (Hfail : forall message provider,
            Return (PlannerService.failure message provider) = Return res ->
            (PlannerService.success res = true ->
             conforms blueprint_schema (PlannerService.normalized res) = true
             /\ map_to_frontend_format (PlannerService.normalized res)
                = Return (PlannerService.blueprint res)
             /\ PlannerService.error res = None)
            /\ (PlannerService.success res = false ->
                PlannerService.error res <> None
                /\ PlannerService.blueprint res = VNone)).
  { intros message provider [= <-]. cbn. split; [discriminate|].
    intros _. split; [discriminate | reflexivity]. }
  assert (Hok : forall raw provider,
            PlannerService.normalize_and_map raw provider = Return res ->
            (PlannerService.success res = true ->
             conforms blueprint_schema (PlannerService.normalized res) = true
             /\ map_to_frontend_format (PlannerService.normalized res)
                = Return (PlannerService.blueprint res)
             /\ PlannerService.error res = None)
            /\ (PlannerService.success res = false ->
                PlannerService.error res <> None
                /\ PlannerService.blueprint res = VNone)).
  { intros raw provider Hr.
    destruct (normalize_and_map_complete raw provider) as (res' & E & Hs & _ & Hn & Hm).
    rewrite E in Hr. injection Hr as <-.
    split; [intros _ | rewrite Hs; discriminate].
    split; [now apply normalized_conforms with raw|]. split; [exact Hm|].
    unfold PlannerService.normalize_and_map in E.
    destruct (normalize_blueprint raw); cbn [bind] in E; [|discriminate].
    destruct (map_to_frontend_format a); cbn [bind] in E; [|discriminate].
    now injection E as <-. }
  destruct (negb (success result)); [now apply Hfail in H|].
  destruct (content result) as [| | | |text| |]; try (now apply Hok in H).
  destruct (json_loads text) as [parsed|e]; [now apply Hok in H|].
  destruct e; try discriminate. now apply Hfail in H.
Qed.

(** The two ways [generate_full_blueprint] fails: a failure of the cascade
    is passed on with its message and no blueprint; and a text that
    [json.loads] rejects both with its fences stripped and as it is gives
    the failure "AI response was not valid JSON", the provider kept. No
    request is sent beyond those of the cascade. *)
Theorem full_blueprint_failures (self : PlannerService.PlannerService)
    (summary_text mode : string) (log log' : list request) (r : result) :
  generate_with_fallback env http_post json_dumps system_prompt
    (PlannerService.llm self)
    (MASTER_BLUEPRINT_PROMPT mode summary_text ++ json_instruction) float_0_7 8192 log
  = (r, log') ->
  (success r = false ->
   forall message, error r = Some message ->
   PlannerService.generate_full_blueprint env http_post json_loads json_dumps
     system_prompt MASTER_BLUEPRINT_PROMPT self summary_text mode log
   = (Return (PlannerService.failure message (provider_used r)), log'))
  /\ (success r = true ->
      forall text m1 m2,
        content r = VStr text ->
        json_loads (json_text text) = Raise (JSONDecodeError m1) ->
        json_loads text = Raise (JSONDecodeError m2) ->
        PlannerService.generate_full_blueprint env http_post json_loads json_dumps
          system_prompt MASTER_BLUEPRINT_PROMPT self summary_text mode log
        = (Return (PlannerService.failure "AI response was not valid JSON"
                     (provider_used r)), log')).
Proof.
  intros Hgen.
  unfold PlannerService.generate_full_blueprint, generate_json_with_fallback,
    io_bind, io_ret.
  rewrite Hgen. split.
  - intros Hs message He. rewrite Hs. cbn [negb bind]. rewrite Hs, He. reflexivity.
  - intros Hs text m1 m2 Hc H1 H2. rewrite Hs, Hc. cbn [negb].
    rewrite parse_content_str, H1. cbn [bind success content provider_used negb].
    rewrite H2. reflexivity.
Qed.

(** A text that parses to something that is neither an object nor a str
    (an array, a number, [null]) is reported as a success whose blueprint is
    the fully defaulted one. *)
Theorem full_blueprint_of_non_object (self : PlannerService.PlannerService)
    (summary_text mode : string) (log log' : list request) (r : result)
    (text : string) (parsed : value) :
  generate_with_fallback env http_post json_dumps system_prompt
    (PlannerService.llm self)
    (MASTER_BLUEPRINT_PROMPT mode summary_text ++ json_instruction) float_0_7 8192 log
  = (r, log') ->
  success r = true ->
  content r = VStr text ->
  json_loads (json_text text) = Return parsed ->
  isinstance_dict parsed = false ->
  isinstance_str parsed = false ->
  exists res,
    PlannerService.generate_full_blueprint env http_post json_loads json_dumps
      system_prompt MASTER_BLUEPRINT_PROMPT self summary_text mode log
    = (Return res, log')
    /\ PlannerService.success res = true
    /\ PlannerService.provider_used res = provider_used r
    /\ get_fallback_blueprint = Return (PlannerService.normalized res).
Proof.
  intros Hgen Hs Hc Hp Hd Hstr.
  unfold PlannerService.generate_full_blueprint, generate_json_with_fallback,
    io_bind, io_ret.
  rewrite Hgen, Hs, Hc. cbn [negb]. rewrite parse_content_str, Hp.
  cbn [bind success content provider_used negb].
  destruct (normalize_and_map_complete parsed (provider_used r))
    as (res & E & Hsucc & Hprov & Hn & _).
  exists res.
  assert (Hfb : normalize_blueprint parsed = get_fallback_blueprint).
  { unfold normalize_blueprint. rewrite Hd. cbn [negb]. now rewrite orb_true_r. }
  destruct parsed; try discriminate; rewrite E;
    (split; [reflexivity|]); (split; [exact Hsucc|]); (split; [exact Hprov|]);
    now rewrite <- Hfb.
Qed.

End PlannerFacts.

Lemma full_blueprint_is_complete_witness :
  exists res log,
    PlannerService.generate_full_blueprint three_keys third_answers sample_json_loads
      sample_json_dumps sample_system_prompt sample_master_prompt
      (sample_planner three_keys) "An attendance tracker" "QUICK_BLUEPRINT" []
    = (Return res, log)
    /\ PlannerService.success res = true
    /\ PlannerService.provider_used res = Some "openrouter"
    /\ conforms blueprint_schema (PlannerService.normalized res) = true
    /\ map_to_frontend_format (PlannerService.normalized res)
       = Return (PlannerService.blueprint res).
Proof.
  destruct (PlannerService.generate_full_blueprint three_keys third_answers
              sample_json_loads sample_json_dumps sample_system_prompt
              sample_master_prompt (sample_planner three_keys)
              "An attendance tracker" "QUICK_BLUEPRINT" []) as [outcome log] eqn:E.
  destruct outcome as [res|e]; [|vm_compute in E; discriminate].
  exists res, log. split; [reflexivity|].
  assert (Hs : PlannerService.success res = true)
    by (vm_compute in E; now injection E as <- <-).
  assert (Hp : PlannerService.provider_used res = Some "openrouter")
    by (vm_compute in E; now injection E as <- <-).
  destruct (full_blueprint_is_complete three_keys third_answers sample_json_loads
              sample_json_dumps sample_system_prompt sample_master_prompt
              (sample_planner three_keys) "An attendance tracker" "QUICK_BLUEPRINT"
              [] log res E) as [H _].
  destruct (H Hs) as (Hc & Hm & _). repeat split; assumption.
Defined.

Lemma full_blueprint_failures_witness :
  PlannerService.generate_full_blueprint three_keys nobody_answers sample_json_loads
    sample_json_dumps sample_system_prompt sample_master_prompt
    (sample_planner three_keys) "An attendance tracker" "QUICK_BLUEPRINT" []
  = (Return (PlannerService.failure
               "AI services are temporarily busy. Please try again later." None),
     requests three_keys nobody_answers sample_system_prompt
       ["gemini"; "groq"; "openrouter"]
       (sample_master_prompt "QUICK_BLUEPRINT" "An attendance tracker"
        ++ json_instruction) float_0_7 8192)
  /\ fst (PlannerService.generate_full_blueprint three_keys first_answers_prose
            sample_json_loads sample_json_dumps sample_system_prompt
            sample_master_prompt (sample_planner three_keys)
            "An attendance tracker" "QUICK_BLUEPRINT" [])
     = Return (PlannerService.failure "AI response was not valid JSON"
                 (Some "gemini")).
Proof.
  split.
  - destruct (full_blueprint_failures three_keys nobody_answers sample_json_loads
                sample_json_dumps sample_system_prompt sample_master_prompt
                (sample_planner three_keys) "An attendance tracker"
                "QUICK_BLUEPRINT" [] _ _ eq_refl) as [H _].
    exact (H eq_refl _ eq_refl).
  - destruct (full_blueprint_failures three_keys first_answers_prose
                sample_json_loads sample_json_dumps sample_system_prompt
                sample_master_prompt (sample_planner three_keys)
                "An attendance tracker" "QUICK_BLUEPRINT" [] _ _ eq_refl) as [_ H].
    rewrite (H eq_refl "Sorry, I cannot help with that." "Expecting value"
               "Expecting value" eq_refl eq_refl eq_refl).
    reflexivity.
Defined.

Lemma full_blueprint_of_non_object_witness :
  exists res log,
    PlannerService.generate_full_blueprint three_keys first_answers_array
      sample_json_loads sample_json_dumps sample_system_prompt sample_master_prompt
      (sample_planner three_keys) "An attendance tracker" "QUICK_BLUEPRINT" []
    = (Return res, log)
    /\ PlannerService.success res = true
    /\ PlannerService.provider_used res = Some "gemini"
    /\ get_fallback_blueprint = Return (PlannerService.normalized res).
Proof.
  destruct (full_blueprint_of_non_object three_keys first_answers_array
              sample_json_loads sample_json_dumps sample_system_prompt
              sample_master_prompt (sample_planner three_keys)
              "An attendance tracker" "QUICK_BLUEPRINT" [] _ _ "[1, 2, 3]"
              (VList [VInt 1; VInt 2; VInt 3]) eq_refl eq_refl eq_refl eq_refl
              eq_refl eq_refl) as (res & H).
  exists res. eexists. exact H.
Defined.

Import ValidationService.

(** ** Input sanitising and the feature list *)

Lemma no_space_app (a b : string) :
  no_space (a ++ b) = no_space a && no_space b.
Proof.
  induction a as [|c a IH]; [reflexivity|].
  cbn. rewrite IH. now rewrite andb_assoc.
Qed.

Lemma rstrip_no_space (s : string) : no_space s = true -> rstrip s = s.
Proof.
  induction s as [|c r IH]; [reflexivity|].
  cbn. intros H. apply andb_prop in H as [Hc Hr]. rewrite (IH Hr).
  destruct r; [|reflexivity].
  apply negb_true_iff in Hc. now rewrite Hc.
Qed.

Lemma lstrip_no_space (s : string) : no_space s = true -> lstrip s = s.
Proof.
  destruct s as [|c r]; [reflexivity|].
  cbn. intros H. apply andb_prop in H as [Hc _].
  apply negb_true_iff in Hc. now rewrite Hc.
Qed.

(** [rstrip] of a concatenation. *)
Lemma rstrip_app (a b : string) :
  rstrip (a ++ b)
  = match rstrip b with
    | EmptyString => rstrip a
    | _ => (a ++ rstrip b)%string
    end.
Proof.
  induction a as [|c a IH]; cbn [append rstrip].
  - destruct (rstrip b); reflexivity.
  - rewrite IH. destruct (rstrip b) eqn:E; [reflexivity|].
    destruct a; reflexivity.
Qed.

Lemma length_app (a b : string) :
  String.length (a ++ b) = (String.length a + String.length b)%nat.
Proof. induction a as [|c a IH]; cbn; [reflexivity | now rewrite IH]. Qed.

Lemma strip_length (s : string) : (String.length (strip s) <= String.length s)%nat.
Proof.
  destruct (strip_part s) as (before & after & E).
  rewrite E at 2. rewrite !length_app. lia.
Qed.

Lemma slice_to_length (s : string) (n : nat) : (String.length (slice_to s n) <= n)%nat.
Proof.
  revert s. induction n as [|n IH]; intros s; [destruct s; cbn; lia|].
  destruct s; cbn; [lia|]. specialize (IH s). lia.
Qed.

Lemma slice_to_all (s : string) (n : nat) :
  (String.length s <= n)%nat -> slice_to s n = s.
Proof.
  revert s. induction n as [|n IH]; intros s H; destruct s; cbn in *;
    try reflexivity; try lia.
  f_equal. apply IH. lia.
Qed.

Lemma slice_to_0 (s : string) : slice_to s 0 = "".
Proof. destruct s; reflexivity. Qed.

Lemma slice_to_app (a b : string) (n : nat) :
  slice_to (a ++ b) n
  = if (n <=? String.length a)%nat then slice_to a n
    else (a ++ slice_to b (n - String.length a))%string.
Proof.
  revert n. induction a as [|c a IH]; intros n.
  - cbn [append String.length]. destruct n; [now rewrite !slice_to_0|].
    cbn [Nat.leb]. now rewrite Nat.sub_0_r.
  - destruct n; [now rewrite !slice_to_0|].
    cbn [append slice_to String.length Nat.leb Nat.sub].
    rewrite IH. destruct (n <=? String.length a)%nat; reflexivity.
Qed.

Lemma slice_to_no_space (s : string) (n : nat) :
  no_space s = true -> no_space (slice_to s n) = true.
Proof.
  revert s. induction n as [|n IH]; intros s H; [destruct s; reflexivity|].
  destruct s; [reflexivity|]. cbn in *. apply andb_prop in H as [Hc Hr].
  now rewrite Hc, IH.
Qed.

Lemma word_parts (w : string) : word w = true <-> no_space w = true /\ w <> "".
Proof.
  unfold word. rewrite andb_true_iff, negb_true_iff.
  destruct (String.eqb_spec w ""); split; intros [H1 H2]; split;
    congruence.
Qed.

Lemma split_whitespace_words (s : string) :
  forall cur, no_space cur = true ->
              forallb word (split_whitespace_from cur s) = true.
Proof.
  induction s as [|c r IH]; intros cur Hcur; cbn [split_whitespace_from].
  - destruct cur; [reflexivity|]. cbn [forallb]. rewrite andb_true_r.
    apply word_parts. split; [exact Hcur | discriminate].
  - destruct (isspace c) eqn:Ec.
    + destruct cur; [now apply IH|]. cbn [forallb].
      rewrite (IH "" eq_refl), andb_true_r.
      apply word_parts. split; [exact Hcur | discriminate].
    + apply IH. rewrite no_space_app, Hcur. cbn. now rewrite Ec.
Qed.

Lemma split_whitespace_from_word (w s cur : string) :
  no_space w = true ->
  split_whitespace_from cur (w ++ s) = split_whitespace_from (cur ++ w) s.
Proof.
  revert cur. induction w as [|c w IH]; intros cur H.
  - now rewrite append_nil_r.
  - cbn in H. apply andb_prop in H as [Hc Hw]. apply negb_true_iff in Hc.
    cbn [append split_whitespace_from]. rewrite Hc, (IH _ Hw).
    now rewrite <- append_assoc.
Qed.

(** Joining words with single spaces and splitting again gives the words
    back. *)
Lemma split_whitespace_concat (ws : list string) :
  forallb word ws = true -> split_whitespace (String.concat " " ws) = ws.
Proof.
  unfold split_whitespace.
  induction ws as [|w ws IH]; [reflexivity|].
  cbn [forallb]. intros H. apply andb_prop in H as [Hw Hws].
  apply word_parts in Hw as [Hns Hne].
  cbn [String.concat]. destruct ws as [|w2 ws].
  - rewrite <- (append_nil_r w) at 1.
    rewrite (split_whitespace_from_word w "" "" Hns). cbn.
    destruct w; [contradiction | reflexivity].
  - rewrite (split_whitespace_from_word w _ "" Hns).
    cbn [append split_whitespace_from isspace]. 
    change (isspace " ") with true. cbn iota.
    rewrite (IH Hws). destruct w; [contradiction | reflexivity].
Qed.

Lemma concat_words_nonempty (w : string) (ws : list string) :
  w <> "" -> String.concat " " (w :: ws) <> "".
Proof.
  intros H. cbn. destruct ws; [exact H|]. destruct w; [contradiction | discriminate].
Qed.

(** Cutting a single-spaced line of words and stripping the right end
    leaves a single-spaced line of words. *)
Lemma rstrip_slice_words (ws : list string) :
  forallb word ws = true ->
  forall n, exists ws',
    forallb word ws' = true
    /\ rstrip (slice_to (String.concat " " ws) n) = String.concat " " ws'.
Proof.
  induction ws as [|w ws IH]; intros H n.
  - exists []. split; [reflexivity|]. destruct n; reflexivity.
  - cbn [forallb] in H. apply andb_prop in H as [Hw Hws].
    apply word_parts in Hw as [Hns Hne].
    assert (Hcut : forall m, exists ws',
               forallb word ws' = true
               /\ rstrip (slice_to w m) = String.concat " " ws').
    { intros m. pose proof (slice_to_no_space w m Hns) as Hm.
      rewrite (rstrip_no_space _ Hm).
      destruct (slice_to w m) as [|c r] eqn:E.
      - exists []. split; reflexivity.
      - exists [String c r]. split; [|reflexivity].
        cbn [forallb]. rewrite andb_true_r. apply word_parts.
        split; [exact Hm | discriminate]. }
    cbn [String.concat]. destruct ws as [|w2 ws]; [apply Hcut|].
    rewrite slice_to_app.
    destruct (n <=? String.length w)%nat eqn:Hn; [apply Hcut|].
    apply Nat.leb_gt in Hn.
    destruct (n - String.length w)%nat as [|m] eqn:Em; [lia|].
    cbn [append slice_to].
    destruct (IH Hws m) as (ws' & Hws' & E).
    rewrite rstrip_app. cbn [rstrip]. rewrite E.
    destruct ws' as [|x xs].
    + cbn [String.concat]. change (isspace " ") with true. cbn iota.
      exists [w]. split.
      * cbn [forallb]. rewrite andb_true_r. apply word_parts. now split.
      * now rewrite (rstrip_no_space w Hns).
    + cbn [forallb] in Hws'. apply andb_prop in Hws' as [Hx Hxs].
      pose proof (concat_words_nonempty x xs (proj2 (proj1 (word_parts x) Hx))) as Hc.
      destruct (String.concat " " (x :: xs)) as [|c r] eqn:Ec; [contradiction|].
      exists (w :: x :: xs). split.
      * cbn [forallb]. rewrite Hx, Hxs, !andb_true_r.
        apply word_parts. now split.
      * change (String.concat " " (w :: x :: xs))
          with (w ++ " " ++ String.concat " " (x :: xs))%string.
        now rewrite Ec.
Qed.

Lemma lstrip_slice_words (ws : list string) (n : nat) :
  forallb word ws = true ->
  lstrip (slice_to (String.concat " " ws) n) = slice_to (String.concat " " ws) n.
Proof.
  intros H. destruct ws as [|w ws]; [destruct n; reflexivity|].
  cbn [forallb] in H. apply andb_prop in H as [Hw _].
  apply word_parts in Hw as [Hns Hne].
  destruct w as [|c w]; [contradiction|].
  cbn in Hns. apply andb_prop in Hns as [Hc _]. apply negb_true_iff in Hc.
  assert (E : exists rest, String.concat " " (String c w :: ws) = String c rest).
  { cbn. destruct ws; eexists; reflexivity. }
  destruct E as (rest & ->). destruct n; [reflexivity|].
  cbn. now rewrite Hc.
Qed.

Lemma strip_slice_words (ws : list string) (n : nat) :
  forallb word ws = true ->
  exists ws',
    forallb word ws' = true
    /\ strip (slice_to (String.concat " " ws) n) = String.concat " " ws'.
Proof.
  intros H. unfold strip. rewrite (lstrip_slice_words ws n H).
  now apply rstrip_slice_words.
Qed.

Lemma strip_words (ws : list string) :
  forallb word ws = true ->
  strip (String.concat " " ws) = String.concat " " ws.
Proof.
  intros H.
  pose proof (slice_to_all (String.concat " " ws) _ (Nat.le_refl _)) as Hall.
  rewrite <- Hall at 1. unfold strip. rewrite (lstrip_slice_words ws _ H).
  rewrite Hall. clear Hall.
  induction ws as [|w ws IH]; [reflexivity|].
  cbn [forallb] in H. apply andb_prop in H as [Hw Hws].
  apply word_parts in Hw as [Hns Hne].
  cbn [String.concat]. destruct ws as [|w2 ws]; [now apply rstrip_no_space|].
  rewrite rstrip_app. cbn [append rstrip]. rewrite (IH Hws).
  cbn [forallb] in Hws. apply andb_prop in Hws as [Hw2 _].
  pose proof (concat_words_nonempty w2 ws (proj2 (proj1 (word_parts w2) Hw2))) as Hc.
  destruct (String.concat " " (w2 :: ws)); [contradiction | reflexivity].
Qed.

(** [sanitize_input] returns at most 2000 characters, made of words (runs
    without white space) separated by single spaces, with nothing at either
    end; the words are those of the input, in order, when their line is not
    longer than 2000 characters; and sanitising the result again changes
    nothing. *)
Theorem sanitize_input_is_clean (text : string) :
  (String.length (sanitize_input text) <= MAX_IDEA_LENGTH)%nat
  /\ (exists ws,
        forallb word ws = true
        /\ sanitize_input text = String.concat " " ws
        /\ ((String.length (String.concat " " (split_whitespace text))
             <= MAX_IDEA_LENGTH)%nat ->
            ws = split_whitespace text))
  /\ sanitize_input (sanitize_input text) = sanitize_input text.
Proof.
  assert (Hwords : forallb word (split_whitespace text) = true)
    by (apply split_whitespace_words; reflexivity).
  assert (Hlen : (String.length (sanitize_input text) <= MAX_IDEA_LENGTH)%nat).
  { unfold sanitize_input.
    destruct (Nat.ltb_spec MAX_IDEA_LENGTH
                (String.length (String.concat " " (split_whitespace text)))).
    - etransitivity; [apply strip_length | apply slice_to_length].
    - etransitivity; [apply strip_length | assumption]. }
  assert (Hshape : exists ws,
             forallb word ws = true
             /\ sanitize_input text = String.concat " " ws
             /\ ((String.length (String.concat " " (split_whitespace text))
                  <= MAX_IDEA_LENGTH)%nat ->
                 ws = split_whitespace text)).
  { unfold sanitize_input.
    destruct (Nat.ltb_spec MAX_IDEA_LENGTH
                (String.length (String.concat " " (split_whitespace text)))).
    - destruct (strip_slice_words (split_whitespace text) MAX_IDEA_LENGTH Hwords)
        as (ws & Hws & E).
      exists ws. split; [exact Hws|]. split; [exact E | lia].
    - exists (split_whitespace text). split; [exact Hwords|].
      split; [now apply strip_words | reflexivity]. }
  split; [exact Hlen|]. split; [exact Hshape|].
  destruct Hshape as (ws & Hws & E & _). rewrite E in Hlen |- *.
  unfold sanitize_input. rewrite (split_whitespace_concat ws Hws).
  destruct (Nat.ltb_spec MAX_IDEA_LENGTH (String.length (String.concat " " ws)));
    [lia|].
  now apply strip_words.
Qed.

(** *** The feature list *)

Lemma plain_feature_spec (feature : string) :
  plain_feature feature = true
  <-> (String.length feature <= 500)%nat
      /\ forall ind, In ind code_indicators -> contains ind feature = false.
Proof.
  unfold plain_feature. rewrite andb_true_iff, Nat.leb_le, negb_true_iff.
  split; intros [H1 H2]; (split; [exact H1|]).
  - intros ind Hin. destruct (contains ind feature) eqn:E; [|reflexivity].
    assert (existsb (fun ind => contains ind feature) code_indicators = true)
      by (apply existsb_exists; eauto).
    congruence.
  - destruct (existsb _ code_indicators) eqn:E; [|reflexivity].
    apply existsb_exists in E as (ind & Hin & Hc). rewrite (H2 ind Hin) in Hc.
    discriminate.
Qed.

(** [validate_feature_list] accepts exactly the lists whose features all
    have at most 500 characters and hold none of the code indicators, and
    then gives no message. Every other list is refused: the result is
    [False] with a message about the first feature, in list order, that
    breaks this, quoting its first 50 characters: "too long" when it has
    more than 500 characters, "looks like code" otherwise. *)
Theorem validate_feature_list_spec (features : list string) :
  (validate_feature_list features = (true, None)
   <-> forallb plain_feature features = true)
  /\ (forallb plain_feature features = false ->
      exists before bad after,
        features = before ++ bad :: after
        /\ forallb plain_feature before = true
        /\ plain_feature bad = false
        /\ validate_feature_list features
           = (false,
              Some (if (500 <? String.length bad)%nat
                    then "Feature description too long: '" ++ slice_to bad 50
                         ++ "...'"
                    else "Feature '" ++ slice_to bad 50
                         ++ "...' looks like code. Please describe features in plain English.")%string)).
Proof.
  induction features as [|f fs [IH1 IH2]]; [split; [tauto | discriminate]|].
  assert (Hpf : plain_feature f
                = negb (500 <? String.length f)%nat
                  && negb (existsb (fun ind => contains ind f) code_indicators)).
  { unfold plain_feature. now rewrite Nat.ltb_antisym, negb_involutive. }
  cbn [validate_feature_list forallb]. rewrite Hpf.
  destruct (500 <? String.length f)%nat eqn:Hlong; cbn [negb andb].
  - split; [split; discriminate|]. intros _.
    exists [], f, fs. split; [reflexivity|]. split; [reflexivity|].
    split; [now rewrite Hpf|]. now rewrite Hlong.
  - destruct (existsb (fun ind => contains ind f) code_indicators) eqn:Hcode;
      cbn [negb andb].
    + split; [split; discriminate|]. intros _.
      exists [], f, fs. split; [reflexivity|]. split; [reflexivity|].
      split; [now rewrite Hpf|]. now rewrite Hlong.
    + split; [exact IH1|]. intros Hbad.
      destruct (IH2 Hbad) as (before & bad & after & -> & Hb & Hbad' & Hv).
      exists (f :: before), bad, after.
      split; [reflexivity|]. split.
      * cbn [forallb]. rewrite Hpf. exact Hb.
      * split; assumption.
Qed.

Lemma validate_feature_list_spec_witness :
  validate_feature_list ["Login with email"; "Attendance reports"] = (true, None)
  /\ validate_feature_list ["Login with email"; "def mark(): pass"; "Reports"]
     = (false,
        Some "Feature 'def mark(): pass...' looks like code. Please describe features in plain English.").
Proof.
  split.
  - apply (proj1 (validate_feature_list_spec _)). reflexivity.
  - destruct (proj2 (validate_feature_list_spec
                       ["Login with email"; "def mark(): pass"; "Reports"]) eq_refl)
      as (before & bad & after & Hsplit & Hb & Hbad & Hv).
    rewrite Hv.
    destruct before as [|b0 before]; cbn in Hsplit;
      [injection Hsplit as <- <-; discriminate|].
    injection Hsplit as <- Hsplit.
    destruct before as [|b1 before]; cbn in Hsplit;
      [injection Hsplit as <- <-; reflexivity|].
    injection Hsplit as <- Hsplit. cbn in Hb. discriminate.
Defined.

(** ** The diagram text *)

Import MermaidGenerator.

Lemma first_index_contains (sub s : string) :
  contains sub s = true -> exists i, first_index sub s = Some i.
Proof.
  induction s as [|c r IH]; cbn [contains first_index]; intros H.
  - rewrite orb_false_r in H. rewrite H. eauto.
  - destruct (String.prefix sub (String c r)); [eauto|].
    destruct (IH H) as (i & ->). cbn. eauto.
Qed.

Lemma first_index_absent (sub s : string) :
  first_index sub s = None -> contains sub s = false.
Proof.
  induction s as [|c r IH]; cbn [contains first_index]; intros H.
  - destruct (String.prefix sub ""); [discriminate | reflexivity].
  - destruct (String.prefix sub (String c r)); [discriminate|].
    destruct (first_index sub r); [discriminate|]. now apply IH.
Qed.

Lemma first_index_prefix (sub s : string) (i : nat) :
  first_index sub s = Some i -> String.prefix sub (slice_from s i) = true.
Proof.
  revert i. induction s as [|c r IH]; cbn [first_index]; intros i H.
  - destruct (String.prefix sub "") eqn:E; [|discriminate].
    injection H as <-. exact E.
  - destruct (String.prefix sub (String c r)) eqn:E.
    + injection H as <-. exact E.
    + destruct (first_index sub r) as [j|]; [|discriminate].
      injection H as <-. cbn. now apply IH.
Qed.

Lemma prefix_slice_to (sub s : string) (n : nat) :
  String.prefix sub (slice_to s n) = true -> String.prefix sub s = true.
Proof.
  revert s n. induction sub as [|a sub IH]; intros s n H;
    [destruct s; reflexivity|].
  destruct n; [rewrite slice_to_0 in H; discriminate|].
  destruct s as [|b s]; [discriminate|]. cbn in H |- *.
  destruct (ascii_dec a b); [eapply IH; exact H | discriminate].
Qed.

(** Before its first occurrence a non-empty string does not occur. *)
Lemma first_index_before (sub s : string) (i : nat) :
  sub <> "" -> first_index sub s = Some i -> contains sub (slice_to s i) = false.
Proof.
  intros Hsub. revert i. induction s as [|c r IH]; cbn [first_index]; intros i H.
  - destruct sub; [contradiction|]. discriminate.
  - destruct (String.prefix sub (String c r)) eqn:E.
    + injection H as <-. destruct sub; [contradiction | reflexivity].
    + destruct (first_index sub r) as [j|]; [|discriminate].
      injection H as <-. cbn [slice_to contains].
      rewrite (IH j eq_refl), orb_false_r.
      destruct (String.prefix sub (String c (slice_to r j))) eqn:E'; [|reflexivity].
      apply (prefix_slice_to sub (String c r) (S j)) in E'. congruence.
Qed.

(** The first piece of a split is what comes before the first separator. *)
Lemma split_from_first (sep s : string) :
  forall cur, exists pieces,
    split_from sep 0 cur s
    = (cur ++ match first_index sep s with
              | Some i => slice_to s i
              | None => s
              end)%string :: pieces.
Proof.
  induction s as [|c r IH]; intros cur; cbn [split_from first_index].
  - destruct (String.prefix sep ""); cbn [slice_to]; rewrite append_nil_r; eauto.
  - destruct (String.prefix sep (String c r)).
    + cbn [slice_to]. rewrite append_nil_r. eauto.
    + destruct (IH (cur ++ String c "")%string) as (pieces & ->).
      exists pieces. f_equal. rewrite <- append_assoc.
      destruct (first_index sep r); reflexivity.
Qed.

Lemma split_first_free (sep s : string) :
  sep <> "" -> contains sep (nth 0 (split sep s) "") = false.
Proof.
  intros Hsep. unfold split.
  destruct (split_from_first sep s "") as (pieces & ->). cbn [nth append].
  destruct (first_index sep s) as [i|] eqn:E.
  - now apply first_index_before.
  - now apply first_index_absent.
Qed.

Lemma prefix_app_r (sub s after : string) :
  String.prefix sub s = true -> String.prefix sub (s ++ after) = true.
Proof.
  revert s. induction sub as [|a sub IH]; intros s H;
    [destruct (s ++ after)%string; reflexivity|].
  destruct s as [|b s]; [discriminate|]. cbn in H |- *.
  destruct (ascii_dec a b); [now apply IH | discriminate].
Qed.

(** What occurs in a part occurs in the whole. *)
Lemma contains_part (sub u s : string) :
  part_of u s -> contains sub u = true -> contains sub s = true.
Proof.
  intros (before & after & ->) H.
  assert (Hr : contains sub (u ++ after) = true).
  { clear before. induction u as [|c u IH]; cbn [contains append] in H |- *.
    - rewrite orb_false_r in H.
      destruct sub; [destruct after; reflexivity | discriminate].
    - apply orb_prop in H as [H|H].
      + change (String c (u ++ after)) with (String c u ++ after)%string.
        now rewrite (prefix_app_r _ _ after H).
      + rewrite (IH H). apply orb_true_r. }
  induction before as [|c before IH]; [exact Hr|].
  cbn [append contains]. rewrite IH. apply orb_true_r.
Qed.

Lemma free_part (sub u s : string) :
  part_of u s -> contains sub s = false -> contains sub u = false.
Proof.
  intros Hp Hs. destruct (contains sub u) eqn:E; [|reflexivity].
  rewrite (contains_part sub u s Hp E) in Hs. discriminate.
Qed.

Lemma rstrip_tail (c : ascii) (r : string) :
  rstrip (String c r) = String c r -> rstrip r = r.
Proof.
  cbn [rstrip]. destruct (rstrip r) as [|c' r'] eqn:E.
  - destruct (isspace c); [discriminate|]. now intros [= <-].
  - now intros [= <-].
Qed.

Lemma rstrip_slice_from (s : string) (i : nat) :
  rstrip s = s -> rstrip (slice_from s i) = slice_from s i.
Proof.
  revert s. induction i as [|i IH]; intros s H; destruct s as [|c r];
    cbn [slice_from]; try exact H; try reflexivity.
  apply IH. now apply rstrip_tail in H.
Qed.

Lemma rstrip_strip (s : string) : rstrip (strip s) = strip s.
Proof. unfold strip. apply rstrip_idempotent. Qed.

Lemma valid_start_head (start s : string) :
  In start valid_starts -> String.prefix start s = true -> lstrip s = s.
Proof.
  intros Hin Hp. destruct s as [|c r]; [reflexivity|].
  assert (Hc : isspace c = false).
  { cbn in Hin. cbn in Hp.
    destruct Hin as [<-|[<-|[<-|[<-|[]]]]];
      match type of Hp with
      | context [ascii_dec ?a c] => destruct (ascii_dec a c) as [<-|]
      end; try discriminate; reflexivity. }
  cbn. now rewrite Hc.
Qed.

Lemma between_fences_done (fence content : string) :
  fence <> "" -> contains fence content = true ->
  exists text,
    between_fences fence content = Done text
    /\ part_of text content
    /\ contains "```" text = false.
Proof.
  intros Hf Hc. unfold between_fences, split.
  destruct (split_from_contains fence content Hf Hc "")
    as (first & second & pieces & E).
  assert (Hsecond : part_of second content).
  { pose proof (split_nth_part fence content 1) as H. unfold split in H.
    now rewrite E in H. }
  rewrite E. cbn [list_index nth_error builtin and_then].
  destruct (split_from_nonempty "```" second 0 "") as (text & rest & E').
  pose proof (split_nth_part "```" second 0) as Hp.
  pose proof (split_first_free "```" second) as Hfree.
  unfold split in Hp, Hfree. rewrite E' in Hp, Hfree |- *.
  cbn [nth] in Hp, Hfree. cbn [nth_error builtin].
  exists text. split; [reflexivity|]. split.
  - eapply part_of_trans; eassumption.
  - apply Hfree. discriminate.
Qed.

Lemma cut_at_start_done (content : string) :
  strip content = content ->
  forall starts, incl starts valid_starts ->
    exists out,
      cut_at_start starts content = Done out
      /\ part_of out content
      /\ strip out = out
      /\ (existsb (fun start => String.prefix start out) valid_starts = true
          \/ out = content
             /\ forall start, In start starts -> contains start content = false).
Proof.
  intros Hs. induction starts as [|start rest IH]; intros Hincl;
    cbn [cut_at_start].
  - exists content. repeat split; try assumption; [apply part_of_refl|].
    right. split; [reflexivity|]. intros ? [].
  - destruct (contains start content) eqn:Hc.
    + destruct (first_index_contains _ _ Hc) as (i & Hi).
      unfold str_index. rewrite Hi. cbn [and_then].
      pose proof (first_index_prefix _ _ _ Hi) as Hp.
      assert (Hin : In start valid_starts) by (apply Hincl; now left).
      exists (slice_from content i). split; [reflexivity|].
      split; [apply slice_from_part|]. split.
      * unfold strip. rewrite (valid_start_head start _ Hin Hp).
        apply rstrip_slice_from. rewrite <- Hs. apply rstrip_strip.
      * left. apply existsb_exists. eauto.
    + destruct IH as (out & E & Hpart & Hstrip & Hshape).
      { intros x Hx. apply Hincl. now right. }
      exists out. repeat split; try assumption.
      destruct Hshape as [H|[-> H]]; [now left | right].
      split; [reflexivity|]. intros x [<-|Hx]; [exact Hc | now apply H].
Qed.

(** [_clean_mermaid_code] never raises on a str. What it returns is a part
    of the content with no white space at either end; it begins with one of
    the four diagram declarations, or none of them occurs in it; and when
    the content held a code fence, no fence is left in it. *)
Theorem clean_mermaid_code_shape (content : string) :
  exists out,
    _clean_mermaid_code content = Done out
    /\ part_of out content
    /\ strip out = out
    /\ (existsb (fun start => String.prefix start out) valid_starts = true
        \/ forall start, In start valid_starts -> contains start out = false)
    /\ (contains "```" content = true -> contains "```" out = false).
Proof.
  assert (Hfence : exists text,
             (if contains "```mermaid" content
              then between_fences "```mermaid" content
              else if contains "```" content
                   then between_fences "```" content
                   else Done content) = Done text
             /\ part_of text content
             /\ (contains "```" content = true -> contains "```" text = false)).
  { destruct (contains "```mermaid" content) eqn:Hm.
    - destruct (between_fences_done "```mermaid" content) as (text & E & Hp & Hf);
        [discriminate | exact Hm |].
      exists text. auto.
    - destruct (contains "```" content) eqn:Hf.
      + destruct (between_fences_done "```" content) as (text & E & Hp & Hfree);
          [discriminate | exact Hf |].
        exists text. auto.
      + exists content. split; [reflexivity|].
        split; [apply part_of_refl | discriminate]. }
  destruct Hfence as (text & E & Hpart & Hfree).
  unfold _clean_mermaid_code. rewrite E. cbn [and_then]. cbv zeta.
  assert (Hstripped : part_of (strip text) content)
    by (eapply part_of_trans; [apply strip_part | exact Hpart]).
  destruct (existsb (fun start => String.prefix start (strip text)) valid_starts)
    eqn:Hstart; cbn [negb].
  - exists (strip text). split; [reflexivity|]. split; [exact Hstripped|].
    split; [apply strip_idempotent|]. split; [now left|].
    intros H. eapply free_part; [apply strip_part | now apply Hfree].
  - destruct (cut_at_start_done (strip text) (strip_idempotent text)
                valid_starts (incl_refl _))
      as (out & Eo & Hp & Hs & Hshape).
    exists out. split; [exact Eo|].
    split; [eapply part_of_trans; eassumption|]. split; [exact Hs|]. split.
    + destruct Hshape as [H|[-> H]]; [now left | now right].
    + intros H. eapply free_part; [exact Hp|].
      eapply free_part; [apply strip_part | now apply Hfree].
Qed.
